(** * Peru Regional Telemetry: the data pipeline of [utils.py], [views.py]
      and [app.py], embedded in Rocq.

    The pipeline is fetch -> transform -> (filter by day) -> metrics and
    charts.  Python exceptions are an explicit [outcome]; the Streamlit
    calls, the console, the HTTP requests that were sent and the cache of
    [st.cache_data] live in a [world] that every effectful function
    threads through.  A number is the rational that the float64 denotes
    ([Q]) and a missing value (JSON [null], pandas [NaN]/[NaT]) is [None];
    comparing, selecting and formatting numbers is exact on these.  Where
    pandas computes with floats (the rolling mean) the arithmetic is a
    parameter of which nothing is assumed. *)

From Stdlib Require Import ZArith QArith Qround Lqa List Ascii String Bool Lia.
From stdpp Require Import base option list strings gmap.
Import ListNotations.

Local Open Scope string_scope.
Local Open Scope Z_scope.

(** ** Python results *)

(** The exceptions that the modelled code can raise and never catches. *)
Inductive exn :=
| KeyError (key : string)
| TypeError
| ValueError
| IndexError
| RecursionError.

Inductive outcome (A : Type) :=
| Ret (a : A)
| Raise (e : exn).
Arguments Ret {A} a.
Arguments Raise {A} e.

Definition raised {A} (o : outcome A) : Prop :=
  match o with Raise _ => True | Ret _ => False end.

Definition obind {A B} (o : outcome A) (k : A -> outcome B) : outcome B :=
  match o with
  | Ret a => k a
  | Raise e => Raise e
  end.

(** ** JSON values, as [response.json()] returns them *)

#[warnings="-register-all"]
Inductive json :=
| JNull
| JBool (b : bool)
| JNum (q : Q)
| JStr (s : string)
| JArr (items : list json)
| JObj (members : list (string * json)).

(** Is the text [needle] a substring of [hay]?  (Python [needle in hay]
    on two [str].) *)
Definition str_contains (needle hay : string) : bool :=
  match String.index 0 needle hay with
  | Some _ => true
  | None => false
  end.

Definition json_is_str (s : string) (j : json) : bool :=
  match j with
  | JStr t => String.eqb s t
  | _ => false
  end.

Fixpoint dict_get (key : string) (members : list (string * json)) : option json :=
  match members with
  | [] => None
  | (k, v) :: rest => if String.eqb key k then Some v else dict_get key rest
  end.

(** Python [key in data]: key membership for a dict, element membership
    for a list, substring test for a str, [TypeError] for anything that is
    not a container ([None], a bool, a number). *)
Definition py_contains (key : string) (data : json) : outcome bool :=
  match data with
  | JObj members => Ret (bool_decide (is_Some (dict_get key members)))
  | JArr items => Ret (existsb (json_is_str key) items)
  | JStr s => Ret (str_contains key s)
  | JNull | JBool _ | JNum _ => Raise TypeError
  end.

(** Python [data[key]] with a string key: the value for a dict,
    [KeyError] when the dict lacks it, [TypeError] for a list or a str
    (indices must be integers) and for a non-container. *)
Definition py_getitem (data : json) (key : string) : outcome json :=
  match data with
  | JObj members =>
      match dict_get key members with
      | Some v => Ret v
      | None => Raise (KeyError key)
      end
  | _ => Raise TypeError
  end.

(** ** Frames ([pandas]) *)

Notation "'let?' x ':=' o 'in' k" := (obind o (fun x => k))
  (at level 10, x name, o at level 100, k at level 200).

Record datetime := DateTime {
  year : Z; month : Z; day : Z; hour : Z; minute : Z
}.

(** A calendar date: year, month, day. *)
Definition date : Type := Z * Z * Z.

Definition datetime_date (t : datetime) : date := (year t, month t, day t).

Definition date_eqb (a b : date) : bool :=
  match a, b with
  | (y1, m1, d1), (y2, m2, d2) => (y1 =? y2) && (m1 =? m2) && (d1 =? d2)
  end.

(** A column of a frame: [df[name]]. *)
Inductive series :=
| NumSeries (values : list (option Q))
| TimeSeries (stamps : list (option datetime)).

(** The hourly section of the provider's payload, [data["data_1h"]]: an
    object of arrays, one array per field, of numbers (or [null]) for the
    four measurements and of texts for [time].  A field that the object
    lacks is [None].  Fields other than these five are not represented:
    [columns=target_columns] never reads them. *)
Record data_1h := Data1h {
  h_time : option (list (option string));
  h_temperature : option (list (option Q));
  h_felttemperature : option (list (option Q));
  h_precipitation : option (list (option Q));
  h_convective_precipitation : option (list (option Q))
}.

(** The payload as [transform_data] reads it: the one key it looks up.
    [None]: the dict has no key ["data_1h"]. *)
Record RawPayload := Payload {
  payload_data_1h : option data_1h
}.

(** The frame right after [pd.DataFrame(data_1h, columns=target_columns)]:
    [time] is still text.  pandas turns a [null] that stands next to
    numbers into [NaN], but an array of nothing but [null]s stays a column
    of Python [None] objects (dtype [object]); [raw_none_columns] names
    the measurement columns of that kind. *)
Record RawFrame := MkRawFrame {
  raw_time : list (option string);
  raw_temperature : list (option Q);
  raw_felttemperature : list (option Q);
  raw_precipitation : list (option Q);
  raw_convective_precipitation : list (option Q);
  raw_none_columns : list string
}.

(** The frame that [transform_data] returns.  [none_columns]: the
    measurement columns that hold [None] objects instead of [NaN]; a
    selection of rows keeps the kind of a column. *)
Record DataFrame := MkDataFrame {
  time : list (option datetime);
  temperature : list (option Q);
  felttemperature : list (option Q);
  precipitation : list (option Q);
  convective_precipitation : list (option Q);
  smooth_temperature : list (option Q);
  smooth_felttemperature : list (option Q);
  none_columns : list string
}.

(** The lengths of the target columns that the dict does have, in the
    order of [target_columns]. *)
Definition present_lengths (d : data_1h) : list nat :=
  omap id [ length <$> h_time d;
            length <$> h_temperature d;
            length <$> h_felttemperature d;
            length <$> h_precipitation d;
            length <$> h_convective_precipitation d ].

(** The row index of the new frame: the common length of the selected
    arrays, [ValueError] ("All arrays must be of the same length") when
    they differ, no rows when the dict has none of the columns. *)
Definition extract_index (lengths : list nat) : outcome nat :=
  match lengths with
  | [] => Ret 0%nat
  | n :: rest => if forallb (Nat.eqb n) rest then Ret n else Raise ValueError
  end.

(** A selected column: the array of the dict, or, for a column that the
    dict lacks, as many missing values as the frame has rows. *)
Definition column_or_nan {A} (n : nat) (c : option (list (option A))) : list (option A) :=
  match c with
  | Some xs => xs
  | None => replicate n None
  end.

(** Is the array there, not empty, and nothing but [null]s? *)
Definition all_null (c : option (list (option Q))) : bool :=
  match c with
  | Some (x :: xs) => forallb (fun v => match v with None => true | Some _ => false end) (x :: xs)
  | _ => false
  end.

Definition none_columns_of (d : data_1h) : list string :=
  ((if all_null (h_temperature d) then ["temperature"] else []) ++
   (if all_null (h_felttemperature d) then ["felttemperature"] else []) ++
   (if all_null (h_precipitation d) then ["precipitation"] else []) ++
   (if all_null (h_convective_precipitation d) then ["convective_precipitation"] else []))%list.

Definition pd_DataFrame (d : data_1h) : outcome RawFrame :=
  let? n := extract_index (present_lengths d) in
  Ret (MkRawFrame (column_or_nan n (h_time d))
                  (column_or_nan n (h_temperature d))
                  (column_or_nan n (h_felttemperature d))
                  (column_or_nan n (h_precipitation d))
                  (column_or_nan n (h_convective_precipitation d))
                  (none_columns_of d)).

(** The window that ends at position [i]: [xs[max(0, i + 1 - window) : i + 1]]. *)
Definition window_at (window i : nat) (xs : list (option Q)) : list (option Q) :=
  drop (S i - window) (take (S i) xs).

(** How [pd.to_datetime] reads one text of a column: as a point in time,
    as [NaT] (the empty text, ["NaT"]), or not at all. *)
Inductive time_reading :=
| ReadTime (t : datetime)
| ReadNaT
| Unreadable.

Definition stamp_of (r : time_reading) : option datetime :=
  match r with
  | ReadTime t => Some t
  | ReadNaT | Unreadable => None
  end.

Section Transform.
(** [pd.to_datetime] on a text [s] of the column [col].  The reading
    depends on the column: pandas infers one format from the first text
    and matches every text against it. *)
Variable to_datetime : list (option string) -> string -> time_reading.

(** The float64 number that pandas computes for the last row of [seen]
    (the rows of the column so far, oldest first) from its running sum
    and count over a window of [window] rows; [None] is [NaN].  The sum
    is carried from row to row, so the roundings of earlier rows go into
    it. *)
Variable float64_mean : nat -> list (option Q) -> option Q.

(** [pd.to_datetime(df['time'])]: a missing entry becomes [NaT], a text
    that pandas cannot read raises ([ValueError]: the text does not match
    the format, or denotes no date). *)
Fixpoint read_times (col rest : list (option string)) : outcome (list (option datetime)) :=
  match rest with
  | [] => Ret []
  | None :: rest' =>
      let? ts := read_times col rest' in Ret (None :: ts)
  | Some s :: rest' =>
      match to_datetime col s with
      | Unreadable => Raise ValueError
      | reading => let? ts := read_times col rest' in Ret (stamp_of reading :: ts)
      end
  end.

Definition pd_to_datetime (col : list (option string)) : outcome (list (option datetime)) :=
  read_times col col.

(** [Series.rolling(window, min_periods).mean()]: at each position the
    window holds the current value and up to [window - 1] values before
    it; the result is missing when fewer than [min_periods] values of the
    window (or none) are present, and else the float64 mean of those
    that are. *)
Definition rolling_mean (window min_periods : nat) (xs : list (option Q)) : list (option Q) :=
  map (fun i =>
         let nobs := length (omap id (window_at window i xs)) in
         if ((min_periods <=? nobs) && (0 <? nobs))%nat
         then float64_mean window (take (S i) xs)
         else None)
      (seq 0 (length xs)).

(** [transform_data] (utils.py, lines 113-146). *)
Definition transform_data (data : RawPayload) : outcome DataFrame :=
  let? data_1h :=
    match payload_data_1h data with
    | Some d => Ret d
    | None => Raise (KeyError "data_1h")
    end in
  let? df := pd_DataFrame data_1h in
  let? time := pd_to_datetime (raw_time df) in
  let smooth_temperature := rolling_mean 3 1 (raw_temperature df) in
  let smooth_felttemperature := rolling_mean 3 1 (raw_felttemperature df) in
  Ret (MkDataFrame time
                   (raw_temperature df)
                   (raw_felttemperature df)
                   (raw_precipitation df)
                   (raw_convective_precipitation df)
                   smooth_temperature
                   smooth_felttemperature
                   (raw_none_columns df)).

End Transform.

(** The number of rows, and [df.empty]. *)
Definition df_len (df : DataFrame) : nat := length (time df).

Definition df_empty (df : DataFrame) : bool := (df_len df =? 0)%nat.

(** Does the column [name] hold [None] objects?  It does when it is of
    that kind and the frame has rows. *)
Definition holds_none (df : DataFrame) (name : string) : bool :=
  existsb (String.eqb name) (none_columns df) && negb (df_empty df).

(** [df[name]] for a column name: the column, or [KeyError]. *)
Definition df_getitem (df : DataFrame) (name : string) : outcome series :=
  if String.eqb name "time" then Ret (TimeSeries (time df))
  else if String.eqb name "temperature" then Ret (NumSeries (temperature df))
  else if String.eqb name "felttemperature" then Ret (NumSeries (felttemperature df))
  else if String.eqb name "precipitation" then Ret (NumSeries (precipitation df))
  else if String.eqb name "convective_precipitation"
       then Ret (NumSeries (convective_precipitation df))
  else if String.eqb name "smooth_temperature"
       then Ret (NumSeries (smooth_temperature df))
  else if String.eqb name "smooth_felttemperature"
       then Ret (NumSeries (smooth_felttemperature df))
  else Raise (KeyError name).

(** [df['time'].dt.date == selected_date]: one boolean per row; the date
    of [NaT] compares unequal to every date. *)
Definition date_mask (col : list (option datetime)) (selected_date : date) : list bool :=
  map (fun t => match t with
                | Some t => date_eqb (datetime_date t) selected_date
                | None => false
                end) col.

(** [xs[mask]]: the entries whose mask bit is set, in their order. *)
Fixpoint boolean_index {A} (xs : list A) (mask : list bool) : list A :=
  match xs, mask with
  | x :: xs', b :: mask' =>
      if b then x :: boolean_index xs' mask' else boolean_index xs' mask'
  | _, _ => []
  end.

(** [df[mask]] selects the same rows of every column. *)
Definition df_getitem_mask (df : DataFrame) (mask : list bool) : DataFrame :=
  MkDataFrame (boolean_index (time df) mask)
              (boolean_index (temperature df) mask)
              (boolean_index (felttemperature df) mask)
              (boolean_index (precipitation df) mask)
              (boolean_index (convective_precipitation df) mask)
              (boolean_index (smooth_temperature df) mask)
              (boolean_index (smooth_felttemperature df) mask)
              (none_columns df).

(** app.py, line 81: [df_day = df[df['time'].dt.date == selected_date]]. *)
Definition df_day (df : DataFrame) (selected_date : date) : DataFrame :=
  df_getitem_mask df (date_mask (time df) selected_date).

(** The records of a frame, one per row. *)
Record record := MkRecord {
  r_time : option datetime;
  r_temperature : option Q;
  r_felttemperature : option Q;
  r_precipitation : option Q;
  r_convective_precipitation : option Q;
  r_smooth_temperature : option Q;
  r_smooth_felttemperature : option Q
}.

Fixpoint zip_records (ts : list (option datetime))
    (c1 c2 c3 c4 c5 c6 : list (option Q)) : list record :=
  match ts, c1, c2, c3, c4, c5, c6 with
  | t :: ts', x1 :: c1', x2 :: c2', x3 :: c3', x4 :: c4', x5 :: c5', x6 :: c6' =>
      MkRecord t x1 x2 x3 x4 x5 x6 :: zip_records ts' c1' c2' c3' c4' c5' c6'
  | _, _, _, _, _, _, _ => []
  end.

Definition records (df : DataFrame) : list record :=
  zip_records (time df) (temperature df) (felttemperature df) (precipitation df)
              (convective_precipitation df) (smooth_temperature df)
              (smooth_felttemperature df).

(** Every column has one entry per row. *)
Definition well_formed (df : DataFrame) : Prop :=
  length (temperature df) = df_len df /\
  length (felttemperature df) = df_len df /\
  length (precipitation df) = df_len df /\
  length (convective_precipitation df) = df_len df /\
  length (smooth_temperature df) = df_len df /\
  length (smooth_felttemperature df) = df_len df.

(** Does the record fall on the calendar date [d]? *)
Definition on_date (d : date) (r : record) : bool :=
  match r_time r with
  | Some t => date_eqb (datetime_date t) d
  | None => false
  end.

(** [Series.max()] and [Series.min()]: missing values are skipped; the
    result is missing when nothing is left. *)
Section Extremum.
Context {A : Type} (leb : A -> A -> bool).

Definition pick_max (acc x : option A) : option A :=
  match acc, x with
  | None, _ => x
  | Some a, None => Some a
  | Some a, Some b => if leb a b then Some b else Some a
  end.

Definition pick_min (acc x : option A) : option A :=
  match acc, x with
  | None, _ => x
  | Some a, None => Some a
  | Some a, Some b => if leb b a then Some b else Some a
  end.

Definition series_max (xs : list (option A)) : option A := fold_left pick_max xs None.
Definition series_min (xs : list (option A)) : option A := fold_left pick_min xs None.
End Extremum.

Definition datetime_leb (a b : datetime) : bool :=
  match year a ?= year b with
  | Lt => true | Gt => false
  | Eq =>
    match month a ?= month b with
    | Lt => true | Gt => false
    | Eq =>
      match day a ?= day b with
      | Lt => true | Gt => false
      | Eq =>
        match hour a ?= hour b with
        | Lt => true | Gt => false
        | Eq => minute a <=? minute b
        end
      end
    end
  end.

(** ** Charts ([matplotlib]) *)

(** What [ax.plot] and [ax.bar] put on the axes. *)
Inductive artist :=
| Line2D (x y : series) (linewidth : Z) (label : string)
| BarContainer (x y : series) (label : string).

Record Figure := MkFigure {
  figsize : Z * Z;
  artists : list artist;
  xlabel : string * Z;      (* text, fontsize *)
  ylabel : string * Z;
  tick_labelsize : Z;
  major_formatter : string; (* mdates.DateFormatter(date_format) *)
  legend_fontsize : Z;
  grid : bool
}.

Definition CHART_FIGSIZE : Z * Z := (13, 7).

(** The [y_cols] argument: [list[str] | str]. *)
Inductive y_cols_arg :=
| YStr (s : string)
| YList (l : list string).

(** The loop of the ["line"] branch. *)
Fixpoint plot_lines (df : DataFrame) (x_col : string) (y_cols : list string)
    : outcome (list artist) :=
  match y_cols with
  | [] => Ret []
  | y_col :: rest =>
      let? x := df_getitem df x_col in
      let? y := df_getitem df y_col in
      let? more := plot_lines df x_col rest in
      Ret (Line2D x y 1 y_col :: more)
  end.

(** [ax.bar(x, height, label=...)] computes with its arguments right
    away ([x - width / 2], [bottom + height]); with [None] objects that
    raises [TypeError]. *)
Definition ax_bar (df : DataFrame) (x_col y_col : string) (x y : series)
    : outcome (list artist) :=
  if holds_none df x_col || holds_none df y_col then Raise TypeError
  else Ret [BarContainer x y y_col].

(** [plot_data] (utils.py, lines 149-202). *)
Definition plot_data (df : DataFrame) (x_col : string) (y_cols : y_cols_arg)
    (x_label y_label graph_type date_format : string) : outcome Figure :=
  let y_cols :=
    match y_cols with
    | YStr s => [s]      (* isinstance(y_cols, str) *)
    | YList l => l
    end in
  let? drawn :=
    if String.eqb graph_type "line" then plot_lines df x_col y_cols
    else if String.eqb graph_type "bar" then
      let? x := df_getitem df x_col in
      let? y_col0 := match y_cols with
                     | c :: _ => Ret c
                     | [] => Raise IndexError
                     end in
      let? y := df_getitem df y_col0 in
      ax_bar df x_col y_col0 x y
    else Ret [] in
  Ret (MkFigure CHART_FIGSIZE drawn (x_label, 20) (y_label, 16) 12
                date_format 16 true).

(** ** The HTTP exchange ([requests]) *)

Section Client.
Context {coord : Type} `{Countable coord}.

(** [meteo_params] of [fetch_data]. *)
Record meteo_params := MeteoParams {
  apikey : string;
  lat : coord;
  lon : coord;
  format : string;
  forecast_days : Z;
  temperature_unit : string;
  windspeed_unit : string;
  precipitationamount_unit : string
}.

Record request := Request {
  url : string;
  params : meteo_params
}.

(** What [response.json()] does with the text: it returns the parsed
    value, raises [JSONDecodeError], or raises something else (a
    [RecursionError] on a text nested too deep). *)
Inductive json_result :=
| Parsed (data : json)
| JSONDecodeError
| JsonRaises (e : exn).

(** What came back: the status line, the raw text and what
    [response.json()] makes of the text. *)
Record response := Response {
  status_code : Z;
  text : string;
  body : json_result
}.

(** What [requests.get] does: it returns a response, or raises
    [ConnectionError], or raises another [RequestException]. *)
Inductive transport :=
| Responded (r : response)
| ConnectionError
| RequestException.

(** [response.raise_for_status()] raises [HTTPError] for 4xx and 5xx. *)
Definition raise_for_status (r : response) : bool :=
  (400 <=? status_code r) && (status_code r <? 600).

(** ** Streamlit effects *)

(** The [st.error] messages of [fetch_data], one constructor per call
    site. *)
Inductive error_message :=
| ApiKeyMissing                  (* "System Error: API Key is missing." *)
| AuthorizationErrorMsg          (* status 403 *)
| QuotaExceededMsg               (* status 429 *)
| ServerErrorMsg (status : Z)    (* status >= 500 *)
| ApiErrorMsg (status : Z)       (* any other HTTPError *)
| ConnectionErrorMsg             (* requests ConnectionError *)
| RequestErrorMsg                (* any other RequestException *)
| DataErrorMsg                   (* JSONDecodeError *)
| ApiMessage (m : json).         (* "error_message" inside the JSON *)

(** The value shown by [st.metric]: what [f"{val:.1f}"] gives.  A number
    shows with one decimal ([MDecimal 123] is ["12.3"]; the sign of a zero
    is not kept), [NaN] shows as ["nan"], and a point in time takes the
    format for a [strftime] pattern and shows it as it is, [".1f"]. *)
Inductive metric_value :=
| MDecimal (tenths : Z)
| MNan
| MFormatText.

Inductive st_event :=
| StError (m : error_message)
| StWarning (msg : string)
| StSubheader (title : string)
| StCaption
| StMetric (label : string) (value : metric_value) (unit : string)
| StDivider
| StPyplot (fig : Figure).

(** An entry of the [st.cache_data] store: the pickled return value, the
    Streamlit elements to replay on a hit and the time it was stored. *)
Record cache_entry := CacheEntry {
  cached_value : option json;
  cached_elements : list st_event;
  stored_at : Z
}.

Record world := World {
  clock : Z;                               (* seconds, monotonic *)
  ui : list st_event;                      (* Streamlit calls, oldest first *)
  console : list string;                   (* print *)
  sent : list request;                     (* HTTP requests, oldest first *)
  cache : gmap (coord * coord) cache_entry (* st.cache_data of fetch_data *)
}.

(** ** The state-and-exception monad of the effectful functions *)

Definition M (A : Type) : Type := world -> outcome A * world.

Definition ret {A} (a : A) : M A := fun w => (Ret a, w).
Definition bind {A B} (m : M A) (k : A -> M B) : M B :=
  fun w =>
    match m w with
    | (Ret a, w') => k a w'
    | (Raise e, w') => (Raise e, w')
    end.
Definition lift {A} (o : outcome A) : M A := fun w => (o, w).

Notation "x <- m ;; k" := (bind m (fun x => k))
  (at level 100, m at next level, right associativity).
Notation "m ;; k" := (bind m (fun _ => k))
  (at level 100, right associativity).

Definition emit (e : st_event) : M unit :=
  fun w => (Ret tt, World (clock w) (ui w ++ [e]) (console w) (sent w) (cache w)).
Definition st_error (m : error_message) : M unit := emit (StError m).
Definition print (s : string) : M unit :=
  fun w => (Ret tt, World (clock w) (ui w) (console w ++ [s]) (sent w) (cache w)).

Section Fetch.
(** [API_KEY] is read once from the secrets when [utils] is imported; the
    provider is whatever answers a request at a given time. *)
Variable API_KEY : string.
Variable provider : Z -> request -> transport.

Definition METEODATA_URL : string := "https://my.meteoblue.com/packages/basic-1h".

(** [requests.get(url, params=...)]: the request leaves the process and
    the provider's answer comes back. *)
Definition requests_get (u : string) (p : meteo_params) : M transport :=
  fun w =>
    let rq := Request u p in
    (Ret (provider (clock w) rq),
     World (clock w) (ui w) (console w) (sent w ++ [rq]) (cache w)).

(** The body of [fetch_data] (utils.py, lines 31-109), under the
    decorator.  [None] is Python's [None]. *)
Definition fetch_data_body (lat lon : coord) : M (option json) :=
  (* 1. Check if the API key is available *)
  if String.eqb API_KEY "" then
    st_error ApiKeyMissing ;; ret None
  else
    (* 2. Set up the request parameters *)
    let meteo_params :=
      MeteoParams API_KEY lat lon "json" 7 "C" "ms-1" "mm" in
    (* 3. Make the API call *)
    t <- requests_get METEODATA_URL meteo_params ;;
    match t with
    | Responded response =>
        if raise_for_status response then
          (* except requests.exceptions.HTTPError *)
          let status_code := status_code response in
          (if status_code =? 403 then st_error AuthorizationErrorMsg
           else if status_code =? 429 then st_error QuotaExceededMsg
           else if 500 <=? status_code then st_error (ServerErrorMsg status_code)
           else st_error (ApiErrorMsg status_code)) ;;
          print (String.append "Detailed error: " (text response)) ;;
          ret None
        else
          (* 4. Process and return the successful response *)
          match body response with
          | JSONDecodeError =>
              (* except requests.exceptions.JSONDecodeError *)
              st_error DataErrorMsg ;; ret None
          | JsonRaises e => lift (Raise e)
          | Parsed data =>
              has_error <- lift (py_contains "error_message" data) ;;
              if (has_error : bool) then
                m <- lift (py_getitem data "error_message") ;;
                st_error (ApiMessage m) ;;
                ret None
              else ret (Some data)
          end
    | ConnectionError =>
        st_error ConnectionErrorMsg ;; ret None
    | RequestException =>
        st_error RequestErrorMsg ;; ret None
    end.

(** [@st.cache_data(ttl="1d")]: the store is keyed by the arguments; an
    entry is served while [clock < stored_at + ttl] (the store is a
    [TTLCache] on a monotonic clock), and serving it replays the
    Streamlit elements of the run that filled it.  A run that returns is
    stored whatever it returned, [None] included; a run that raises stores
    nothing. *)
Definition ttl_1d : Z := 86400.

Definition cache_read (ttl : Z) (key : coord * coord) (w : world) : option cache_entry :=
  match cache w !! key with
  | Some e => if clock w <? stored_at e + ttl then Some e else None
  | None => None
  end.

Definition replay (evs : list st_event) : M unit :=
  fun w => (Ret tt, World (clock w) (ui w ++ evs) (console w) (sent w) (cache w)).

Definition cache_write (key : coord * coord) (v : option json) (evs : list st_event) : M unit :=
  fun w =>
    (Ret tt,
     World (clock w) (ui w) (console w) (sent w)
           (<[key := CacheEntry v evs (clock w)]> (cache w))).

Definition st_cache_data (ttl : Z) (f : coord -> coord -> M (option json))
    (lat lon : coord) : M (option json) :=
  fun w =>
    match cache_read ttl (lat, lon) w with
    | Some e => (replay (cached_elements e) ;; ret (cached_value e)) w
    | None =>
        match f lat lon w with
        | (Ret v, w') =>
            (cache_write (lat, lon) v (drop (length (ui w)) (ui w')) ;; ret v) w'
        | (Raise e, w') => (Raise e, w')
        end
    end.

Definition fetch_data : coord -> coord -> M (option json) :=
  st_cache_data ttl_1d fetch_data_body.

End Fetch.

(** ** Metrics and views *)

Definition st_metric (label : string) (value : metric_value) (unit_ : string) : M unit :=
  emit (StMetric label value unit_).

(** What [Series.max()] and [Series.min()] return: a number or [NaN], a
    point in time or [NaT]. *)
Inductive scalar :=
| SNum (v : option Q)
| STime (v : option datetime).

Definition Series_max (col : series) : scalar :=
  match col with
  | NumSeries xs => SNum (series_max Qle_bool xs)
  | TimeSeries ts => STime (series_max datetime_leb ts)
  end.

Definition Series_min (col : series) : scalar :=
  match col with
  | NumSeries xs => SNum (series_min Qle_bool xs)
  | TimeSeries ts => STime (series_min datetime_leb ts)
  end.

(** The integer nearest to [q], the even one of the two when [q] lies
    halfway. *)
Definition round_half_even (q : Q) : Z :=
  let f := Qfloor q in
  match (q - inject_Z f ?= 1 # 2)%Q with
  | Lt => f
  | Gt => f + 1
  | Eq => if Z.even f then f else f + 1
  end.

(** [f"{val:.1f}"].  A float is rounded to one decimal, correctly and
    with ties to even; [NaN] gives ["nan"]; a [Timestamp] formats by
    [strftime], which copies a pattern without directives; [NaT] does not
    support [strftime] and raises [ValueError]. *)
Definition format_1f (val : scalar) : outcome metric_value :=
  match val with
  | SNum (Some x) => Ret (MDecimal (round_half_even (10 * x)%Q))
  | SNum None => Ret MNan
  | STime (Some _) => Ret MFormatText
  | STime None => Raise ValueError
  end.

(** [display_metrics] (utils.py, lines 225-244).  [st.columns(2)] only
    lays out the two metrics; it adds no element of its own to [ui]. *)
Definition display_metrics (df : DataFrame) (column_name label unit_ : string) : M unit :=
  col_for_max <- lift (df_getitem df column_name) ;;
  let max_val := Series_max col_for_max in
  col_for_min <- lift (df_getitem df column_name) ;;
  let min_val := Series_min col_for_min in
  max_text <- lift (format_1f max_val) ;;
  st_metric (String.append "Maximum " label) max_text unit_ ;;
  min_text <- lift (format_1f min_val) ;;
  st_metric (String.append "Minimum " label) min_text unit_ ;;
  emit StDivider.

(** constants.py *)
Definition DATE_FMT_OVERVIEW : string := "%d-%m-%Y".
Definition DATE_FMT_DETAIL : string := "%H:%M".
Definition LABEL_TEMP : string := "Temperature (°C)".
Definition LABEL_TOTAL_PREP : string := "Total Precipitation (mm)".
Definition LABEL_CONV_PREP : string := "Convective Precipitation - rains (mm)".
Definition LABEL_DATE : string := "Date".
Definition LABEL_HOURS : string := "Time (hours)".
Definition MSG_NO_DATA : string := "No data available.".

Definition st_pyplot (fig : outcome Figure) : M unit :=
  f <- lift fig ;; emit (StPyplot f).

(** [render_overview_content] (views.py, lines 58-95). *)
Definition render_overview_content (df : DataFrame) : M unit :=
  if df_empty df then emit (StWarning MSG_NO_DATA)
  else
    emit (StSubheader "Temperature") ;;
    display_metrics df "temperature" "temperature" "°C" ;;
    emit StCaption ;;
    st_pyplot (plot_data df "time" (YList ["temperature"; "felttemperature"])
                         LABEL_DATE LABEL_TEMP "line" DATE_FMT_OVERVIEW) ;;
    emit (StSubheader "All Precipitations") ;;
    display_metrics df "precipitation" "precipitation" "mm" ;;
    st_pyplot (plot_data df "time" (YList ["precipitation"])
                         LABEL_DATE LABEL_TOTAL_PREP "bar" DATE_FMT_OVERVIEW) ;;
    emit (StSubheader "Convective precipitations") ;;
    emit StCaption ;;
    display_metrics df "convective_precipitation" "conv. precipitation" "mm" ;;
    st_pyplot (plot_data df "time" (YList ["convective_precipitation"])
                         LABEL_DATE LABEL_CONV_PREP "bar" DATE_FMT_OVERVIEW).

(** [render_detail_content] (views.py, lines 97-133). *)
Definition render_detail_content (df_day : DataFrame) : M unit :=
  if df_empty df_day then emit (StWarning MSG_NO_DATA)
  else
    emit (StSubheader "Temperature (24h)") ;;
    display_metrics df_day "temperature" "temperature" "°C" ;;
    st_pyplot (plot_data df_day "time" (YList ["temperature"; "felttemperature"])
                         LABEL_HOURS LABEL_TEMP "line" DATE_FMT_DETAIL) ;;
    emit (StSubheader "All Precipitations (24h)") ;;
    display_metrics df_day "precipitation" "precipitation" "mm" ;;
    st_pyplot (plot_data df_day "time" (YList ["precipitation"])
                         LABEL_HOURS LABEL_TOTAL_PREP "bar" DATE_FMT_DETAIL) ;;
    emit (StSubheader "Convective precipitations (24h)") ;;
    display_metrics df_day "convective_precipitation" "conv. precipitation" "mm" ;;
    st_pyplot (plot_data df_day "time" (YList ["convective_precipitation"])
                         LABEL_HOURS LABEL_CONV_PREP "bar" DATE_FMT_DETAIL).

End Client.

(** ** The spec's vocabulary *)

(** The failure kinds that the spec names.  The code has no such type:
    [fetch_data] tells failures apart by the message it shows, and
    [failure_kind_of] reads the kind off the message. *)
Inductive failure_kind :=
| ConfigurationError
| AuthorizationError
| QuotaExceededError
| ProviderUnavailableError
| RequestError
| ConnectivityError
| DecodeError
| ProviderBusinessError.

Definition failure_kind_of (m : error_message) : failure_kind :=
  match m with
  | ApiKeyMissing => ConfigurationError
  | AuthorizationErrorMsg => AuthorizationError
  | QuotaExceededMsg => QuotaExceededError
  | ServerErrorMsg _ => ProviderUnavailableError
  | ApiErrorMsg _ => RequestError
  | ConnectionErrorMsg => ConnectivityError
  | RequestErrorMsg => RequestError
  | DataErrorMsg => DecodeError
  | ApiMessage _ => ProviderBusinessError
  end.

(** The claim's reading of "returns a tagged failure": the value that a
    failed call returns tells the kind of the failure, so some function
    [tag] reads the kind off the returned value of every failed run. *)
Definition returns_tagged_failure {coord : Type} `{Countable coord}
    (runs : list (failure_kind * (outcome (option json) * @world coord _ _))) : Prop :=
  exists tag : outcome (option json) -> failure_kind,
    forall k run, In (k, run) runs -> tag (fst run) = k.

(** ** Sample inputs *)

(** The provider writes a time as [YYYY-MM-DD hh:mm]; this instance of
    [to_datetime] reads exactly that format, whatever the column, and the
    empty text and ["NaT"] as [NaT]. *)
Definition digit (c : ascii) : option Z :=
  let n := Z.of_nat (nat_of_ascii c) in
  if (48 <=? n) && (n <=? 57) then Some (n - 48) else None.

Definition number (cs : list ascii) : option Z :=
  foldl (fun acc c => a ← acc; d ← digit c; Some (10 * a + d)) (Some 0) cs.

Definition to_datetime_iso (col : list (option string)) (s : string) : time_reading :=
  if String.eqb s "" || String.eqb s "NaT" then ReadNaT
  else
    match list_ascii_of_string s with
    | [y1; y2; y3; y4; "-"; m1; m2; "-"; d1; d2; " "; h1; h2; ":"; n1; n2]%char =>
        match (y ← number [y1; y2; y3; y4];
               m ← number [m1; m2];
               d ← number [d1; d2];
               h ← number [h1; h2];
               n ← number [n1; n2];
               Some (DateTime y m d h n)) with
        | Some t => ReadTime t
        | None => Unreadable
        end
    | _ => Unreadable
    end.

(** An instance of [float64_mean] for the samples: the mean without
    rounding of the values that are present in the window.  The samples
    hold small integers, whose sums float64 adds without rounding. *)
Definition Qsum (xs : list Q) : Q := fold_right Qplus 0%Q xs.

Definition mean_exact (window : nat) (seen : list (option Q)) : option Q :=
  let obs := omap id (drop (length seen - window) seen) in
  match obs with
  | [] => None
  | _ => Some (Qsum obs / inject_Z (Z.of_nat (length obs)))%Q
  end.

(** Three hours with every field but [precipitation]. *)
Definition hourly_without_precipitation : data_1h :=
  Data1h
    (Some [Some "2024-05-01 22:00"; Some "2024-05-01 23:00"; Some "2024-05-02 00:00"])
    (Some [Some (10 # 1); Some (13 # 1); Some (16 # 1)])
    (Some [Some (9 # 1); Some (12 # 1); Some (18 # 1)])
    None
    (Some [Some 0; Some 0; Some (1 # 2)])%Q.

Definition payload_without_precipitation : RawPayload :=
  Payload (Some hourly_without_precipitation).

(** Three hours for which the provider sent nothing but [null] as
    [precipitation]. *)
Definition payload_null_precipitation : RawPayload :=
  Payload (Some (Data1h
    (Some [Some "2024-05-01 22:00"; Some "2024-05-01 23:00"; Some "2024-05-02 00:00"])
    (Some [Some (10 # 1); Some (13 # 1); Some (16 # 1)])
    (Some [Some (9 # 1); Some (12 # 1); Some (18 # 1)])
    (Some [None; None; None])
    (Some [Some 0; Some 0; Some (1 # 2)]))%Q).

(** Two hours with the temperatures 12.375 and 10.25. *)
Definition payload_decimals : RawPayload :=
  Payload (Some (Data1h
    (Some [Some "2024-05-01 22:00"; Some "2024-05-01 23:00"])
    (Some [Some (99 # 8); Some (41 # 4)])
    (Some [Some (12 # 1); Some (10 # 1)])
    (Some [Some 0; Some 0])
    (Some [Some 0; Some 0]))%Q).

(** Three complete hours. *)
Definition payload_complete : RawPayload :=
  Payload (Some (Data1h
    (Some [Some "2024-05-01 22:00"; Some "2024-05-01 23:00"; Some "2024-05-02 00:00"])
    (Some [Some (10 # 1); Some (13 # 1); Some (16 # 1)])
    (Some [Some (9 # 1); Some (12 # 1); Some (18 # 1)])
    (Some [Some 0; Some (1 # 4); Some 0])
    (Some [Some 0; Some 0; Some (1 # 2)]))%Q).

(** A frame with no rows. *)
Definition frame_empty : DataFrame := MkDataFrame [] [] [] [] [] [] [] [].

(** The frame built from [payload_complete]. *)
Definition frame_complete : DataFrame :=
  Eval vm_compute in
    match transform_data to_datetime_iso mean_exact payload_complete with
    | Ret df => df
    | Raise _ => frame_empty
    end.

(** The arrays that the hourly section has are of one length. *)
Definition one_common_length (d : data_1h) : Prop :=
  forall a b, In a (present_lengths d) -> In b (present_lengths d) -> a = b.

(** pandas can read every time text of the hourly section in its
    column. *)
Definition times_read (to_datetime : list (option string) -> string -> time_reading)
    (d : data_1h) : Prop :=
  forall col s, h_time d = Some col -> In (Some s) col -> to_datetime col s <> Unreadable.

(** The frame has as many rows as the arrays of the hourly section have
    entries, and none when the section has no array. *)
Definition rows_of (d : data_1h) (df : DataFrame) : Prop :=
  (forall n, In n (present_lengths d) -> df_len df = n) /\
  (present_lengths d = [] -> df_len df = 0%nat).

(** The column of every field that the hourly section has is its array:
    the numbers as they were sent, and each time text as pandas reads it
    (a [null] as [NaT]). *)
Definition present_columns_kept
    (to_datetime : list (option string) -> string -> time_reading)
    (d : data_1h) (df : DataFrame) : Prop :=
  (forall col, h_time d = Some col ->
     time df = map (fun o => o ≫= (fun s => stamp_of (to_datetime col s))) col) /\
  (forall xs, h_temperature d = Some xs -> temperature df = xs) /\
  (forall xs, h_felttemperature d = Some xs -> felttemperature df = xs) /\
  (forall xs, h_precipitation d = Some xs -> precipitation df = xs) /\
  (forall xs, h_convective_precipitation d = Some xs ->
     convective_precipitation df = xs).

(** The column of every field that the hourly section lacks, and the
    smoothed column that derives from it, holds only missing values. *)
Definition absent_columns_missing (d : data_1h) (df : DataFrame) : Prop :=
  (h_time d = None -> time df = replicate (df_len df) None) /\
  (h_temperature d = None ->
     temperature df = replicate (df_len df) None /\
     smooth_temperature df = replicate (df_len df) None) /\
  (h_felttemperature d = None ->
     felttemperature df = replicate (df_len df) None /\
     smooth_felttemperature df = replicate (df_len df) None) /\
  (h_precipitation d = None -> precipitation df = replicate (df_len df) None) /\
  (h_convective_precipitation d = None ->
     convective_precipitation df = replicate (df_len df) None).


Definition frame_null_precipitation : DataFrame :=
  Eval vm_compute in
    match transform_data to_datetime_iso mean_exact payload_null_precipitation with
    | Ret df => df
    | Raise _ => frame_empty
    end.

Definition frame_decimals : DataFrame :=
  Eval vm_compute in
    match transform_data to_datetime_iso mean_exact payload_decimals with
    | Ret df => df
    | Raise _ => frame_empty
    end.

Definition world0 : @world Z _ _ := World 0 [] [] [] ∅.

(** The column holds at least one value that is not missing. *)
Definition has_value (col : series) : Prop :=
  match col with
  | NumSeries xs => exists x, In (Some x) xs
  | TimeSeries ts => exists t, In (Some t) ts
  end.

(** [m] is a value of the column and no value of the column is greater
    (less). *)
Definition greatest_in (xs : list (option Q)) (m : Q) : Prop :=
  In (Some m) xs /\ forall x, In (Some x) xs -> (x <= m)%Q.

Definition least_in (xs : list (option Q)) (m : Q) : Prop :=
  In (Some m) xs /\ forall x, In (Some x) xs -> (m <= x)%Q.



(** Both values are shown as such and the first is at most the second;
    the text that a point in time shows is the same for every time. *)
Definition metric_le (lo hi : metric_value) : Prop :=
  match lo, hi with
  | MDecimal a, MDecimal b => a <= b
  | MFormatText, MFormatText => True
  | _, _ => False
  end.

(** The world after the Streamlit calls [evs]. *)
Definition shows {coord : Type} `{Countable coord} (evs : list st_event)
    (w : @world coord _ _) : @world coord _ _ :=
  World (clock w) (ui w ++ evs) (console w) (sent w) (cache w).

(** The request that [fetch_data] sends for a pair of coordinates. *)
Definition the_request {coord : Type} (API_KEY : string) (lat lon : coord) : @request coord :=
  Request METEODATA_URL (MeteoParams API_KEY lat lon "json" 7 "C" "ms-1" "mm").

(** A run of [fetch_data] from the world [before] ended in a failure of
    kind [k]: it returned [None] and showed one more message, of that
    kind. *)
Definition fails_as {coord : Type} `{Countable coord} (k : failure_kind)
    (run : outcome (option json) * @world coord _ _) (before : @world coord _ _) : Prop :=
  fst run = Ret None /\
  exists m, ui (snd run) = (ui before ++ [StError m])%list /\ failure_kind_of m = k.

(** A provider that answers every request with status 200 and the body
    [null], and one that answers with a forecast object. *)
Definition provider_null : Z -> @request Z -> transport :=
  fun _ _ => Responded (Response 200 "null" (Parsed JNull)).

Definition forecast_object : json :=
  JObj [("metadata", JObj []); ("data_1h", JObj [("time", JArr [])])].

Definition provider_ok : Z -> @request Z -> transport :=
  fun _ _ => Responded (Response 200 "{...}" (Parsed forecast_object)).

Definition provider_quota : Z -> @request Z -> transport :=
  fun _ _ => Responded (Response 429 "Too Many Requests" JSONDecodeError).

(** Providers that answer every request with status 403 and with status
    401. *)
Definition provider_forbidden : Z -> @request Z -> transport :=
  fun _ _ => Responded (Response 403 "Forbidden" JSONDecodeError).

Definition provider_unauthorized : Z -> @request Z -> transport :=
  fun _ _ => Responded (Response 401 "Unauthorized" JSONDecodeError).

(** A provider whose body is nested deeper than [response.json()] can
    follow. *)
Definition provider_deep : Z -> @request Z -> transport :=
  fun _ _ => Responded (Response 200 "[[[[..." (JsonRaises RecursionError)).

(** The same world at another time of the clock. *)
Definition at_time {coord : Type} `{Countable coord} (t : Z)
    (w : @world coord _ _) : @world coord _ _ :=
  World t (ui w) (console w) (sent w) (cache w).

(** The world after one successful fetch for the coordinates [(0, 0)]. *)
Definition world1 : @world Z _ _ :=
  snd (fetch_data "key" provider_ok 0 0 world0).

(** Three hours whose [temperature] array is one entry short. *)
Definition hourly_ragged : data_1h :=
  (Data1h
    (Some [Some "2024-05-01 22:00"; Some "2024-05-01 23:00"; Some "2024-05-02 00:00"])
    (Some [Some (10 # 1); Some (13 # 1)])
    (Some [Some (9 # 1); Some (12 # 1); Some (18 # 1)])
    (Some [Some 0; Some 0; Some 0])
    (Some [Some 0; Some 0; Some 0]))%Q.

(** The record has a time, and year, month and day of the time are
    those of the date [d]. *)
Definition falls_on (d : date) (r : record) : Prop :=
  match r_time r with
  | Some t => year t = d.1.1 /\ month t = d.1.2 /\ day t = d.2
  | None => False
  end.

#[global] Instance falls_on_dec (d : date) (r : record) : Decision (falls_on d r).
Proof. unfold falls_on. destruct (r_time r); apply _. Defined.

(** The names of the columns of a frame. *)
Definition column_names : list string :=
  [ "time"; "temperature"; "felttemperature"; "precipitation";
    "convective_precipitation"; "smooth_temperature"; "smooth_felttemperature" ].

Definition is_column (name : string) : bool :=
  existsb (String.eqb name) column_names.

(** The first of the names that is not a column. *)
Definition first_missing (names : list string) : option string :=
  List.find (fun name => negb (is_column name)) names.

(** No time of the frame falls on the date [d]. *)
Definition no_time_on (d : date) (df : DataFrame) : Prop :=
  forall t, In (Some t) (time df) -> datetime_date t <> d.

(** Two frames with the same five columns of the provider, of the same
    kind. *)
Definition same_raw_columns (df df' : DataFrame) : Prop :=
  time df = time df' /\
  temperature df = temperature df' /\
  felttemperature df = felttemperature df' /\
  precipitation df = precipitation df' /\
  convective_precipitation df = convective_precipitation df' /\
  none_columns df = none_columns df'.

(** No column that a view draws as bars holds [None] objects. *)
Definition bars_hold_numbers (df : DataFrame) : Prop :=
  holds_none df "time" = false /\
  holds_none df "precipitation" = false /\
  holds_none df "convective_precipitation" = false.

(** The charts among the Streamlit elements. *)
Definition charts (evs : list st_event) : list Figure :=
  omap (fun e => match e with StPyplot fig => Some fig | _ => None end) evs.

(** The computation returns and shows the elements [evs], whatever the
    world it starts from. *)
Definition only_shows {coord : Type} `{Countable coord}
    (m : @world coord _ _ -> outcome unit * @world coord _ _)
    (evs : list st_event) : Prop :=
  forall w, m w = (Ret tt, shows evs w).

(** The computation changes nothing of the world but the page, whether
    it returns or raises. *)
Definition touches_page_only {coord : Type} `{Countable coord} {A}
    (m : @world coord _ _ -> outcome A * @world coord _ _) : Prop :=
  forall w, exists evs, snd (m w) = shows evs w.

(** The parsed bodies on which the test ["error_message" in data] or
    the subscript [data['error_message']] raises: a body that is no
    container, a list that holds the text ["error_message"], a text that
    contains it. *)
Definition breaks_fetch (data : json) : bool :=
  match data with
  | JNull | JBool _ | JNum _ => true
  | JArr items => existsb (json_is_str "error_message") items
  | JStr s => str_contains "error_message" s
  | JObj _ => false
  end.

(** No payload in the store carries the provider's error marker. *)
Definition cache_clean {coord : Type} `{Countable coord} (w : @world coord _ _) : Prop :=
  forall key e data,
    cache w !! key = Some e -> cached_value e = Some data ->
    py_contains "error_message" data = Ret false.

(** The parameters that [fetch_data] fixes in every request. *)
Definition fixed_parameters {coord : Type} (API_KEY : string) (rq : @request coord) : Prop :=
  url rq = METEODATA_URL /\
  apikey (params rq) = API_KEY /\
  format (params rq) = "json" /\
  forecast_days (params rq) = 7 /\
  temperature_unit (params rq) = "C" /\
  windspeed_unit (params rq) = "ms-1" /\
  precipitationamount_unit (params rq) = "mm".

(** A provider that answers every request with an error object. *)
Definition provider_error_object : Z -> @request Z -> transport :=
  fun _ _ =>
    Responded (Response 200 "{...}"
                 (Parsed (JObj [("error_message", JStr "Invalid location")]))).

(** ** The location catalog ([data.py], [get_city_mapping]) *)

Section Catalog.
Context {coord : Type}.

(** [{"lat": ..., "lon": ...}] *)
Record Location := MkLocation {
  loc_lat : coord;
  loc_lon : coord
}.

(** [{"name": ..., "location": ...}] *)
Record City := MkCity {
  city_name : string;
  city_location : Location
}.

(** [{"name": ..., "cities": [...]}] *)
Record Province := MkProvince {
  province_name : string;
  province_cities : list City
}.

(** [f"{city['name']} ({province_name})"] *)
Definition display_name (city : City) (province_name : string) : string :=
  String.append (city_name city)
    (String.append " (" (String.append province_name ")")).

(** [get_city_mapping] (utils.py, lines 205-222): the two loops, over the
    provinces and over the cities of a province, thread the list of
    display names and the lookup dictionary. *)
Definition get_city_mapping (raw_data : list Province)
    : list string * gmap string Location :=
  fold_left
    (fun acc province =>
       let province_name := province_name province in
       fold_left
         (fun '(city_display_names, city_lookup) city =>
            let display_name := display_name city province_name in
            ((city_display_names ++ [display_name])%list,
             <[display_name := city_location city]> city_lookup))
         (province_cities province) acc)
    raw_data ([], ∅).

(** The cities of the catalog in its order, each with its display name. *)
Definition catalog_entries (raw_data : list Province) : list (string * Location) :=
  flat_map
    (fun province =>
       map (fun city => (display_name city (province_name province), city_location city))
           (province_cities province))
    raw_data.

(** The location of the last entry with the given name. *)
Fixpoint last_location (name : string) (entries : list (string * Location))
    : option Location :=
  match entries with
  | [] => None
  | (n, loc) :: rest =>
      match last_location name rest with
      | Some later => Some later
      | None => if String.eqb name n then Some loc else None
      end
  end.

End Catalog.

(** The catalog of [data.py]. *)
Definition data : list (@Province Q) :=
  [ MkProvince "Cajamarca"
      [MkCity "Cajamarca" (MkLocation (-716 # 100) (-7852 # 100))];
    MkProvince "Apurimac"
      [MkCity "Abancay" (MkLocation (-1363 # 100) (-7288 # 100))];
    MkProvince "Madre de Dios"
      [MkCity "Puerto Maldonado" (MkLocation (-1260 # 100) (-6918 # 100))];
    MkProvince "La Libertad"
      [MkCity "Trujillo" (MkLocation (-812 # 100) (-7903 # 100))];
    MkProvince "Arequipa"
      [MkCity "Arequipa" (MkLocation (-1640 # 100) (-7154 # 100))];
    MkProvince "Ancash"
      [MkCity "Huaraz" (MkLocation (-953 # 100) (-7753 # 100))];
    MkProvince "Ica"
      [MkCity "Ica" (MkLocation (-1407 # 100) (-7573 # 100))] ]%Q.

(** The world after one failed fetch (status 429) for the coordinates
    [(0, 0)]. *)
Definition world_quota : @world Z _ _ :=
  snd (fetch_data "key" provider_quota 0 0 world0).

(** ** The page ([app.py] and the rest of [views.py]) *)

(** Where an element is put: the main area, the sidebar, or one of the
    three tabs of [st.tabs(["About", "7-Day Overview", "1-Day Detail"])]. *)
Inductive container := MainArea | Sidebar | TabAbout | TabOverview | TabDetail.

Definition container_eqb (a b : container) : bool :=
  match a, b with
  | MainArea, MainArea | Sidebar, Sidebar | TabAbout, TabAbout
  | TabOverview, TabOverview | TabDetail, TabDetail => true
  | _, _ => false
  end.

(** The long static texts of [views.py], by name. *)
Inductive static_text := AboutText | FooterRule | FooterHtml.

Definition MSG_SELECT_LOCATION : string :=
  "👈 Please select a location to view the forecast.".
Definition MSG_SELECT_DATE : string :=
  "👈 Please select a date to get a detailed view.".

Section Page.
Context {coord : Type} `{Countable coord}.

Inductive page_element :=
| Title (text : string)                                 (* st.title *)
| Header (text : string)                                (* st.header *)
| Info (text : string)                                  (* st.info *)
| Markdown (text : static_text)                         (* st.markdown *)
| CoordMetric (label : string) (value : coord) (suffix : string)
| TextMetric (label value : string)
| Divider
| Selectbox (label : string) (options : list string)    (* st.sidebar.selectbox *)
| DateInput (label : string)                            (* st.sidebar.date_input *)
| Tabs (names : list string)                            (* st.tabs *)
| Shown (e : st_event).            (* an element of utils.py or of a view *)

(** One run of the script: the world of the functions above, and the
    page built so far, oldest element first. *)
Record page_state := PageState {
  pw : @world coord _ _;
  page : list (container * page_element)
}.

Definition AM (A : Type) : Type := page_state -> outcome A * page_state.

Definition aret {A} (a : A) : AM A := fun s => (Ret a, s).
Definition abind {A B} (m : AM A) (k : A -> AM B) : AM B :=
  fun s =>
    match m s with
    | (Ret a, s') => k a s'
    | (Raise e, s') => (Raise e, s')
    end.
Definition alift {A} (o : outcome A) : AM A := fun s => (o, s).

Notation "x <- m ;; k" := (abind m (fun x => k))
  (at level 100, m at next level, right associativity).
Notation "m ;; k" := (abind m (fun _ => k))
  (at level 100, right associativity).

Definition place (c : container) (e : page_element) : AM unit :=
  fun s => (Ret tt, PageState (pw s) (page s ++ [(c, e)])).

(** A call of a function of utils.py or of a view while the container
    [c] is the current one: what the call shows lands in [c]. *)
Definition in_container {A} (c : container)
    (m : @world coord _ _ -> outcome A * @world coord _ _) : AM A :=
  fun s =>
    let run := m (pw s) in
    (fst run,
     PageState (snd run)
       (page s ++ map (fun e => (c, Shown e)) (drop (length (ui (pw s))) (ui (snd run))))).

(** [render_sidebar_header] (views.py, lines 18-22). *)
Definition render_sidebar_header : AM unit :=
  place Sidebar (Title "Sidebar Menu") ;;
  place Sidebar
    (Info "**Instructions:** Select a location from the dropdown above to load the latest telemetry data.").

(** [render_header_metrics] (views.py, lines 24-32), called while [c] is
    the current container. *)
Definition render_header_metrics (c : container) (location_name : string)
    (lat lon : coord) : AM unit :=
  place c (Header (String.append "Location: " location_name)) ;;
  place c (CoordMetric "Latitude" lat "°S") ;;
  place c (CoordMetric "Longitude" lon "°W") ;;
  place c (TextMetric "Data Source" "Meteoblue API") ;;
  place c Divider.

(** [render_about_tab] (views.py, lines 35-56). *)
Definition render_about_tab (c : container) : AM unit :=
  place c (Header "About Peru Regional Telemetry") ;;
  place c (Markdown AboutText).

(** [render_footer] (views.py, lines 135-147). *)
Definition render_footer : AM unit :=
  place MainArea (Markdown FooterRule) ;;
  place MainArea (Markdown FooterHtml).

(** Python's truth of [selected_location]: [None] and the empty text are
    false. *)
Definition truthy (selected : option string) : option string :=
  match selected with
  | Some s => if String.eqb s "" then None else Some s
  | None => None
  end.

Section Script.
Variable API_KEY : string.
Variable provider : Z -> @request coord -> transport.
(** The catalog ([data] of data.py). *)
Variable catalog : list (@Province coord).
(** [transform_data] applied to the raw JSON that [fetch_data] returned;
    on a payload of the provider's shape it is [transform_data] above. *)
Variable transform_json : json -> outcome DataFrame.
(** Lines 68-77: the least and greatest date of the frame, and the
    sidebar's date input bounded by them, with what the user chose. *)
Variable select_date : DataFrame -> outcome (option date).

(** The script of app.py, run once with the location that the selectbox
    returns.  [st.stop()] ends the run: nothing after it is executed. *)
Definition app (selected_location : option string) : AM unit :=
  (* 1. App Configuration *)
  place MainArea (Title "Peru Regional Telemetry") ;;
  (* 2. Sidebar & Inputs *)
  render_sidebar_header ;;
  let city_options := fst (get_city_mapping catalog) in
  let city_lookup := snd (get_city_mapping catalog) in
  place Sidebar (Selectbox "Select Location:" city_options) ;;
  (* 3. Main Layout Structure *)
  place MainArea (Tabs ["About"; "7-Day Overview"; "1-Day Detail"]) ;;
  (* 4. Content Rendering *)
  render_about_tab TabAbout ;;
  match truthy selected_location with
  | Some selected_location =>
      coords <- alift match city_lookup !! selected_location with
                      | Some coords => Ret coords
                      | None => Raise (KeyError selected_location)
                      end ;;
      raw_data <- in_container MainArea
                    (fetch_data API_KEY provider (loc_lat coords) (loc_lon coords)) ;;
      match raw_data with
      | None => aret tt                         (* st.stop() *)
      | Some raw_data =>
          df <- alift (transform_json raw_data) ;;
          (* with tab_overview *)
          render_header_metrics TabOverview selected_location
                                (loc_lat coords) (loc_lon coords) ;;
          in_container TabOverview (render_overview_content df) ;;
          (* with tab_detail *)
          selected_date <- alift (select_date df) ;;
          place Sidebar (DateInput "Select a day for hourly detail:") ;;
          match selected_date with
          | Some selected_date =>
              let df_day := df_day df selected_date in
              render_header_metrics TabDetail selected_location
                                    (loc_lat coords) (loc_lon coords) ;;
              in_container TabDetail (render_detail_content df_day)
          | None => place TabDetail (Info MSG_SELECT_DATE)
          end ;;
          (* 5. Footer *)
          render_footer
      end
  | None =>
      place MainArea (Info MSG_SELECT_LOCATION) ;;
      (* 5. Footer *)
      render_footer
  end.

End Script.

(** The elements that a run added to the page, and those of them that
    are in the container [c]. *)
Definition added (before after : page_state) : list (container * page_element) :=
  drop (length (page before)) (page after).

Definition placed_in (c : container) (els : list (container * page_element))
    : list page_element :=
  map snd (List.filter (fun ce => container_eqb (fst ce) c) els).

Definition footer_elements : list (container * page_element) :=
  [(MainArea, Markdown FooterRule); (MainArea, Markdown FooterHtml)].

(** The elements that [render_header_metrics] puts into [c]. *)
Definition header_metrics (location_name : string) (lat lon : coord)
    : list page_element :=
  [ Header (String.append "Location: " location_name);
    CoordMetric "Latitude" lat "°S";
    CoordMetric "Longitude" lon "°W";
    TextMetric "Data Source" "Meteoblue API";
    Divider ].

End Page.

(** The computation returns and puts the elements [els] on the page,
    whatever the state it starts from, and leaves the world alone. *)
Definition places {coord : Type} `{Countable coord}
    (m : @page_state coord _ _ -> outcome unit * @page_state coord _ _)
    (els : list (container * @page_element coord)) : Prop :=
  forall s, m s = (Ret tt, PageState (pw s) (page s ++ els)).

(** What every run puts on the page before it looks at the selection. *)
Definition opening_elements {coord : Type} (catalog : list (@Province coord))
    : list (container * @page_element coord) :=
  [ (MainArea, Title "Peru Regional Telemetry");
    (Sidebar, Title "Sidebar Menu");
    (Sidebar,
     Info "**Instructions:** Select a location from the dropdown above to load the latest telemetry data.");
    (Sidebar, Selectbox "Select Location:" (fst (get_city_mapping catalog)));
    (MainArea, Tabs ["About"; "7-Day Overview"; "1-Day Detail"]);
    (TabAbout, Header "About Peru Regional Telemetry");
    (TabAbout, Markdown AboutText) ].

(** The elements of utils.py or of a view, put into the container [c]. *)
Definition shown_in {coord : Type} (c : container) (evs : list st_event)
    : list (container * @page_element coord) :=
  map (fun e => (c, Shown e)) evs.

(** A catalog of one city, whose coordinates are [(0, 0)]. *)
Definition catalog_one : list (@Province Z) :=
  [MkProvince "Ica" [MkCity "Ica" (MkLocation 0 0)]].

Definition page0 : @page_state Z _ _ := PageState world0 [].

(** A transformation for payloads of the provider's shape: an object
    whose ["data_1h"], if it is there, is an object of arrays of numbers
    (or [null]) and, for ["time"], of texts.  It reads the arrays and
    applies [transform_data]; any other JSON value, which [transform_data]
    above does not cover, it rejects.  And a date input on which the
    first of May is chosen. *)
Definition json_numbers (j : json) : option (list (option Q)) :=
  match j with
  | JArr items =>
      mapM (fun v => match v with
                     | JNum q => Some (Some q)
                     | JNull => Some None
                     | _ => None
                     end) items
  | _ => None
  end.

Definition json_texts (j : json) : option (list (option string)) :=
  match j with
  | JArr items =>
      mapM (fun v => match v with
                     | JStr s => Some (Some s)
                     | JNull => Some None
                     | _ => None
                     end) items
  | _ => None
  end.

Definition json_field {A} (read : json -> option A) (key : string)
    (members : list (string * json)) : option (option A) :=
  match dict_get key members with
  | Some j => Some <$> read j
  | None => Some None
  end.

Definition payload_of_json (j : json) : option RawPayload :=
  match j with
  | JObj members =>
      match dict_get "data_1h" members with
      | None => Some (Payload None)
      | Some (JObj hourly) =>
          t ← json_field json_texts "time" hourly;
          a ← json_field json_numbers "temperature" hourly;
          b ← json_field json_numbers "felttemperature" hourly;
          c ← json_field json_numbers "precipitation" hourly;
          e ← json_field json_numbers "convective_precipitation" hourly;
          Some (Payload (Some (Data1h t a b c e)))
      | Some _ => None
      end
  | _ => None
  end.

Definition transform_sample : json -> outcome DataFrame :=
  fun j =>
    match payload_of_json j with
    | Some data => transform_data to_datetime_iso mean_exact data
    | None => Raise TypeError
    end.

(** The provider's answer for the three complete hours. *)
Definition forecast_three_hours : json :=
  JObj [ ("metadata", JObj []);
         ("data_1h",
          JObj [ ("time", JArr [JStr "2024-05-01 22:00"; JStr "2024-05-01 23:00";
                                JStr "2024-05-02 00:00"]);
                 ("temperature", JArr [JNum (10 # 1); JNum (13 # 1); JNum (16 # 1)]);
                 ("felttemperature", JArr [JNum (9 # 1); JNum (12 # 1); JNum (18 # 1)]);
                 ("precipitation", JArr [JNum 0; JNum (1 # 4); JNum 0]);
                 ("convective_precipitation", JArr [JNum 0; JNum 0; JNum (1 # 2)]);
                 ("windspeed", JArr [JNum 2; JNum 3; JNum 2]) ]) ]%Q.

Definition provider_forecast : Z -> @request Z -> transport :=
  fun _ _ => Responded (Response 200 "{...}" (Parsed forecast_three_hours)).

Definition world_forecast : @world Z _ _ :=
  snd (fetch_data "key" provider_forecast 0 0 world0).

Definition select_first_of_may : DataFrame -> outcome (option date) :=
  fun _ => Ret (Some (2024, 5, 1)).

(** The state of the two loops of [get_city_mapping] after the entries
    [entries] have been added. *)
Definition loops_hold {coord : Type}
    (acc : list string * gmap string (@Location coord))
    (entries : list (string * @Location coord)) : Prop :=
  fst acc = map fst entries /\
  forall name, snd acc !! name = last_location name entries.

(** * Properties *)

(** ** Frames *)

Lemma omap_id_nil {A} (win : list (option A)) :
  omap id win = [] <-> Forall (fun x => x = None) win.
Proof.
  induction win as [|[x|] win IH]; simpl.
  - split; [constructor | reflexivity].
  - split; [discriminate | intros Hf; inversion Hf; discriminate].
  - rewrite IH. split; [now constructor | intros Hf; now inversion Hf].
Qed.

Lemma extract_index_lengths d n :
  extract_index (present_lengths d) = Ret n ->
  length (column_or_nan n (h_time d)) = n /\
  length (column_or_nan n (h_temperature d)) = n /\
  length (column_or_nan n (h_felttemperature d)) = n /\
  length (column_or_nan n (h_precipitation d)) = n /\
  length (column_or_nan n (h_convective_precipitation d)) = n.
Proof.
  destruct d as [[t|] [a|] [b|] [c|] [e|]]; unfold present_lengths; simpl;
    intros Hn;
    repeat match goal with
    | H : (if ?c then _ else _) = Ret _ |- _ =>
        destruct c eqn:?; [|discriminate]
    | H : Ret _ = Ret _ |- _ => injection H as <-
    | H : _ && _ = true |- _ => apply andb_prop in H as [? ?]
    | H : (_ =? _)%nat = true |- _ => apply Nat.eqb_eq in H
    end;
    rewrite ?length_replicate; repeat split; congruence.
Qed.

Lemma extract_index_total l :
  (forall a b, In a l -> In b l -> a = b) -> exists n, extract_index l = Ret n.
Proof.
  destruct l as [|n rest]; simpl; intros Hall; [now eexists|].
  assert (Hrest : forallb (Nat.eqb n) rest = true).
  { apply forallb_forall. intros m Hm. apply Nat.eqb_eq. apply Hall; auto. }
  rewrite Hrest. now eexists.
Qed.

(** The row index is the length of every array that is there. *)
Lemma extract_index_In l n m : extract_index l = Ret n -> In m l -> m = n.
Proof.
  destruct l as [|k rest]; simpl; [contradiction|].
  destruct (forallb (Nat.eqb k) rest) eqn:Hall; [|discriminate].
  intros [= <-] [->|Hm]; [reflexivity|].
  rewrite forallb_forall in Hall. symmetry. now apply Nat.eqb_eq, Hall.
Qed.

Lemma extract_index_nil n : extract_index [] = Ret n -> n = 0%nat.
Proof. now intros [= <-]. Qed.

Section FrameProperties.
Variable to_datetime : list (option string) -> string -> time_reading.
Variable float64_mean : nat -> list (option Q) -> option Q.

Lemma length_rolling_mean w mp xs :
  length (rolling_mean float64_mean w mp xs) = length xs.
Proof. unfold rolling_mean. now rewrite length_map, length_seq. Qed.

(** A column of missing values has no smoothed value: no window of it
    holds an observation. *)
Lemma rolling_mean_replicate_None w mp n :
  rolling_mean float64_mean w mp (replicate n None) = replicate n None.
Proof.
  apply list_eq. intros i.
  destruct (decide (i < n)%nat) as [Hi|Hi].
  - unfold rolling_mean.
    rewrite list_lookup_fmap, lookup_seq_lt by now rewrite length_replicate.
    rewrite lookup_replicate_2 by done. simpl. f_equal.
    assert (Hnil : omap id (window_at w i (replicate n (@None Q))) = []).
    { apply omap_id_nil. unfold window_at. apply Forall_drop, Forall_take.
      apply Forall_replicate. reflexivity. }
    rewrite Hnil. simpl. now rewrite andb_false_r.
  - rewrite !lookup_ge_None_2; [done | | ].
    + rewrite length_replicate. lia.
    + rewrite length_rolling_mean, length_replicate. lia.
Qed.

Lemma length_read_times col rest ts :
  read_times to_datetime col rest = Ret ts -> length ts = length rest.
Proof.
  revert ts. induction rest as [|[s|] rest IH]; simpl; intros ts Hts.
  - now injection Hts as <-.
  - destruct (to_datetime col s); try discriminate;
      (destruct (read_times to_datetime col rest) as [ts'|]; [|discriminate]);
      injection Hts as <-; simpl; f_equal; now apply IH.
  - destruct (read_times to_datetime col rest) as [ts'|]; [|discriminate].
    injection Hts as <-. simpl. f_equal. now apply IH.
Qed.

(** pandas can read every text: [pd.to_datetime] returns. *)
Lemma read_times_total col rest :
  (forall s, In (Some s) rest -> to_datetime col s <> Unreadable) ->
  exists ts, read_times to_datetime col rest = Ret ts.
Proof.
  induction rest as [|[s|] rest IH]; simpl; intros Hp.
  - now eexists.
  - destruct IH as [ts Hts]; [intros; apply Hp; now right|].
    rewrite Hts.
    destruct (to_datetime col s) eqn:Hs; simpl; try now eexists.
    exfalso. apply (Hp s); [now left | exact Hs].
  - destruct IH as [ts Hts]; [intros; apply Hp; now right|].
    rewrite Hts. now eexists.
Qed.

Lemma read_times_replicate_None col n :
  read_times to_datetime col (replicate n None) = Ret (replicate n None).
Proof. induction n as [|n IH]; simpl; [done|]. now rewrite IH. Qed.

(** What [pd.to_datetime] returns, entry by entry. *)
Lemma read_times_Ret col rest ts :
  read_times to_datetime col rest = Ret ts ->
  (forall s, In (Some s) rest -> to_datetime col s <> Unreadable) /\
  ts = map (fun o => o ≫= (fun s => stamp_of (to_datetime col s))) rest.
Proof.
  revert ts. induction rest as [|[s|] rest IH]; simpl; intros ts Hts.
  - injection Hts as <-. split; [contradiction | reflexivity].
  - destruct (to_datetime col s) as [t| |] eqn:Hs; try discriminate;
      (destruct (read_times to_datetime col rest) as [ts'|]; [|discriminate]);
      injection Hts as <-; destruct (IH _ eq_refl) as [Hall ->];
      (split; [|reflexivity]);
      intros s' [[= <-]|Hin]; solve [rewrite Hs; discriminate | now apply Hall].
  - destruct (read_times to_datetime col rest) as [ts'|]; [|discriminate].
    injection Hts as <-. destruct (IH _ eq_refl) as [Hall ->].
    split; [|reflexivity].
    intros s' [?|Hin]; [discriminate | now apply Hall].
Qed.

Lemma read_times_Raise col rest e :
  read_times to_datetime col rest = Raise e -> e = ValueError.
Proof.
  induction rest as [|[s|] rest IH]; simpl; [discriminate| |].
  - destruct (to_datetime col s); try (now intros [= <-]);
      (destruct (read_times to_datetime col rest); [discriminate|]);
      intros [= <-]; now apply IH.
  - destruct (read_times to_datetime col rest); [discriminate|].
    intros [= <-]. now apply IH.
Qed.

(** What a returned frame is made of. *)
Lemma transform_data_Ret data df :
  transform_data to_datetime float64_mean data = Ret df ->
  exists d n ts,
    payload_data_1h data = Some d /\
    extract_index (present_lengths d) = Ret n /\
    pd_to_datetime to_datetime (column_or_nan n (h_time d)) = Ret ts /\
    df = MkDataFrame ts
           (column_or_nan n (h_temperature d))
           (column_or_nan n (h_felttemperature d))
           (column_or_nan n (h_precipitation d))
           (column_or_nan n (h_convective_precipitation d))
           (rolling_mean float64_mean 3 1 (column_or_nan n (h_temperature d)))
           (rolling_mean float64_mean 3 1 (column_or_nan n (h_felttemperature d)))
           (none_columns_of d).
Proof.
  unfold transform_data, pd_DataFrame. intros Hdf.
  destruct (payload_data_1h data) as [d|]; [|discriminate]. simpl in Hdf.
  destruct (extract_index (present_lengths d)) as [n|] eqn:Hn; [|discriminate].
  simpl in Hdf.
  destruct (pd_to_datetime to_datetime (column_or_nan n (h_time d))) as [ts|] eqn:Hts;
    [|discriminate].
  simpl in Hdf. injection Hdf as <-. now exists d, n, ts.
Qed.

(** The run of [transform_data] on an hourly section whose arrays have
    the common length [n] and whose times pandas reads as [ts]. *)
Lemma transform_data_run d n ts :
  extract_index (present_lengths d) = Ret n ->
  pd_to_datetime to_datetime (column_or_nan n (h_time d)) = Ret ts ->
  transform_data to_datetime float64_mean (Payload (Some d)) =
    Ret (MkDataFrame ts
           (column_or_nan n (h_temperature d))
           (column_or_nan n (h_felttemperature d))
           (column_or_nan n (h_precipitation d))
           (column_or_nan n (h_convective_precipitation d))
           (rolling_mean float64_mean 3 1 (column_or_nan n (h_temperature d)))
           (rolling_mean float64_mean 3 1 (column_or_nan n (h_felttemperature d)))
           (none_columns_of d)).
Proof.
  intros Hn Hts. unfold transform_data, pd_DataFrame. simpl. rewrite Hn. simpl.
  rewrite Hts. reflexivity.
Qed.

Lemma transform_data_well_formed data df :
  transform_data to_datetime float64_mean data = Ret df -> well_formed df.
Proof.
  intros (d & n & ts & _ & Hn & Hts & ->)%transform_data_Ret.
  apply length_read_times in Hts.
  destruct (extract_index_lengths _ _ Hn) as (H0 & H1 & H2 & H3 & H4).
  unfold well_formed, df_len; simpl.
  rewrite !length_rolling_mean. repeat split; congruence.
Qed.

(** The rows and the columns of a returned frame. *)
Lemma transform_data_keeps data df :
  transform_data to_datetime float64_mean data = Ret df ->
  exists d,
    payload_data_1h data = Some d /\
    rows_of d df /\ present_columns_kept to_datetime d df.
Proof.
  intros Hdf.
  destruct (transform_data_Ret _ _ Hdf) as (d & n & ts & Hd & Hn & Hts & ->).
  exists d. split; [exact Hd|].
  assert (Hrows : length ts = n).
  { apply length_read_times in Hts. rewrite Hts.
    now destruct (extract_index_lengths _ _ Hn) as (-> & _). }
  split; [split|]; unfold df_len; simpl.
  - intros m Hm. rewrite Hrows. symmetry. exact (extract_index_In _ _ _ Hn Hm).
  - intros Hnil. rewrite Hnil in Hn. rewrite Hrows. exact (extract_index_nil _ Hn).
  - split; [|split; [|split; [|split]]].
    + intros col Hcol. rewrite Hcol in Hts. simpl in Hts.
      exact (proj2 (read_times_Ret _ _ _ Hts)).
    + intros xs Hxs. now rewrite Hxs.
    + intros xs Hxs. now rewrite Hxs.
    + intros xs Hxs. now rewrite Hxs.
    + intros xs Hxs. now rewrite Hxs.
Qed.

End FrameProperties.

Lemma boolean_index_records (f : option datetime -> bool) ts : forall c1 c2 c3 c4 c5 c6,
  length c1 = length ts -> length c2 = length ts -> length c3 = length ts ->
  length c4 = length ts -> length c5 = length ts -> length c6 = length ts ->
  zip_records (boolean_index ts (map f ts))
              (boolean_index c1 (map f ts))
              (boolean_index c2 (map f ts))
              (boolean_index c3 (map f ts))
              (boolean_index c4 (map f ts))
              (boolean_index c5 (map f ts))
              (boolean_index c6 (map f ts))
  = List.filter (fun r => f (r_time r)) (zip_records ts c1 c2 c3 c4 c5 c6).
Proof.
  induction ts as [|t ts IH];
    intros [|x1 c1] [|x2 c2] [|x3 c3] [|x4 c4] [|x5 c5] [|x6 c6];
    simpl; intros H1 H2 H3 H4 H5 H6; try discriminate; [reflexivity|].
  destruct (f t); simpl; rewrite IH by congruence; reflexivity.
Qed.

Lemma filter_sublist {A} (p : A -> bool) (l : list A) : sublist (List.filter p l) l.
Proof.
  induction l as [|x l IH]; simpl; [constructor|].
  destruct (p x); now constructor.
Qed.

Lemma date_eqb_eq a b : date_eqb a b = true <-> a = b.
Proof.
  destruct a as [[y1 m1] d1], b as [[y2 m2] d2]. simpl.
  rewrite !andb_true_iff, !Z.eqb_eq. split.
  - now intros [[-> ->] ->].
  - intros [= -> -> ->]. auto.
Qed.

(** The test of the mask is the comparison of year, month and day. *)
Lemma on_date_falls_on d r : on_date d r = true <-> falls_on d r.
Proof.
  unfold on_date, falls_on. destruct (r_time r) as [t|]; [|split; [discriminate | tauto]].
  rewrite date_eqb_eq. unfold datetime_date. destruct d as [[y m] dd]. simpl.
  split; [now intros [= -> -> ->] | now intros (-> & -> & ->)].
Qed.

Lemma filter_on_date d (l : list record) :
  List.filter (on_date d) l = filter (falls_on d) l.
Proof.
  induction l as [|r l IH]; simpl; [reflexivity|].
  rewrite filter_cons, <- IH.
  destruct (on_date d r) eqn:Hr, (decide (falls_on d r)) as [Hf|Hf]; try reflexivity.
  - exfalso. now apply Hf, on_date_falls_on.
  - apply on_date_falls_on in Hf. congruence.
Qed.

(** C1, as stated, fails: a payload whose hourly section has no
    [precipitation] array is not rejected.  [transform_data] returns a
    frame of three rows whose [precipitation] column is three missing
    values, next to the temperatures that were sent. *)
Lemma absent_field_builds_frame :
  (exists d, payload_data_1h payload_without_precipitation = Some d /\
             h_precipitation d = None) /\
  ~ raised (transform_data to_datetime_iso mean_exact payload_without_precipitation) /\
  exists df,
    transform_data to_datetime_iso mean_exact payload_without_precipitation = Ret df /\
    df_len df = 3%nat /\
    precipitation df = [None; None; None] /\
    temperature df = [Some (10 # 1); Some (13 # 1); Some (16 # 1)]%Q.
Proof.
  split; [eexists; split; reflexivity|].
  split; [vm_compute; tauto|].
  eexists. split; [vm_compute; reflexivity|]. repeat split; reflexivity.
Qed.

(** C1 (amended): a payload without the key ["data_1h"] makes
    [transform_data] raise [KeyError] and no frame is built.  A field that
    the hourly section lacks is no failure: when the arrays that are
    present have one common length and pandas can read every time text,
    [transform_data] returns a frame with that many rows, one entry per
    row in every column, in which the column of each field that is
    present is the array that was sent and the column of each absent
    field (and the smoothed column that derives from it) holds only
    missing values. *)
Theorem transform_data_absent_parts
    (to_datetime : list (option string) -> string -> time_reading)
    (float64_mean : nat -> list (option Q) -> option Q) :
  (forall data, payload_data_1h data = None ->
     transform_data to_datetime float64_mean data = Raise (KeyError "data_1h")) /\
  (forall d,
     one_common_length d ->
     times_read to_datetime d ->
     exists df,
       transform_data to_datetime float64_mean (Payload (Some d)) = Ret df /\
       rows_of d df /\
       well_formed df /\
       present_columns_kept to_datetime d df /\
       absent_columns_missing d df).
Proof.
  split.
  - intros data Hnone. unfold transform_data. now rewrite Hnone.
  - intros d Hlen Hread.
    destruct (extract_index_total _ Hlen) as [n Hn].
    assert (Hts : exists ts,
               pd_to_datetime to_datetime (column_or_nan n (h_time d)) = Ret ts).
    { unfold pd_to_datetime. destruct (h_time d) as [col|] eqn:Htime; simpl.
      - apply read_times_total. intros s Hs. now apply (Hread col).
      - eexists. apply read_times_replicate_None. }
    destruct Hts as [ts Hts].
    pose proof (transform_data_run to_datetime float64_mean d n ts Hn Hts) as Hrun.
    eexists. split; [exact Hrun|].
    destruct (transform_data_keeps _ _ _ _ Hrun) as (d' & [= <-] & Hrows & Hkept).
    split; [exact Hrows|].
    split; [now apply (transform_data_well_formed _ _ _ _ Hrun)|].
    split; [exact Hkept|].
    assert (Hn' : length ts = n).
    { apply length_read_times in Hts. rewrite Hts.
      now destruct (extract_index_lengths _ _ Hn) as (-> & _). }
    unfold absent_columns_missing, df_len; simpl. rewrite Hn'.
    split; [|split; [|split; [|split]]].
    + intros Hf. rewrite Hf in Hts. simpl in Hts. unfold pd_to_datetime in Hts.
      rewrite read_times_replicate_None in Hts. now injection Hts as <-.
    + intros Hf. rewrite Hf. simpl.
      split; [reflexivity | apply rolling_mean_replicate_None].
    + intros Hf. rewrite Hf. simpl.
      split; [reflexivity | apply rolling_mean_replicate_None].
    + intros Hf. now rewrite Hf.
    + intros Hf. now rewrite Hf.
Qed.

(** C6: for every frame that [transform_data] returns and every calendar
    date, the frame filtered by the date holds exactly the records that
    have a time whose year, month and day are those of the date, in the
    order they have in the frame. *)
Theorem df_day_is_date_subsequence
    (to_datetime : list (option string) -> string -> time_reading)
    (float64_mean : nat -> list (option Q) -> option Q)
    (data : RawPayload) (df : DataFrame) (selected_date : date) :
  transform_data to_datetime float64_mean data = Ret df ->
  records (df_day df selected_date)
    = filter (falls_on selected_date) (records df) /\
  sublist (records (df_day df selected_date)) (records df).
Proof.
  intros Hdf.
  destruct (transform_data_well_formed _ _ _ _ Hdf) as (H1 & H2 & H3 & H4 & H5 & H6).
  assert (Heq : records (df_day df selected_date)
                = List.filter (on_date selected_date) (records df)).
  { unfold records, df_day, df_getitem_mask, date_mask; simpl.
    now rewrite boolean_index_records. }
  split.
  - rewrite Heq. apply filter_on_date.
  - rewrite Heq. apply filter_sublist.
Qed.

(** ** Charts *)




(** C10: [plot_data] called with a bare string for [y_cols] returns what
    it returns for the one-element list of that string. *)
Theorem plot_data_str_as_singleton (df : DataFrame) (x_col s : string)
    (x_label y_label graph_type date_format : string) :
  plot_data df x_col (YStr s) x_label y_label graph_type date_format
  = plot_data df x_col (YList [s]) x_label y_label graph_type date_format.
Proof. reflexivity. Qed.

(** ** Extrema *)

Section ExtremumProperties.
Context {A : Type} (leb : A -> A -> bool).

Lemma fold_pick_max_in xs : forall acc m,
  fold_left (pick_max leb) xs acc = Some m -> acc = Some m \/ In (Some m) xs.
Proof.
  induction xs as [|x xs IH]; simpl; intros acc m Hm; [now left|].
  destruct (IH _ _ Hm) as [Hacc|Hin]; [|now right; right].
  destruct acc as [a|], x as [b|]; simpl in Hacc; auto.
  destruct (leb a b); injection Hacc as <-; auto.
Qed.

Lemma fold_pick_max_Some xs : forall a,
  is_Some (fold_left (pick_max leb) xs (Some a)).
Proof.
  induction xs as [|x xs IH]; simpl; intros a; [now eexists|].
  destruct x as [b|]; simpl; [destruct (leb a b)|]; apply IH.
Qed.

Lemma fold_pick_max_present xs : forall acc x,
  In (Some x) xs -> is_Some (fold_left (pick_max leb) xs acc).
Proof.
  induction xs as [|y xs IH]; simpl; intros acc x Hin; [contradiction|].
  destruct Hin as [->|Hin]; [|now apply (IH _ x)].
  destruct acc as [a|]; simpl; [destruct (leb a x)|]; apply fold_pick_max_Some.
Qed.

Lemma fold_pick_max_absent xs :
  (forall x, ~ In (Some x) xs) -> fold_left (pick_max leb) xs None = None.
Proof.
  induction xs as [|[y|] xs IH]; simpl; intros Hno; [reflexivity| |].
  - exfalso. apply (Hno y). now left.
  - apply IH. intros x Hx. apply (Hno x). now right.
Qed.

Hypothesis leb_total : forall a b, leb a b = false -> leb b a = true.
Hypothesis leb_trans : forall a b c, leb a b = true -> leb b c = true -> leb a c = true.

Lemma leb_refl a : leb a a = true.
Proof. destruct (leb a a) eqn:E; [reflexivity | now rewrite (leb_total _ _ E) in E]. Qed.

Lemma fold_pick_max_upper xs : forall acc m,
  fold_left (pick_max leb) xs acc = Some m ->
  (forall a, acc = Some a -> leb a m = true) /\
  (forall x, In (Some x) xs -> leb x m = true).
Proof.
  induction xs as [|x xs IH]; simpl; intros acc m Hm.
  - split; [|contradiction]. intros a ->. injection Hm as ->. apply leb_refl.
  - destruct (IH _ _ Hm) as [Hacc Hxs]. split.
    + intros a ->. destruct x as [b|]; simpl in Hacc.
      * destruct (leb a b) eqn:E; [|now apply Hacc].
        apply (leb_trans a b m); [exact E | now apply Hacc].
      * now apply Hacc.
    + intros y [->|Hy]; [|now apply Hxs].
      destruct acc as [a|]; simpl in Hacc; [|now apply Hacc].
      destruct (leb a y) eqn:E; [now apply Hacc|].
      apply (leb_trans y a m); [now apply leb_total | now apply Hacc].
Qed.

End ExtremumProperties.

Lemma Qle_bool_total a b : Qle_bool a b = false -> Qle_bool b a = true.
Proof.
  intros Hab. apply Qle_bool_iff. apply Qlt_le_weak, Qnot_le_lt.
  intros Hle. apply Qle_bool_iff in Hle. congruence.
Qed.

Lemma Qle_bool_trans a b c :
  Qle_bool a b = true -> Qle_bool b c = true -> Qle_bool a c = true.
Proof. rewrite !Qle_bool_iff. apply Qle_trans. Qed.

(** [datetime_leb] is the lexicographic order on year, month, day, hour
    and minute. *)
Lemma datetime_leb_spec a b :
  datetime_leb a b = true <->
  year a < year b \/ (year a = year b /\
   (month a < month b \/ (month a = month b /\
    (day a < day b \/ (day a = day b /\
     (hour a < hour b \/ (hour a = hour b /\ minute a <= minute b))))))).
Proof.
  unfold datetime_leb.
  destruct (Z.compare_spec (year a) (year b));
  destruct (Z.compare_spec (month a) (month b));
  destruct (Z.compare_spec (day a) (day b));
  destruct (Z.compare_spec (hour a) (hour b));
  rewrite ?Z.leb_le; split; intros; try discriminate; try reflexivity; lia.
Qed.

Lemma datetime_leb_total a b : datetime_leb a b = false -> datetime_leb b a = true.
Proof.
  intros Hab. apply datetime_leb_spec.
  assert (Hn : ~ datetime_leb a b = true) by congruence.
  rewrite datetime_leb_spec in Hn. lia.
Qed.

Lemma datetime_leb_trans a b c :
  datetime_leb a b = true -> datetime_leb b c = true -> datetime_leb a c = true.
Proof. rewrite !datetime_leb_spec. lia. Qed.

Lemma series_extrema {A} (leb : A -> A -> bool) (xs : list (option A)) :
  (forall a b, leb a b = false -> leb b a = true) ->
  (forall a b c, leb a b = true -> leb b c = true -> leb a c = true) ->
  ((exists x, In (Some x) xs) ->
   exists hi lo,
     series_max leb xs = Some hi /\ series_min leb xs = Some lo /\
     leb lo hi = true /\ In (Some hi) xs /\ In (Some lo) xs) /\
  (~ (exists x, In (Some x) xs) ->
   series_max leb xs = None /\ series_min leb xs = None).
Proof.
  intros Htotal Htrans.
  change (series_min leb xs) with (series_max (fun a b => leb b a) xs).
  unfold series_max. split.
  - intros [x Hx].
    destruct (fold_pick_max_present leb xs None x Hx) as [hi Hhi].
    destruct (fold_pick_max_present (fun a b => leb b a) xs None x Hx) as [lo Hlo].
    exists hi, lo. split; [exact Hhi|]. split; [exact Hlo|].
    destruct (fold_pick_max_in _ _ _ _ Hhi) as [?|Hin_hi]; [discriminate|].
    destruct (fold_pick_max_in _ _ _ _ Hlo) as [?|Hin_lo]; [discriminate|].
    split; [|now split].
    now apply (fold_pick_max_upper leb Htotal Htrans xs None hi Hhi).
  - intros Hno. split; apply fold_pick_max_absent; intros x Hx; apply Hno; now exists x.
Qed.

Lemma series_bounds {A} (leb : A -> A -> bool) (xs : list (option A)) :
  (forall a b, leb a b = false -> leb b a = true) ->
  (forall a b c, leb a b = true -> leb b c = true -> leb a c = true) ->
  (forall hi, series_max leb xs = Some hi ->
     forall x, In (Some x) xs -> leb x hi = true) /\
  (forall lo, series_min leb xs = Some lo ->
     forall x, In (Some x) xs -> leb lo x = true).
Proof.
  intros Htotal Htrans. split.
  - intros hi Hhi.
    exact (proj2 (fold_pick_max_upper leb Htotal Htrans xs None hi Hhi)).
  - intros lo Hlo.
    change (series_min leb xs) with (series_max (fun a b => leb b a) xs) in Hlo.
    refine (proj2 (fold_pick_max_upper (fun a b => leb b a) _ _ xs None lo Hlo)).
    + intros a b Hab. destruct (leb a b) eqn:E; [reflexivity|].
      rewrite (Htotal _ _ E) in Hab. discriminate.
    + intros a b c Hba Hcb. exact (Htrans _ _ _ Hcb Hba).
Qed.

(** The greatest and the least value of a column of numbers that has a
    value. *)
Lemma series_greatest_least (xs : list (option Q)) :
  (exists x, In (Some x) xs) ->
  exists hi lo,
    series_max Qle_bool xs = Some hi /\ series_min Qle_bool xs = Some lo /\
    greatest_in xs hi /\ least_in xs lo /\ (lo <= hi)%Q.
Proof.
  intros Hx.
  destruct (series_extrema Qle_bool xs Qle_bool_total Qle_bool_trans) as [Hsome _].
  destruct (Hsome Hx) as (hi & lo & Hhi & Hlo & Hle & Hin_hi & Hin_lo).
  destruct (series_bounds Qle_bool xs Qle_bool_total Qle_bool_trans) as [Hub Hlb].
  exists hi, lo. split; [exact Hhi|]. split; [exact Hlo|].
  split; [|split].
  - split; [exact Hin_hi|]. intros x Hin. apply Qle_bool_iff. now apply (Hub hi Hhi).
  - split; [exact Hin_lo|]. intros x Hin. apply Qle_bool_iff. now apply (Hlb lo Hlo).
  - now apply Qle_bool_iff.
Qed.

(** ** Rounding to one decimal *)

Lemma round_half_even_floor q :
  Qfloor q <= round_half_even q <= Qfloor q + 1.
Proof.
  unfold round_half_even.
  destruct (q - inject_Z (Qfloor q) ?= 1 # 2)%Q; [destruct (Z.even (Qfloor q))| |]; lia.
Qed.

(** The rounded number is no more than a half away. *)
Lemma round_half_even_near q :
  (q - (1 # 2) <= inject_Z (round_half_even q) <= q + (1 # 2))%Q.
Proof.
  unfold round_half_even.
  pose proof (Qfloor_le q) as Hlo. pose proof (Qlt_floor q) as Hhi.
  rewrite inject_Z_plus in Hhi. change (inject_Z 1) with 1%Q in Hhi.
  destruct (Qcompare_spec (q - inject_Z (Qfloor q)) (1 # 2)) as [He|Hl|Hg].
  - destruct (Z.even (Qfloor q));
      rewrite ?inject_Z_plus; change (inject_Z 1) with 1%Q; lra.
  - lra.
  - rewrite inject_Z_plus. change (inject_Z 1) with 1%Q. lra.
Qed.

(** Rounding keeps the order. *)
Lemma round_half_even_le a b :
  (a <= b)%Q -> round_half_even a <= round_half_even b.
Proof.
  intros Hab. pose proof (Qfloor_resp_le _ _ Hab) as Hf.
  destruct (Z.eq_dec (Qfloor a) (Qfloor b)) as [He|Hne].
  - unfold round_half_even. rewrite <- He.
    destruct (Qcompare_spec (a - inject_Z (Qfloor a)) (1 # 2)),
             (Qcompare_spec (b - inject_Z (Qfloor a)) (1 # 2));
      destruct (Z.even (Qfloor a)); first [lia | exfalso; lra].
  - pose proof (round_half_even_floor a). pose proof (round_half_even_floor b). lia.
Qed.

(** ** Metrics *)

Section MetricsProperties.
Context {coord : Type} `{Countable coord}.
Implicit Types w : @world coord _ _.

(** [display_metrics] on a column of numbers. *)
Lemma display_metrics_num (df : DataFrame) (column_name label unit_ : string) xs w :
  df_getitem df column_name = Ret (NumSeries xs) ->
  display_metrics df column_name label unit_ w =
    (Ret tt,
     shows [ StMetric (String.append "Maximum " label)
               match series_max Qle_bool xs with
               | Some x => MDecimal (round_half_even (10 * x)%Q)
               | None => MNan
               end unit_;
             StMetric (String.append "Minimum " label)
               match series_min Qle_bool xs with
               | Some x => MDecimal (round_half_even (10 * x)%Q)
               | None => MNan
               end unit_;
             StDivider ] w).
Proof.
  intros Hcol. unfold display_metrics, bind, lift, st_metric, emit, shows.
  rewrite Hcol. simpl.
  destruct (series_max Qle_bool xs), (series_min Qle_bool xs); simpl;
    now rewrite <- !app_assoc.
Qed.

(** [display_metrics] on a column of times: a time shows as the text of
    the format; without a time the formatting of [NaT] raises before a
    metric is shown. *)
Lemma display_metrics_time (df : DataFrame) (column_name label unit_ : string) ts w :
  df_getitem df column_name = Ret (TimeSeries ts) ->
  ((exists t, In (Some t) ts) ->
   display_metrics df column_name label unit_ w =
     (Ret tt,
      shows [ StMetric (String.append "Maximum " label) MFormatText unit_;
              StMetric (String.append "Minimum " label) MFormatText unit_;
              StDivider ] w)) /\
  (~ (exists t, In (Some t) ts) ->
   display_metrics df column_name label unit_ w = (Raise ValueError, w)).
Proof.
  intros Hcol.
  destruct (series_extrema datetime_leb ts datetime_leb_total datetime_leb_trans)
    as [Hsome Hnone].
  unfold display_metrics, bind, lift, st_metric, emit, shows.
  rewrite Hcol. simpl. split.
  - intros Hx. destruct (Hsome Hx) as (hi & lo & -> & -> & _). simpl.
    now rewrite <- !app_assoc.
  - intros Hx. destruct (Hnone Hx) as [-> _]. reflexivity.
Qed.


End MetricsProperties.


(** ** The forecast client *)

Section FetchProperties.
Context {coord : Type} `{Countable coord}.
Variable API_KEY : string.
Variable provider : Z -> @request coord -> transport.
Implicit Types w : @world coord _ _.

Ltac step_body :=
  unfold fetch_data_body, requests_get, st_error, print, emit, bind, ret, lift, shows;
  simpl.

(** The body touches neither the clock nor the cache, and it raises
    nothing but what the membership test and the subscript of the parsed
    body raise. *)
Lemma fetch_data_body_frame lat lon w :
  clock (snd (fetch_data_body API_KEY provider lat lon w)) = clock w /\
  cache (snd (fetch_data_body API_KEY provider lat lon w)) = cache w.
Proof.
  step_body. repeat (case_match; simplify_eq/=; try done).
Qed.

Lemma fetch_data_body_sent lat lon w :
  sent (snd (fetch_data_body API_KEY provider lat lon w)) =
  if String.eqb API_KEY "" then sent w
  else (sent w ++ [the_request API_KEY lat lon])%list.
Proof.
  step_body. unfold the_request. repeat (case_match; simplify_eq/=; try done).
Qed.

Lemma fetch_data_body_ui_prefix lat lon w :
  exists evs, ui (snd (fetch_data_body API_KEY provider lat lon w)) = (ui w ++ evs)%list.
Proof.
  step_body.
  repeat (case_match; simplify_eq/=; try done);
    rewrite <- ?app_assoc;
    solve [ now eexists | exists []; now rewrite app_nil_r ].
Qed.

(** A cache miss runs the body and stores what it returned. *)
Lemma fetch_data_miss lat lon w :
  cache_read ttl_1d (lat, lon) w = None ->
  fetch_data API_KEY provider lat lon w =
    match fetch_data_body API_KEY provider lat lon w with
    | (Ret v, w') =>
        (Ret v,
         World (clock w') (ui w') (console w') (sent w')
               (<[(lat, lon) := CacheEntry v (drop (length (ui w)) (ui w')) (clock w')]>
                  (cache w')))
    | (Raise e, w') => (Raise e, w')
    end.
Proof.
  intros Hmiss. unfold fetch_data, st_cache_data. rewrite Hmiss.
  destruct (fetch_data_body API_KEY provider lat lon w) as [[v|e] w']; reflexivity.
Qed.

(** A cache hit returns the stored value and replays the stored elements;
    nothing else changes. *)
Lemma fetch_data_hit lat lon w e :
  cache_read ttl_1d (lat, lon) w = Some e ->
  fetch_data API_KEY provider lat lon w =
    (Ret (cached_value e), shows (cached_elements e) w).
Proof.
  intros Hhit. unfold fetch_data, st_cache_data. now rewrite Hhit.
Qed.

Lemma fetch_data_miss_fst lat lon w :
  cache_read ttl_1d (lat, lon) w = None ->
  fst (fetch_data API_KEY provider lat lon w)
    = fst (fetch_data_body API_KEY provider lat lon w) /\
  ui (snd (fetch_data API_KEY provider lat lon w))
    = ui (snd (fetch_data_body API_KEY provider lat lon w)) /\
  sent (snd (fetch_data API_KEY provider lat lon w))
    = sent (snd (fetch_data_body API_KEY provider lat lon w)).
Proof.
  intros Hmiss. rewrite (fetch_data_miss _ _ _ Hmiss).
  destruct (fetch_data_body API_KEY provider lat lon w) as [[v|e] w']; done.
Qed.

Ltac bool_to_prop :=
  repeat match goal with
  | H : _ && _ = true |- _ => apply andb_prop in H as [? ?]
  | H : _ && _ = false |- _ => apply andb_false_iff in H as [?|?]
  | H : (_ <=? _) = true |- _ => apply Z.leb_le in H
  | H : (_ <=? _) = false |- _ => apply Z.leb_gt in H
  | H : (_ <? _) = true |- _ => apply Z.ltb_lt in H
  | H : (_ <? _) = false |- _ => apply Z.ltb_ge in H
  | H : (_ =? _) = true |- _ => apply Z.eqb_eq in H
  | H : (_ =? _) = false |- _ => apply Z.eqb_neq in H
  end.

Ltac run_body Hkey Hanswer :=
  step_body; unfold the_request in Hanswer;
  rewrite (proj2 (String.eqb_neq _ _) Hkey); simpl;
  rewrite Hanswer; simpl; unfold raise_for_status.

Ltac close_failure :=
  repeat (case_match; simplify_eq/=; bool_to_prop; try lia);
  solve [ split; [reflexivity | eexists; split; reflexivity] ].

(** C3 (amended): on a run of [fetch_data] that reaches the body with a
    key, the failure is told apart by the message that is shown, and by
    nothing else.  Status 403 shows the authorization message, 429 the
    quota message, 5xx the server message and every other error status
    (401 among them) the API-error message (a request error); a
    connection error shows the connection message and any other request
    exception the request-error message; a body that does not parse
    after a status that is no error shows the data message; a parsed
    object with the key ["error_message"] shows the provider's message.
    Each of these runs returns the bare [None], and so does every run
    that shows a message at all. *)
Theorem fetch_data_failure_kinds (lat lon : coord) w :
  API_KEY <> "" ->
  cache_read ttl_1d (lat, lon) w = None ->
  let run := fetch_data API_KEY provider lat lon w in
  let answer := provider (clock w) (the_request API_KEY lat lon) in
  (forall r, answer = Responded r -> status_code r = 403 ->
     fails_as AuthorizationError run w) /\
  (forall r, answer = Responded r -> status_code r = 429 ->
     fails_as QuotaExceededError run w) /\
  (forall r, answer = Responded r -> 500 <= status_code r < 600 ->
     fails_as ProviderUnavailableError run w) /\
  (forall r, answer = Responded r -> 400 <= status_code r < 500 ->
     status_code r <> 403 -> status_code r <> 429 ->
     fails_as RequestError run w) /\
  (answer = ConnectionError -> fails_as ConnectivityError run w) /\
  (answer = RequestException -> fails_as RequestError run w) /\
  (forall r, answer = Responded r -> ~ 400 <= status_code r < 600 ->
     body r = JSONDecodeError -> fails_as DecodeError run w) /\
  (forall r members, answer = Responded r -> ~ 400 <= status_code r < 600 ->
     body r = Parsed (JObj members) -> is_Some (dict_get "error_message" members) ->
     fails_as ProviderBusinessError run w) /\
  (ui (snd run) <> ui w -> fst run = Ret None).
Proof.
  intros Hkey Hmiss run answer. subst run answer. unfold fails_as.
  destruct (fetch_data_miss_fst lat lon w Hmiss) as (-> & -> & _).
  split; [|split; [|split; [|split; [|split; [|split; [|split; [|split]]]]]]].
  - intros r Hanswer Hstatus. run_body Hkey Hanswer. close_failure.
  - intros r Hanswer Hstatus. run_body Hkey Hanswer. close_failure.
  - intros r Hanswer Hstatus. run_body Hkey Hanswer. close_failure.
  - intros r Hanswer Hstatus. run_body Hkey Hanswer. close_failure.
  - intros Hanswer. run_body Hkey Hanswer. close_failure.
  - intros Hanswer. run_body Hkey Hanswer. close_failure.
  - intros r Hanswer Hstatus Hbody. run_body Hkey Hanswer.
    rewrite Hbody. close_failure.
  - intros r members Hanswer Hstatus Hbody [m Hm]. run_body Hkey Hanswer.
    rewrite Hbody. simpl. rewrite Hm. simpl.
    close_failure.
  - step_body. rewrite (proj2 (String.eqb_neq _ _) Hkey). simpl.
    repeat (case_match; simplify_eq/=; try done).
Qed.

Lemma cache_read_Some ttl key w e :
  cache_read ttl key w = Some e <->
  cache w !! key = Some e /\ clock w < stored_at e + ttl.
Proof.
  unfold cache_read. destruct (cache w !! key) as [e'|].
  - destruct (Z.ltb_spec (clock w) (stored_at e' + ttl)).
    + split; [now intros [= <-] | now intros [[= <-] _]].
    + split; [discriminate | intros [[= <-] ?]; lia].
  - split; [discriminate | now intros [? _]].
Qed.

Lemma cache_read_expired ttl key w e :
  cache w !! key = Some e -> stored_at e + ttl <= clock w ->
  cache_read ttl key w = None.
Proof.
  intros Hentry Hlate. unfold cache_read. rewrite Hentry.
  destruct (Z.ltb_spec (clock w) (stored_at e + ttl)); [lia | reflexivity].
Qed.

(** A call for other coordinates leaves the entry of [(lat, lon)] alone. *)
Lemma fetch_data_cache_other lat lon lat' lon' w :
  (lat', lon') <> (lat, lon) ->
  cache (snd (fetch_data API_KEY provider lat' lon' w)) !! (lat, lon)
  = cache w !! (lat, lon).
Proof.
  intros Hne. destruct (cache_read ttl_1d (lat', lon') w) as [e|] eqn:Hread.
  - now rewrite (fetch_data_hit _ _ _ _ Hread).
  - rewrite (fetch_data_miss _ _ _ Hread).
    pose proof (fetch_data_body_frame lat' lon' w) as [_ Hcache].
    destruct (fetch_data_body API_KEY provider lat' lon' w) as [[v|e] w']; simpl in *.
    + rewrite lookup_insert_ne by done. now rewrite Hcache.
    + now rewrite Hcache.
Qed.

(** While its entry is fresh, no call of [fetch_data], for whatever
    coordinates, changes the entry of [(lat, lon)]. *)
Lemma fetch_data_keeps_fresh_entry lat lon lat' lon' w e :
  cache w !! (lat, lon) = Some e ->
  clock w < stored_at e + ttl_1d ->
  cache (snd (fetch_data API_KEY provider lat' lon' w)) !! (lat, lon) = Some e.
Proof.
  intros Hentry Hfresh.
  destruct (decide ((lat', lon') = (lat, lon))) as [[= -> ->]|Hne].
  - assert (Hread : cache_read ttl_1d (lat, lon) w = Some e)
      by now apply cache_read_Some.
    now rewrite (fetch_data_hit _ _ _ _ Hread).
  - now rewrite fetch_data_cache_other.
Qed.

(** C4: once a call of [fetch_data] for [(lat, lon)] has returned a
    value, the store holds that value under [(lat, lon)], stored at the
    time of the call if the call had to fetch.  As long as the entry is
    in the store, every call for the same coordinates earlier than 24
    hours (86400 seconds) after the storing returns the same value and
    sends no request; a call at or after that time, with an API key
    configured, sends a new request. *)
Theorem fetch_data_memoized (lat lon : coord) w0 (v : option json) w1 :
  fetch_data API_KEY provider lat lon w0 = (Ret v, w1) ->
  exists e,
    cache w1 !! (lat, lon) = Some e /\
    cached_value e = v /\
    (cache_read ttl_1d (lat, lon) w0 = None -> stored_at e = clock w0) /\
    forall w2,
      cache w2 !! (lat, lon) = cache w1 !! (lat, lon) ->
      (clock w2 < stored_at e + 86400 ->
         fst (fetch_data API_KEY provider lat lon w2) = Ret v /\
         sent (snd (fetch_data API_KEY provider lat lon w2)) = sent w2) /\
      (stored_at e + 86400 <= clock w2 -> API_KEY <> "" ->
         sent (snd (fetch_data API_KEY provider lat lon w2))
         = (sent w2 ++ [the_request API_KEY lat lon])%list).
Proof.
  intros Hrun.
  assert (Hentry : exists e,
             cache w1 !! (lat, lon) = Some e /\ cached_value e = v /\
             (cache_read ttl_1d (lat, lon) w0 = None -> stored_at e = clock w0)).
  { destruct (cache_read ttl_1d (lat, lon) w0) as [e|] eqn:Hread.
    - rewrite (fetch_data_hit _ _ _ _ Hread) in Hrun.
      injection Hrun as <- <-. exists e.
      apply cache_read_Some in Hread as [Hentry _]. done.
    - rewrite (fetch_data_miss _ _ _ Hread) in Hrun.
      pose proof (fetch_data_body_frame lat lon w0) as [Hclock _].
      destruct (fetch_data_body API_KEY provider lat lon w0) as [[v'|x] w']; [|done].
      injection Hrun as <- <-. simpl in *. eexists. split.
      + apply lookup_insert_eq.
      + simpl. split; [reflexivity | now intros _]. }
  destruct Hentry as (e & Hentry & Hvalue & Hstored).
  exists e. split; [exact Hentry|]. split; [exact Hvalue|]. split; [exact Hstored|].
  intros w2 Hsame. rewrite Hentry in Hsame. split.
  - intros Hfresh.
    assert (Hread : cache_read ttl_1d (lat, lon) w2 = Some e)
      by now apply cache_read_Some.
    rewrite (fetch_data_hit _ _ _ _ Hread). simpl. now rewrite Hvalue.
  - intros Hlate Hkey.
    assert (Hread : cache_read ttl_1d (lat, lon) w2 = None)
      by now apply (cache_read_expired _ _ _ e).
    destruct (fetch_data_miss_fst lat lon w2 Hread) as (_ & _ & ->).
    rewrite fetch_data_body_sent.
    now rewrite (proj2 (String.eqb_neq _ _) Hkey).
Qed.

(** The body raises only past a status that is no error: when
    [response.json()] raises something else than [JSONDecodeError], or on
    a parsed body that is not an object. *)
Lemma fetch_data_body_raises lat lon w :
  raised (fst (fetch_data_body API_KEY provider lat lon w)) ->
  exists r,
    provider (clock w) (the_request API_KEY lat lon) = Responded r /\
    raise_for_status r = false /\
    ((exists e, body r = JsonRaises e) \/
     (exists data, body r = Parsed data /\ forall members, data <> JObj members)).
Proof.
  step_body. unfold the_request.
  repeat (case_match; simplify_eq/=; try done);
    intros _; eexists; (split; [reflexivity|]); (split; [assumption|]);
    try (left; eexists; eassumption);
    right; eexists; (split; [eassumption|]);
    intros members ->; simpl in *; try discriminate.
  match goal with
  | Hin : Ret (bool_decide _) = Ret true |- _ =>
      injection Hin as Hin; apply bool_decide_eq_true in Hin as [v Hv]
  end.
  rewrite Hv in *. discriminate.
Qed.

End FetchProperties.

(** C7: with no API key, the body of [fetch_data] shows the
    configuration error and returns [None] at once; no call of
    [fetch_data] sends a request, and a call that reaches the body ends
    as a configuration error. *)
Theorem fetch_data_without_key {coord : Type} `{Countable coord}
    (provider : Z -> @request coord -> transport) (lat lon : coord)
    (w : @world coord _ _) :
  fetch_data_body "" provider lat lon w = (Ret None, shows [StError ApiKeyMissing] w) /\
  failure_kind_of ApiKeyMissing = ConfigurationError /\
  sent (snd (fetch_data "" provider lat lon w)) = sent w /\
  (cache_read ttl_1d (lat, lon) w = None ->
   fails_as ConfigurationError (fetch_data "" provider lat lon w) w).
Proof.
  split; [reflexivity|]. split; [reflexivity|]. split.
  - destruct (cache_read ttl_1d (lat, lon) w) as [e|] eqn:Hread.
    + now rewrite (fetch_data_hit _ _ _ _ _ _ Hread).
    + now destruct (fetch_data_miss_fst "" provider lat lon w Hread) as (_ & _ & ->).
  - intros Hread. unfold fails_as.
    destruct (fetch_data_miss_fst "" provider lat lon w Hread) as (-> & -> & _).
    split; [reflexivity|]. now exists ApiKeyMissing.
Qed.

(** C9 fails on the code: a provider that answers with status 200 and the
    JSON text [null] makes [fetch_data] raise.  [response.json()] returns
    [None], the test ["error_message" in data] raises [TypeError], and no
    [except] clause of [fetch_data] catches it; the request has been
    sent and nothing is shown. *)
Theorem fetch_data_raises_on_null_body :
  fetch_data "key" provider_null 0 0 world0
  = (Raise TypeError, World 0 [] [] [the_request "key" 0 0] ∅).
Proof. vm_compute. reflexivity. Qed.

(** C3, as stated, fails: a failed call returns no tagged failure.  The
    provider answers one call with status 403 and another with 429; the
    two calls fail with different kinds, which the messages show, and
    return the same value, the bare [None]: no reading of the returned
    value tells the kind.  And a status 401, with which a provider
    rejects credentials as well, is no authorization failure for
    [fetch_data] but a request error. *)
Lemma fetch_data_returns_no_tag :
  let run403 := fetch_data "key" provider_forbidden 0 0 world0 in
  let run429 := fetch_data "key" provider_quota 0 0 world0 in
  let run401 := fetch_data "key" provider_unauthorized 0 0 world0 in
  fails_as AuthorizationError run403 world0 /\
  fails_as QuotaExceededError run429 world0 /\
  fst run403 = Ret None /\ fst run429 = Ret None /\
  ~ returns_tagged_failure [(AuthorizationError, run403); (QuotaExceededError, run429)] /\
  fails_as RequestError run401 world0 /\
  ~ fails_as AuthorizationError run401 world0.
Proof.
  cbv zeta.
  split; [split; [reflexivity | eexists; split; reflexivity]|].
  split; [split; [reflexivity | eexists; split; reflexivity]|].
  split; [reflexivity|]. split; [reflexivity|].
  split; [|split].
  - intros [tag Htag].
    pose proof (Htag AuthorizationError _ (or_introl eq_refl)) as H403.
    pose proof (Htag QuotaExceededError _ (or_intror (or_introl eq_refl))) as H429.
    change (fst (fetch_data "key" provider_forbidden 0 0 world0))
      with (@Ret (option json) None) in H403.
    change (fst (fetch_data "key" provider_quota 0 0 world0))
      with (@Ret (option json) None) in H429.
    congruence.
  - split; [reflexivity | eexists; split; reflexivity].
  - intros [_ (m & Hui & Hkind)]. vm_compute in Hui.
    injection Hui as <-. discriminate.
Qed.

(** ** The theorems at sample inputs *)

Lemma hourly_without_precipitation_lengths :
  one_common_length hourly_without_precipitation.
Proof.
  intros a b Ha Hb. vm_compute in Ha, Hb.
  repeat match goal with H : _ \/ _ |- _ => destruct H as [<-|H] end;
    solve [reflexivity | contradiction].
Defined.

Lemma hourly_without_precipitation_times :
  times_read to_datetime_iso hourly_without_precipitation.
Proof.
  intros col s [= <-] Hs. simpl in Hs.
  repeat match goal with H : _ \/ _ |- _ => destruct H as [[= <-]|H] end;
    solve [vm_compute; discriminate | contradiction].
Defined.

(** The hourly section without [precipitation] meets the premises of
    [transform_data_absent_parts]: its frame has the three rows of the
    arrays that were sent. *)
Lemma transform_data_absent_parts_witness :
  one_common_length hourly_without_precipitation /\
  times_read to_datetime_iso hourly_without_precipitation /\
  exists df,
    transform_data to_datetime_iso mean_exact
      (Payload (Some hourly_without_precipitation)) = Ret df /\
    rows_of hourly_without_precipitation df /\
    well_formed df /\
    present_columns_kept to_datetime_iso hourly_without_precipitation df /\
    absent_columns_missing hourly_without_precipitation df.
Proof.
  split; [exact hourly_without_precipitation_lengths|].
  split; [exact hourly_without_precipitation_times|].
  exact (proj2 (transform_data_absent_parts to_datetime_iso mean_exact)
               hourly_without_precipitation
               hourly_without_precipitation_lengths
               hourly_without_precipitation_times).
Defined.

(** [df_day_is_date_subsequence] on the three complete hours, for the
    first of May: two of the three records fall on it. *)
Lemma df_day_is_date_subsequence_witness :
  transform_data to_datetime_iso mean_exact payload_complete = Ret frame_complete /\
  records (df_day frame_complete (2024, 5, 1))
    = filter (falls_on (2024, 5, 1)) (records frame_complete) /\
  sublist (records (df_day frame_complete (2024, 5, 1))) (records frame_complete) /\
  length (records frame_complete) = 3%nat /\
  length (records (df_day frame_complete (2024, 5, 1))) = 2%nat.
Proof.
  split; [vm_compute; reflexivity|].
  destruct (df_day_is_date_subsequence to_datetime_iso mean_exact payload_complete
              frame_complete (2024, 5, 1)) as [Heq Hsub]; [vm_compute; reflexivity|].
  split; [exact Heq|]. split; [exact Hsub|]. split; reflexivity.
Defined.



(** [fetch_data_failure_kinds] when the provider answers 429. *)
Lemma fetch_data_failure_kinds_witness :
  "key" <> "" /\
  cache_read ttl_1d (0, 0) world0 = None /\
  provider_quota (clock world0) (the_request "key" 0 0)
    = Responded (Response 429 "Too Many Requests" JSONDecodeError) /\
  fails_as QuotaExceededError (fetch_data "key" provider_quota 0 0 world0) world0.
Proof.
  assert (Hkey : "key" <> "") by discriminate.
  split; [exact Hkey|]. split; [reflexivity|]. split; [reflexivity|].
  pose proof (fetch_data_failure_kinds "key" provider_quota 0 0 world0 Hkey eq_refl)
    as Hkinds.
  cbv zeta in Hkinds. destruct Hkinds as (_ & Hquota & _).
  exact (Hquota _ eq_refl eq_refl).
Defined.

(** [fetch_data_memoized]: a first fetch at time 0, a second call 100
    seconds later and a third after 24 hours. *)
Lemma fetch_data_memoized_witness :
  fetch_data "key" provider_ok 0 0 world0 = (Ret (Some forecast_object), world1) /\
  "key" <> "" /\
  fst (fetch_data "key" provider_ok 0 0 (at_time 100 world1))
    = Ret (Some forecast_object) /\
  sent (snd (fetch_data "key" provider_ok 0 0 (at_time 100 world1))) = sent world1 /\
  sent (snd (fetch_data "key" provider_ok 0 0 (at_time 86400 world1)))
    = (sent world1 ++ [the_request "key" 0 0])%list.
Proof.
  assert (Hkey : "key" <> "") by discriminate.
  assert (Hrun : fetch_data "key" provider_ok 0 0 world0
                 = (Ret (Some forecast_object), world1)) by reflexivity.
  split; [exact Hrun|]. split; [exact Hkey|].
  destruct (fetch_data_memoized "key" provider_ok 0 0 world0 _ world1 Hrun)
    as (e & _ & _ & Hstored & Hlater).
  specialize (Hstored eq_refl). rewrite Hstored in Hlater.
  destruct (Hlater (at_time 100 world1) eq_refl) as [Hfresh _].
  destruct (Hlater (at_time 86400 world1) eq_refl) as [_ Hstale].
  destruct Hfresh as [Hvalue Hsent]; [simpl; lia|].
  split; [exact Hvalue|]. split; [exact Hsent|].
  apply Hstale; [simpl; lia | exact Hkey].
Defined.

(** [fetch_data_without_key] on a first call. *)
Lemma fetch_data_without_key_witness :
  cache_read ttl_1d (0, 0) world0 = None /\
  fails_as ConfigurationError (fetch_data "" provider_null 0 0 world0) world0.
Proof.
  split; [reflexivity|].
  exact (proj2 (proj2 (proj2 (fetch_data_without_key provider_null 0 0 world0))) eq_refl).
Defined.

(** * Further properties *)

(** ** When [transform_data] returns *)

Lemma extract_index_Ret l n :
  extract_index l = Ret n -> forall a b, In a l -> In b l -> a = b.
Proof.
  intros Hn a b Ha Hb.
  now rewrite (extract_index_In _ _ _ Hn Ha), (extract_index_In _ _ _ Hn Hb).
Qed.

Lemma extract_index_Raise l e : extract_index l = Raise e -> e = ValueError.
Proof.
  destruct l as [|m rest]; simpl; [discriminate|].
  destruct (forallb (Nat.eqb m) rest); [discriminate | now intros [= <-]].
Qed.

Section ReturnProperties.
Variable to_datetime : list (option string) -> string -> time_reading.
Variable float64_mean : nat -> list (option Q) -> option Q.

(** X1: on a payload that has the hourly section, [transform_data]
    returns a frame exactly when the arrays that are present have one
    common length and pandas can read every time text in its column; in
    every other case it raises [ValueError]. *)
Theorem transform_data_returns_iff (d : data_1h) :
  ((exists df, transform_data to_datetime float64_mean (Payload (Some d)) = Ret df) <->
   one_common_length d /\ times_read to_datetime d) /\
  (~ (one_common_length d /\ times_read to_datetime d) ->
   transform_data to_datetime float64_mean (Payload (Some d)) = Raise ValueError).
Proof.
  assert (Hret : forall df,
             transform_data to_datetime float64_mean (Payload (Some d)) = Ret df ->
             one_common_length d /\ times_read to_datetime d).
  { intros df (d' & n & ts & [= <-] & Hn & Hts & _)%transform_data_Ret.
    split.
    - exact (extract_index_Ret _ _ Hn).
    - intros col s Hcol Hs. rewrite Hcol in Hts. simpl in Hts.
      now apply (proj1 (read_times_Ret _ _ _ _ Hts)). }
  assert (Hraise : forall e,
             transform_data to_datetime float64_mean (Payload (Some d)) = Raise e ->
             e = ValueError).
  { unfold transform_data, pd_DataFrame. simpl. intros e.
    destruct (extract_index (present_lengths d)) as [n|e'] eqn:Hn; simpl.
    - destruct (pd_to_datetime to_datetime (column_or_nan n (h_time d)))
        as [ts|e''] eqn:Hts; simpl; [discriminate|].
      intros [= <-]. exact (read_times_Raise _ _ _ _ Hts).
    - intros [= <-]. exact (extract_index_Raise _ _ Hn). }
  split; [split|].
  - intros [df Hdf]. exact (Hret df Hdf).
  - intros [Hlen Hread].
    destruct (extract_index_total _ Hlen) as [n Hn].
    assert (Hts : exists ts,
               pd_to_datetime to_datetime (column_or_nan n (h_time d)) = Ret ts).
    { unfold pd_to_datetime. destruct (h_time d) as [col|] eqn:Htime; simpl.
      - apply read_times_total. intros s Hs. now apply (Hread col).
      - eexists. apply read_times_replicate_None. }
    destruct Hts as [ts Hts].
    rewrite (transform_data_run to_datetime float64_mean d n ts Hn Hts).
    now eexists.
  - intros Hnot.
    destruct (transform_data to_datetime float64_mean (Payload (Some d)))
      as [df|e] eqn:Hrun.
    + exfalso. exact (Hnot (Hret df eq_refl)).
    + now rewrite (Hraise e eq_refl).
Qed.

(** X2: [transform_data] neither reorders nor alters what the provider
    sent.  The frame has one row per entry of the arrays; a measurement
    column is the array itself, and the time column is the array of
    time texts, each as pandas reads it in its column, a [null] giving a
    missing time. *)
Theorem transform_data_keeps_arrays (data : RawPayload) (df : DataFrame) :
  transform_data to_datetime float64_mean data = Ret df ->
  exists d,
    payload_data_1h data = Some d /\
    (forall col, h_time d = Some col ->
       time df = map (fun o => o ≫= (fun s => stamp_of (to_datetime col s))) col /\
       df_len df = length col) /\
    (forall xs, h_temperature d = Some xs ->
       temperature df = xs /\ df_len df = length xs) /\
    (forall xs, h_felttemperature d = Some xs ->
       felttemperature df = xs /\ df_len df = length xs) /\
    (forall xs, h_precipitation d = Some xs ->
       precipitation df = xs /\ df_len df = length xs) /\
    (forall xs, h_convective_precipitation d = Some xs ->
       convective_precipitation df = xs /\ df_len df = length xs).
Proof.
  intros Hdf.
  destruct (transform_data_well_formed _ _ _ _ Hdf) as (H1 & H2 & H3 & H4 & _).
  destruct (transform_data_Ret _ _ _ _ Hdf) as (d & n & ts & Hd & Hn & Hts & ->).
  exists d. split; [exact Hd|].
  unfold df_len in *; simpl in *.
  split; [|split; [|split; [|split]]].
  - intros col Hcol. rewrite Hcol in Hts. simpl in Hts.
    destruct (read_times_Ret _ _ _ _ Hts) as [_ ->].
    split; [reflexivity | apply length_map].
  - intros xs Hxs. rewrite Hxs in *. simpl in *. now split.
  - intros xs Hxs. rewrite Hxs in *. simpl in *. now split.
  - intros xs Hxs. rewrite Hxs in *. simpl in *. now split.
  - intros xs Hxs. rewrite Hxs in *. simpl in *. now split.
Qed.

End ReturnProperties.

(** The ragged hourly section does not meet the premise of
    [transform_data_returns_iff], and is rejected. *)
Lemma transform_data_returns_iff_witness :
  ~ (one_common_length hourly_ragged /\ times_read to_datetime_iso hourly_ragged) /\
  transform_data to_datetime_iso mean_exact (Payload (Some hourly_ragged))
    = Raise ValueError.
Proof.
  assert (Hnot : ~ (one_common_length hourly_ragged /\
                    times_read to_datetime_iso hourly_ragged)).
  { intros [Hlen _]. specialize (Hlen 3%nat 2%nat). vm_compute in Hlen.
    assert (H32 : 3%nat = 2%nat) by (apply Hlen; tauto). discriminate. }
  split; [exact Hnot|].
  exact (proj2 (transform_data_returns_iff to_datetime_iso mean_exact hourly_ragged) Hnot).
Defined.

(** [transform_data_keeps_arrays] on the three complete hours. *)
Lemma transform_data_keeps_arrays_witness :
  transform_data to_datetime_iso mean_exact payload_complete = Ret frame_complete /\
  exists d,
    payload_data_1h payload_complete = Some d /\
    (forall xs, h_temperature d = Some xs ->
       temperature frame_complete = xs /\ df_len frame_complete = length xs).
Proof.
  split; [vm_compute; reflexivity|].
  destruct (transform_data_keeps_arrays to_datetime_iso mean_exact payload_complete
              frame_complete eq_refl) as (d & Hd & _ & Htemp & _).
  exists d. split; [exact Hd | exact Htemp].
Defined.

(** ** The day view *)

Lemma length_boolean_index_le {A} (xs : list A) mask :
  (length (boolean_index xs mask) <= length xs)%nat.
Proof.
  revert mask. induction xs as [|x xs IH]; intros [|b mask]; simpl; try lia.
  specialize (IH mask). destruct b; simpl; lia.
Qed.

(** Columns of one length keep one length under a mask. *)
Lemma length_boolean_index {A B} (xs : list A) (ys : list B) mask :
  length xs = length ys ->
  length (boolean_index xs mask) = length (boolean_index ys mask).
Proof.
  revert ys mask. induction xs as [|x xs IH]; intros [|y ys] [|b mask];
    simpl; try discriminate; try reflexivity.
  intros [= Hlen]. destruct b; simpl; auto.
Qed.

Lemma In_boolean_index {A} (x : A) xs mask : In x (boolean_index xs mask) -> In x xs.
Proof.
  revert mask. induction xs as [|y xs IH]; intros [|b mask]; simpl; try tauto.
  destruct b; simpl; [intros [->|Hx]|intros Hx]; eauto.
Qed.

(** Masking a second time with the mask of the masked time column. *)
Lemma boolean_index_again {A} (f : option datetime -> bool) ts : forall xs : list A,
  length xs = length ts ->
  boolean_index (boolean_index xs (map f ts))
                (map f (boolean_index ts (map f ts)))
  = boolean_index xs (map f ts).
Proof.
  induction ts as [|t ts IH]; intros [|x xs]; simpl; try discriminate;
    try reflexivity.
  intros [= Hlen]. destruct (f t) eqn:Hf; simpl; rewrite ?Hf; rewrite IH by done;
    reflexivity.
Qed.

Lemma mask_other (f g : option datetime -> bool) ts :
  (forall t, f t = true -> g t = false) ->
  forallb negb (map g (boolean_index ts (map f ts))) = true.
Proof.
  intros Hfg. induction ts as [|t ts IH]; simpl; [reflexivity|].
  destruct (f t) eqn:Hf; simpl; [|exact IH].
  now rewrite (Hfg t Hf).
Qed.

Lemma boolean_index_none {A} (xs : list A) mask :
  forallb negb mask = true -> boolean_index xs mask = [].
Proof.
  revert mask. induction xs as [|x xs IH]; intros [|b mask]; simpl; try reflexivity.
  destruct b; simpl; [discriminate | apply IH].
Qed.

Lemma mask_none (f : option datetime -> bool) ts :
  (forall t, In t ts -> f t = false) <-> forallb negb (map f ts) = true.
Proof.
  induction ts as [|t ts IH]; simpl; [tauto|].
  rewrite andb_true_iff, <- IH, negb_true_iff. split.
  - intros Hall. split; [apply Hall; now left | intros t' Ht'; apply Hall; now right].
  - intros [Hf Hall] t' [<-|Ht']; [exact Hf | now apply Hall].
Qed.

Lemma date_mask_none d ts :
  (forall t, In (Some t) ts -> datetime_date t <> d) <->
  forallb negb (date_mask ts d) = true.
Proof.
  unfold date_mask. rewrite <- mask_none. split.
  - intros Hall [t|] Ht; [|reflexivity].
    destruct (date_eqb (datetime_date t) d) eqn:Hd; [|reflexivity].
    apply date_eqb_eq in Hd. exfalso. now apply (Hall t).
  - intros Hall t Ht Heq. pose proof (Hall (Some t) Ht) as Hd.
    cbv beta iota in Hd. apply date_eqb_eq in Heq. congruence.
Qed.

Lemma date_mask_other d d' ts :
  d' <> d ->
  forallb negb (date_mask (boolean_index ts (date_mask ts d)) d') = true.
Proof.
  intros Hne. unfold date_mask. apply mask_other.
  intros [t|] Ht; [|reflexivity].
  apply date_eqb_eq in Ht.
  destruct (date_eqb (datetime_date t) d') eqn:Hd'; [|reflexivity].
  apply date_eqb_eq in Hd'. congruence.
Qed.

Lemma length_boolean_index_0 {A} (xs : list A) mask :
  length xs = length mask ->
  (length (boolean_index xs mask) = 0%nat <-> forallb negb mask = true).
Proof.
  revert mask. induction xs as [|x xs IH]; intros [|b mask]; simpl;
    try discriminate; [tauto|].
  intros [= Hlen]. destruct b; simpl; [split; discriminate | now apply IH].
Qed.

(** X5: filtering a frame that [transform_data] returned by a date gives
    a frame with one entry per row in every column and no more rows than
    before; filtering the result by the same date again changes nothing,
    and filtering it by another date leaves no rows. *)
Theorem df_day_again
    (to_datetime : list (option string) -> string -> time_reading)
    (float64_mean : nat -> list (option Q) -> option Q)
    (data : RawPayload) (df : DataFrame) (d d' : date) :
  transform_data to_datetime float64_mean data = Ret df ->
  well_formed (df_day df d) /\
  (df_len (df_day df d) <= df_len df)%nat /\
  df_day (df_day df d) d = df_day df d /\
  (d' <> d -> df_empty (df_day (df_day df d) d') = true).
Proof.
  intros Hdf.
  destruct (transform_data_well_formed _ _ _ _ Hdf) as (H1 & H2 & H3 & H4 & H5 & H6).
  unfold df_len in *.
  split; [|split; [|split]].
  - unfold well_formed, df_day, df_getitem_mask, df_len; simpl.
    repeat split; now apply length_boolean_index.
  - unfold df_day, df_getitem_mask, df_len; simpl. apply length_boolean_index_le.
  - unfold df_day, df_getitem_mask, date_mask; simpl.
    f_equal; now apply boolean_index_again.
  - intros Hne. unfold df_empty, df_len, df_day, df_getitem_mask; simpl.
    rewrite boolean_index_none by now apply date_mask_other. reflexivity.
Qed.

(** X6: the day view of a frame has no rows exactly when no time of the
    frame falls on the selected date, and then [render_detail_content]
    shows the no-data warning and nothing else: no metric, no chart. *)
Theorem df_day_without_records {coord : Type} `{Countable coord}
    (df : DataFrame) (d : date) (w : @world coord _ _) :
  (df_empty (df_day df d) = true <-> no_time_on d df) /\
  (no_time_on d df ->
   render_detail_content (df_day df d) w = (Ret tt, shows [StWarning MSG_NO_DATA] w)).
Proof.
  assert (Hiff : df_empty (df_day df d) = true <-> no_time_on d df).
  { unfold df_empty, df_len, df_day, df_getitem_mask, no_time_on; simpl.
    rewrite Nat.eqb_eq, date_mask_none.
    apply length_boolean_index_0. unfold date_mask. now rewrite length_map. }
  split; [exact Hiff|].
  intros Hnone. apply Hiff in Hnone.
  unfold render_detail_content. now rewrite Hnone.
Qed.

(** ** Columns by name *)

Lemma df_getitem_column df name :
  is_column name = true -> exists col, df_getitem df name = Ret col.
Proof.
  unfold is_column, column_names, df_getitem. simpl.
  repeat (destruct (String.eqb name _); [intros _; now eexists|]).
  discriminate.
Qed.

Lemma df_getitem_not_column df name :
  is_column name = false -> df_getitem df name = Raise (KeyError name).
Proof.
  unfold is_column, column_names, df_getitem. simpl.
  repeat (destruct (String.eqb name _); [discriminate|]).
  reflexivity.
Qed.

(** The column of the day view is the column of the frame under the mask
    of the date. *)
Lemma df_getitem_df_day df d name col :
  df_getitem df name = Ret col ->
  df_getitem (df_day df d) name =
    Ret match col with
        | NumSeries xs => NumSeries (boolean_index xs (date_mask (time df) d))
        | TimeSeries ts => TimeSeries (boolean_index ts (date_mask (time df) d))
        end.
Proof.
  unfold df_getitem.
  repeat (destruct (String.eqb name _); [now intros [= <-]|]).
  discriminate.
Qed.

(** ** Metrics *)

Section MoreMetricsProperties.
Context {coord : Type} `{Countable coord}.
Implicit Types w : @world coord _ _.

(** The columns of a frame are the column of times and six columns of
    numbers. *)
Lemma df_getitem_kind df name :
  is_column name = true ->
  (name = "time" /\ df_getitem df name = Ret (TimeSeries (time df))) \/
  (name <> "time" /\ exists xs, df_getitem df name = Ret (NumSeries xs)).
Proof.
  unfold is_column, column_names, df_getitem. simpl.
  destruct (String.eqb_spec name "time") as [->|Hne]; [intros _; now left|].
  repeat (destruct (String.eqb name _); [intros _; right; split; [exact Hne | now eexists]|]).
  discriminate.
Qed.

(** X7: [display_metrics] called with a name that is not a column of the
    frame raises [KeyError] with that name before anything is shown: the
    world is left as it was.  Called with a column of numbers it returns,
    and changes nothing but the page, by three elements: no request is
    sent, the console and the cache stay as they are.  Called with the
    column of times it does the same when the column has a time, and
    raises [ValueError] before a metric is shown when it has none. *)
Theorem display_metrics_column_name (df : DataFrame)
    (column_name label unit_ : string) w :
  let run := display_metrics df column_name label unit_ w in
  (is_column column_name = false -> run = (Raise (KeyError column_name), w)) /\
  (is_column column_name = true ->
   column_name <> "time" \/ (exists t, In (Some t) (time df)) ->
   fst run = Ret tt /\ length (ui (snd run)) = (length (ui w) + 3)%nat /\
   clock (snd run) = clock w /\ console (snd run) = console w /\
   sent (snd run) = sent w /\ cache (snd run) = cache w) /\
  (column_name = "time" -> ~ (exists t, In (Some t) (time df)) ->
   run = (Raise ValueError, w)).
Proof.
  cbv zeta. split; [|split].
  - intros Hno. unfold display_metrics, bind, lift.
    now rewrite (df_getitem_not_column df _ Hno).
  - intros Hcol Hcase.
    destruct (df_getitem_kind df _ Hcol) as [[-> Hget]|[Hne [xs Hget]]].
    + destruct Hcase as [Hne|Ht]; [now elim Hne|].
      rewrite (proj1 (display_metrics_time df "time" label unit_ _ w Hget) Ht).
      simpl. rewrite length_app. simpl. repeat split; reflexivity.
    + rewrite (display_metrics_num df column_name label unit_ xs w Hget).
      simpl. rewrite length_app. simpl. repeat split; reflexivity.
  - intros -> Hnone.
    exact (proj2 (display_metrics_time df "time" label unit_ _ w eq_refl) Hnone).
Qed.

(** X8: the maximum that [display_metrics] shows for a column of numbers
    is at least every value of the column, up to the rounding to one
    decimal: it is never more than half a tenth below a value.  Likewise
    the minimum shown is never more than half a tenth above a value. *)
Theorem display_metrics_bounds (df : DataFrame) (column_name label unit_ : string)
    (xs : list (option Q)) w :
  df_getitem df column_name = Ret (NumSeries xs) ->
  exists max_val min_val,
    display_metrics df column_name label unit_ w =
      (Ret tt,
       shows [ StMetric (String.append "Maximum " label) max_val unit_;
               StMetric (String.append "Minimum " label) min_val unit_;
               StDivider ] w) /\
    forall x, In (Some x) xs ->
      exists max_tenths min_tenths,
        max_val = MDecimal max_tenths /\ min_val = MDecimal min_tenths /\
        (10 * x - (1 # 2) <= inject_Z max_tenths)%Q /\
        (inject_Z min_tenths <= 10 * x + (1 # 2))%Q.
Proof.
  intros Hcol. eexists _, _.
  split; [apply display_metrics_num; exact Hcol|].
  intros x Hx.
  destruct (series_greatest_least xs (ex_intro _ x Hx))
    as (hi & lo & -> & -> & [_ Hhi] & [_ Hlo] & _).
  eexists _, _. split; [reflexivity|]. split; [reflexivity|].
  pose proof (round_half_even_near (10 * hi)) as [Hnear_hi _].
  pose proof (round_half_even_near (10 * lo)) as [_ Hnear_lo].
  specialize (Hhi x Hx). specialize (Hlo x Hx). split; lra.
Qed.

(** X9: the metrics of a day never leave the range of the metrics of the
    week.  For every column that has a value on the selected date, the
    maximum that [display_metrics] shows for the day view is at most the
    one it shows for the whole frame, and the minimum at least. *)
Theorem display_metrics_day_within_week (df : DataFrame) (d : date)
    (column_name label unit_ : string) (col day_col : series) w w' :
  df_getitem df column_name = Ret col ->
  df_getitem (df_day df d) column_name = Ret day_col ->
  has_value day_col ->
  exists max_week min_week max_day min_day,
    display_metrics df column_name label unit_ w =
      (Ret tt,
       shows [ StMetric (String.append "Maximum " label) max_week unit_;
               StMetric (String.append "Minimum " label) min_week unit_;
               StDivider ] w) /\
    display_metrics (df_day df d) column_name label unit_ w' =
      (Ret tt,
       shows [ StMetric (String.append "Maximum " label) max_day unit_;
               StMetric (String.append "Minimum " label) min_day unit_;
               StDivider ] w') /\
    metric_le max_day max_week /\ metric_le min_week min_day.
Proof.
  intros Hcol Hday Hvalue.
  pose proof (df_getitem_df_day df d _ _ Hcol) as Hday'.
  rewrite Hday' in Hday. injection Hday as <-.
  destruct col as [xs|ts]; simpl in Hvalue.
  - set (ys := boolean_index xs (date_mask (time df) d)) in *.
    eexists _, _, _, _.
    split; [apply display_metrics_num; exact Hcol|].
    split; [apply display_metrics_num; exact Hday'|].
    destruct (series_greatest_least ys Hvalue)
      as (hi & lo & -> & -> & [Hin_hi _] & [Hin_lo _] & _).
    apply In_boolean_index in Hin_hi, Hin_lo.
    destruct (series_greatest_least xs (ex_intro _ hi Hin_hi))
      as (hi' & lo' & -> & -> & [_ Hub] & [_ Hlb] & _).
    specialize (Hub hi Hin_hi). specialize (Hlb lo Hin_lo).
    simpl. split; apply round_half_even_le; lra.
  - set (ys := boolean_index ts (date_mask (time df) d)) in *.
    assert (Hweek : exists t, In (Some t) ts).
    { destruct Hvalue as [t Ht]. exists t. now apply In_boolean_index in Ht. }
    exists MFormatText, MFormatText, MFormatText, MFormatText.
    split; [exact (proj1 (display_metrics_time df _ label unit_ ts w Hcol) Hweek)|].
    split; [exact (proj1 (display_metrics_time _ _ label unit_ ys w' Hday') Hvalue)|].
    split; exact I.
Qed.

End MoreMetricsProperties.

(** ** Charts *)

Lemma plot_lines_all_columns df x_col y_cols :
  first_missing (x_col :: y_cols) = None ->
  exists drawn, plot_lines df x_col y_cols = Ret drawn /\ length drawn = length y_cols.
Proof.
  unfold first_missing. simpl.
  destruct (is_column x_col) eqn:Hx; simpl; [|discriminate].
  destruct (df_getitem_column df _ Hx) as [xs Hxs].
  induction y_cols as [|c rest IH]; simpl; [now exists []|].
  destruct (is_column c) eqn:Hc; simpl; [|discriminate].
  intros Hrest. destruct (IH Hrest) as (drawn & Hrun & Hlen).
  destruct (df_getitem_column df _ Hc) as [ys Hys].
  rewrite Hxs, Hys. simpl. rewrite Hrun. simpl.
  eexists. split; [reflexivity | simpl; now rewrite Hlen].
Qed.

Lemma plot_lines_missing df x_col y_cols m :
  y_cols <> [] ->
  first_missing (x_col :: y_cols) = Some m ->
  plot_lines df x_col y_cols = Raise (KeyError m).
Proof.
  unfold first_missing. simpl. intros Hne.
  destruct (is_column x_col) eqn:Hx; simpl.
  - destruct (df_getitem_column df _ Hx) as [xs Hxs]. clear Hne.
    induction y_cols as [|c rest IH]; simpl; [discriminate|].
    rewrite Hxs. simpl.
    destruct (is_column c) eqn:Hc; simpl.
    + destruct (df_getitem_column df _ Hc) as [ys Hys]. rewrite Hys. simpl.
      intros Hrest. now rewrite (IH Hrest).
    + intros [= <-]. now rewrite (df_getitem_not_column df _ Hc).
  - intros [= <-]. destruct y_cols as [|c rest]; [done|]. simpl.
    now rewrite (df_getitem_not_column df _ Hx).
Qed.

(** The bar chart of one column over the x column. *)
Lemma plot_data_bar df x_col y_col xs ys rest x_label y_label date_format :
  df_getitem df x_col = Ret xs -> df_getitem df y_col = Ret ys ->
  plot_data df x_col (YList (y_col :: rest)) x_label y_label "bar" date_format =
    if holds_none df x_col || holds_none df y_col then Raise TypeError
    else Ret (MkFigure CHART_FIGSIZE [BarContainer xs ys y_col]
                (x_label, 20) (y_label, 16) 12 date_format 16 true).
Proof.
  intros Hx Hy. unfold plot_data, ax_bar. simpl. rewrite Hx. simpl. rewrite Hy. simpl.
  now destruct (holds_none df x_col || holds_none df y_col).
Qed.

(** X10: when [plot_data] fails and when it draws nothing.  With kind
    ["line"] an empty list of columns gives a figure without a line, and
    no name is looked up; a non-empty list gives one line per name when
    every name is a column, and otherwise [KeyError] with the first name,
    the x column first, that is not.  With kind ["bar"] the x column is
    looked up first ([KeyError]), an empty list then raises
    [IndexError], and only the first name of the list is looked up: the
    names after it are ignored, columns or not.  The one bar series is
    drawn unless the x column or that first column holds [None] objects,
    which raises [TypeError].  Any other kind gives a figure with nothing
    drawn, whatever the names are. *)
Theorem plot_data_failures (df : DataFrame) (x_col : string) (y_cols : list string)
    (x_label y_label graph_type date_format : string) :
  let draw kind := plot_data df x_col (YList y_cols) x_label y_label kind date_format in
  (y_cols = [] -> exists fig, draw "line" = Ret fig /\ artists fig = []) /\
  (first_missing (x_col :: y_cols) = None ->
   exists fig, draw "line" = Ret fig /\ length (artists fig) = length y_cols) /\
  (forall m, y_cols <> [] -> first_missing (x_col :: y_cols) = Some m ->
   draw "line" = Raise (KeyError m)) /\
  (is_column x_col = false -> draw "bar" = Raise (KeyError x_col)) /\
  (is_column x_col = true -> y_cols = [] -> draw "bar" = Raise IndexError) /\
  (forall c rest, is_column x_col = true -> y_cols = c :: rest ->
   draw "bar" = plot_data df x_col (YList [c]) x_label y_label "bar" date_format /\
   (is_column c = false -> draw "bar" = Raise (KeyError c)) /\
   (is_column c = true -> holds_none df x_col || holds_none df c = true ->
    draw "bar" = Raise TypeError) /\
   (is_column c = true -> holds_none df x_col || holds_none df c = false ->
    exists fig, draw "bar" = Ret fig /\ length (artists fig) = 1%nat)) /\
  (graph_type <> "line" -> graph_type <> "bar" ->
   exists fig, draw graph_type = Ret fig /\ artists fig = []).
Proof.
  cbv zeta.
  split; [|split; [|split; [|split; [|split; [|split]]]]].
  - intros ->. unfold plot_data. simpl. eexists. split; reflexivity.
  - intros Hall. destruct (plot_lines_all_columns df _ _ Hall) as (drawn & Hrun & Hlen).
    unfold plot_data. simpl. rewrite Hrun. simpl.
    eexists. split; [reflexivity | exact Hlen].
  - intros m Hne Hm. unfold plot_data. simpl.
    now rewrite (plot_lines_missing df _ _ _ Hne Hm).
  - intros Hx. unfold plot_data. simpl. now rewrite (df_getitem_not_column df _ Hx).
  - intros Hx ->. destruct (df_getitem_column df _ Hx) as [xs Hxs].
    unfold plot_data. simpl. now rewrite Hxs.
  - intros c rest Hx ->. destruct (df_getitem_column df _ Hx) as [xs Hxs].
    split; [|split; [|split]].
    + unfold plot_data. reflexivity.
    + intros Hc. unfold plot_data. simpl. rewrite Hxs. simpl.
      now rewrite (df_getitem_not_column df _ Hc).
    + intros Hc Hnone. destruct (df_getitem_column df _ Hc) as [ys Hys].
      now rewrite (plot_data_bar df _ _ _ _ _ _ _ _ Hxs Hys), Hnone.
    + intros Hc Hnone. destruct (df_getitem_column df _ Hc) as [ys Hys].
      rewrite (plot_data_bar df _ _ _ _ _ _ _ _ Hxs Hys), Hnone.
      eexists. split; reflexivity.
  - intros Hline Hbar. unfold plot_data.
    rewrite (proj2 (String.eqb_neq _ _) Hline), (proj2 (String.eqb_neq _ _) Hbar).
    simpl. eexists. split; reflexivity.
Qed.

(** ** The two views *)

Section ViewProperties.
Context {coord : Type} `{Countable coord}.
Implicit Types w : @world coord _ _.

Lemma only_shows_emit (e : st_event) :
  only_shows (coord := coord) (emit e) [e].
Proof. intros w. reflexivity. Qed.

Lemma only_shows_bind (m k : @world coord _ _ -> outcome unit * @world coord _ _)
    (a b : list st_event) :
  only_shows m a -> only_shows k b ->
  only_shows (bind m (fun _ => k)) (a ++ b)%list.
Proof.
  intros Hm Hk w. unfold bind. rewrite Hm, Hk. unfold shows. simpl.
  now rewrite app_assoc.
Qed.

Lemma only_shows_display_metrics (df : DataFrame) (column_name label unit_ : string)
    (xs : list (option Q)) :
  df_getitem df column_name = Ret (NumSeries xs) ->
  only_shows (coord := coord) (display_metrics df column_name label unit_)
    [ StMetric (String.append "Maximum " label)
        match series_max Qle_bool xs with
        | Some x => MDecimal (round_half_even (10 * x)%Q)
        | None => MNan
        end unit_;
      StMetric (String.append "Minimum " label)
        match series_min Qle_bool xs with
        | Some x => MDecimal (round_half_even (10 * x)%Q)
        | None => MNan
        end unit_;
      StDivider ].
Proof. intros Hcol w. now apply display_metrics_num. Qed.

Lemma only_shows_st_pyplot (o : outcome Figure) (fig : Figure) :
  o = Ret fig -> only_shows (coord := coord) (st_pyplot o) [StPyplot fig].
Proof. intros -> w. reflexivity. Qed.

(** A step that only shows elements, and what follows it. *)
Lemma bind_only_shows {B} (m : @world coord _ _ -> outcome unit * @world coord _ _)
    (k : unit -> @world coord _ _ -> outcome B * @world coord _ _) evs w :
  only_shows m evs -> bind m k w = k tt (shows evs w).
Proof. intros Hm. unfold bind. now rewrite Hm. Qed.

(** A chart that cannot be drawn ends the view. *)
Lemma st_pyplot_raise (o : outcome Figure) e w :
  o = Raise e -> st_pyplot (coord := coord) o w = (Raise e, w).
Proof. now intros ->. Qed.

Lemma bind_st_pyplot_raise {B} (o : outcome Figure) e
    (k : unit -> @world coord _ _ -> outcome B * @world coord _ _) w :
  o = Raise e -> bind (st_pyplot o) k w = (Raise e, w).
Proof. intros ->. reflexivity. Qed.

(** One step of a view that shows its elements and goes on. *)
Ltac view_step :=
  erewrite bind_only_shows by
    first [ apply only_shows_emit
          | apply only_shows_display_metrics; reflexivity
          | apply only_shows_st_pyplot; reflexivity ];
  cbv beta.

(** The views change the page only. *)
Lemma touches_emit (e : st_event) : touches_page_only (coord := coord) (emit e).
Proof. intros w. now exists [e]. Qed.

Lemma shows_shows (a b : list st_event) w : shows b (shows a w) = shows (a ++ b) w.
Proof. unfold shows. simpl. now rewrite app_assoc. Qed.

Lemma shows_nil w : shows [] w = w.
Proof. destruct w. unfold shows. simpl. now rewrite app_nil_r. Qed.

Lemma touches_lift {A} (o : outcome A) : touches_page_only (coord := coord) (lift o).
Proof. intros w. exists []. simpl. now rewrite shows_nil. Qed.

Lemma touches_bind {A B} (m : @world coord _ _ -> outcome A * @world coord _ _)
    (k : A -> @world coord _ _ -> outcome B * @world coord _ _) :
  touches_page_only m -> (forall a, touches_page_only (k a)) ->
  touches_page_only (bind m k).
Proof.
  intros Hm Hk w. unfold bind. destruct (Hm w) as [a Ha].
  destruct (m w) as [[x|e] w1]; simpl in Ha; subst w1.
  - destruct (Hk x (shows a w)) as [b Hb]. exists (a ++ b)%list.
    now rewrite Hb, shows_shows.
  - now exists a.
Qed.

Lemma touches_display_metrics df column_name label unit_ :
  touches_page_only (coord := coord) (display_metrics df column_name label unit_).
Proof.
  unfold display_metrics, st_metric.
  repeat first [ apply touches_bind; [|intros ?] | apply touches_lift | apply touches_emit ].
Qed.

Lemma touches_st_pyplot (o : outcome Figure) :
  touches_page_only (coord := coord) (st_pyplot o).
Proof.
  unfold st_pyplot.
  repeat first [ apply touches_bind; [|intros ?] | apply touches_lift | apply touches_emit ].
Qed.

Lemma touches_views df :
  touches_page_only (coord := coord) (render_overview_content df) /\
  touches_page_only (coord := coord) (render_detail_content df).
Proof.
  unfold render_overview_content, render_detail_content.
  destruct (df_empty df); split;
    repeat first [ apply touches_display_metrics | apply touches_st_pyplot
                 | apply touches_emit | apply touches_bind; [|intros ?] ].
Qed.

(** What a view shows is read off the five columns of the provider. *)
Lemma views_run (df df' : DataFrame) :
  same_raw_columns df df' -> bars_hold_numbers df ->
  exists overview detail,
    only_shows (coord := coord) (render_overview_content df) overview /\
    only_shows (coord := coord) (render_overview_content df') overview /\
    only_shows (coord := coord) (render_detail_content df) detail /\
    only_shows (coord := coord) (render_detail_content df') detail /\
    (df_empty df = false ->
     length (charts overview) = 3%nat /\ length (charts detail) = 3%nat).
Proof.
  destruct df as [ts c1 c2 c3 c4 c5 c6 nc], df' as [ts' c1' c2' c3' c4' c5' c6' nc'].
  intros (Ht & H1 & H2 & H3 & H4 & Hn). simpl in Ht, H1, H2, H3, H4, Hn. subst.
  intros (Hbt & Hbp & Hbc).
  assert (Hbt' : holds_none (MkDataFrame ts' c1' c2' c3' c4' c5' c6' nc') "time" = false)
    by exact Hbt.
  assert (Hbp' : holds_none (MkDataFrame ts' c1' c2' c3' c4' c5' c6' nc') "precipitation"
                 = false) by exact Hbp.
  assert (Hbc' : holds_none (MkDataFrame ts' c1' c2' c3' c4' c5' c6' nc')
                   "convective_precipitation" = false) by exact Hbc.
  unfold render_overview_content, render_detail_content, df_empty, df_len.
  cbn [time].
  destruct (length ts' =? 0)%nat.
  - exists [StWarning MSG_NO_DATA], [StWarning MSG_NO_DATA].
    repeat split; try apply only_shows_emit; discriminate.
  - eexists _, _.
    repeat match goal with
    | |- _ /\ _ => split
    | |- only_shows _ _ =>
        repeat first
          [ apply only_shows_bind
          | apply only_shows_emit
          | apply only_shows_display_metrics; reflexivity
          | apply only_shows_st_pyplot;
            first
              [ erewrite plot_data_bar by reflexivity;
                rewrite ?Hbt, ?Hbp, ?Hbc, ?Hbt', ?Hbp', ?Hbc'; reflexivity
              | reflexivity ] ]
    end.
    intros Hrows. split; reflexivity.
Qed.

Lemma holds_none_not_empty df name : holds_none df name = true -> df_empty df = false.
Proof.
  unfold holds_none. intros [_ He]%andb_prop. now apply negb_true_iff in He.
Qed.

(** A view of a frame whose precipitation, or convective precipitation,
    holds [None] objects stops at the bar chart of that column. *)
Lemma views_raise (df : DataFrame) w :
  holds_none df "precipitation" = true \/
  holds_none df "convective_precipitation" = true ->
  fst (render_overview_content df w) = Raise TypeError /\
  fst (render_detail_content df w) = Raise TypeError.
Proof.
  intros Hnone.
  assert (Hempty : df_empty df = false)
    by (destruct Hnone as [Hn|Hn]; exact (holds_none_not_empty _ _ Hn)).
  unfold render_overview_content, render_detail_content. rewrite Hempty.
  destruct (holds_none df "time" || holds_none df "precipitation") eqn:Hp.
  - assert (Hbar : forall xl yl fmt,
               plot_data df "time" (YList ["precipitation"]) xl yl "bar" fmt
               = Raise TypeError).
    { intros xl yl fmt. erewrite plot_data_bar by reflexivity. now rewrite Hp. }
    split; repeat view_step;
      now rewrite (bind_st_pyplot_raise _ _ _ _ (Hbar _ _ _)).
  - apply orb_false_iff in Hp as [Ht Hp].
    destruct Hnone as [Hn|Hc]; [congruence|].
    assert (Hbar : forall xl yl fmt,
               plot_data df "time" (YList ["precipitation"]) xl yl "bar" fmt
               = Ret (MkFigure CHART_FIGSIZE
                        [BarContainer (TimeSeries (time df)) (NumSeries (precipitation df))
                                      "precipitation"]
                        (xl, 20) (yl, 16) 12 fmt 16 true)).
    { intros xl yl fmt. erewrite plot_data_bar by reflexivity. now rewrite Ht, Hp. }
    assert (Hlast : forall xl yl fmt,
               plot_data df "time" (YList ["convective_precipitation"]) xl yl "bar" fmt
               = Raise TypeError).
    { intros xl yl fmt. erewrite plot_data_bar by reflexivity. now rewrite Ht, Hc. }
    split; repeat view_step;
      try (erewrite bind_only_shows by (apply only_shows_st_pyplot; apply Hbar); cbv beta);
      repeat view_step;
      now rewrite (st_pyplot_raise _ _ _ (Hlast _ _ _)).
Qed.

(** X11: the two views fail on [None] objects only, and never show a
    smoothed column.  [render_overview_content] and
    [render_detail_content] return on every frame whose columns drawn as
    bars hold numbers, showing three charts when the frame has rows; on a
    frame whose precipitation or convective precipitation holds [None]
    objects both raise [TypeError].  Either way they touch nothing but
    the page.  And two frames that agree on the five columns of the
    provider are shown alike, whatever their smoothed columns hold. *)
Theorem views_outcome (df df' : DataFrame) w :
  let overview := render_overview_content df w in
  let detail := render_detail_content df w in
  (bars_hold_numbers df ->
   fst overview = Ret tt /\ fst detail = Ret tt /\
   (df_empty df = false ->
    length (charts (drop (length (ui w)) (ui (snd overview)))) = 3%nat /\
    length (charts (drop (length (ui w)) (ui (snd detail)))) = 3%nat) /\
   (same_raw_columns df df' ->
    render_overview_content df' w = overview /\
    render_detail_content df' w = detail)) /\
  (holds_none df "precipitation" = true \/
   holds_none df "convective_precipitation" = true ->
   fst overview = Raise TypeError /\ fst detail = Raise TypeError) /\
  sent (snd overview) = sent w /\ sent (snd detail) = sent w /\
  cache (snd overview) = cache w /\ cache (snd detail) = cache w.
Proof.
  cbv zeta. split; [|split].
  - intros Hbars.
    assert (Hself : same_raw_columns df df) by (repeat split).
    destruct (views_run df df Hself Hbars)
      as (overview & detail & Ho & _ & Hd & _ & Hcharts).
    rewrite (Ho w), (Hd w). unfold shows. simpl.
    rewrite !drop_app_length.
    split; [reflexivity|]. split; [reflexivity|]. split; [exact Hcharts|].
    intros Hsame.
    destruct (views_run df df' Hsame Hbars)
      as (overview' & detail' & Ho1 & Ho2 & Hd1 & Hd2 & _).
    split.
    + rewrite (Ho2 w), <- (Ho1 w). exact (Ho w).
    + rewrite (Hd2 w), <- (Hd1 w). exact (Hd w).
  - apply views_raise.
  - destruct (touches_views df) as [Ho Hd].
    destruct (Ho w) as [a ->], (Hd w) as [b ->]. repeat split.
Qed.

End ViewProperties.

(** ** The further theorems at sample inputs *)

(** [df_day_again] on the three complete hours: the first of May, then
    the second. *)
Lemma df_day_again_witness :
  transform_data to_datetime_iso mean_exact payload_complete = Ret frame_complete /\
  (2024, 5, 2) <> (2024, 5, 1) /\
  df_len (df_day frame_complete (2024, 5, 1)) = 2%nat /\
  df_day (df_day frame_complete (2024, 5, 1)) (2024, 5, 1)
    = df_day frame_complete (2024, 5, 1) /\
  df_empty (df_day (df_day frame_complete (2024, 5, 1)) (2024, 5, 2)) = true.
Proof.
  assert (Hne : (2024, 5, 2) <> (2024, 5, 1)) by discriminate.
  split; [vm_compute; reflexivity|]. split; [exact Hne|]. split; [reflexivity|].
  destruct (df_day_again to_datetime_iso mean_exact payload_complete frame_complete
              (2024, 5, 1) (2024, 5, 2) eq_refl) as (_ & _ & Hsame & Hother).
  split; [exact Hsame | exact (Hother Hne)].
Defined.

Lemma frame_complete_no_time_on_third : no_time_on (2024, 5, 3) frame_complete.
Proof.
  intros t Ht. simpl in Ht.
  repeat match goal with H : _ \/ _ |- _ => destruct H as [[= <-]|H] end;
    solve [discriminate | contradiction].
Defined.

(** [df_day_without_records]: no hour of the sample falls on the third of
    May. *)
Lemma df_day_without_records_witness :
  no_time_on (2024, 5, 3) frame_complete /\
  render_detail_content (df_day frame_complete (2024, 5, 3)) world0
    = (Ret tt, shows [StWarning MSG_NO_DATA] world0).
Proof.
  split; [exact frame_complete_no_time_on_third|].
  exact (proj2 (df_day_without_records frame_complete (2024, 5, 3) world0)
               frame_complete_no_time_on_third).
Defined.

(** [display_metrics_column_name]: ["humidity"] is no column,
    ["precipitation"] is one, and the empty frame has no time. *)
Lemma display_metrics_column_name_witness :
  is_column "humidity" = false /\
  is_column "precipitation" = true /\
  "precipitation" <> "time" /\
  ~ (exists t, In (Some t) (time frame_empty)) /\
  display_metrics frame_complete "humidity" "humidity" "%" world0
    = (Raise (KeyError "humidity"), world0) /\
  fst (display_metrics frame_complete "precipitation" "precipitation" "mm" world0)
    = Ret tt /\
  display_metrics frame_empty "time" "time" "" world0 = (Raise ValueError, world0).
Proof.
  assert (Hne : "precipitation" <> "time") by discriminate.
  assert (Hnone : ~ (exists t, In (Some t) (time frame_empty))) by (intros [t []]).
  split; [reflexivity|]. split; [reflexivity|]. split; [exact Hne|].
  split; [exact Hnone|].
  split; [|split].
  - pose proof (display_metrics_column_name frame_complete
                  "humidity" "humidity" "%" world0) as Hall.
    cbv zeta in Hall. exact (proj1 Hall eq_refl).
  - pose proof (display_metrics_column_name frame_complete
                  "precipitation" "precipitation" "mm" world0) as Hall.
    cbv zeta in Hall. exact (proj1 (proj1 (proj2 Hall) eq_refl (or_introl Hne))).
  - pose proof (display_metrics_column_name frame_empty "time" "time" "" world0) as Hall.
    cbv zeta in Hall. exact (proj2 (proj2 Hall) eq_refl Hnone).
Defined.

(** [display_metrics_bounds] on the temperatures 12.375 and 10.25: what
    is shown for the value 10.25. *)
Lemma display_metrics_bounds_witness :
  df_getitem frame_decimals "temperature"
    = Ret (NumSeries [Some (99 # 8); Some (41 # 4)]%Q) /\
  exists max_val min_val,
    display_metrics frame_decimals "temperature" "temperature" "°C" world0 =
      (Ret tt,
       shows [ StMetric (String.append "Maximum " "temperature") max_val "°C";
               StMetric (String.append "Minimum " "temperature") min_val "°C";
               StDivider ] world0) /\
    exists max_tenths min_tenths,
      max_val = MDecimal max_tenths /\ min_val = MDecimal min_tenths /\
      (10 * (41 # 4) - (1 # 2) <= inject_Z max_tenths)%Q /\
      (inject_Z min_tenths <= 10 * (41 # 4) + (1 # 2))%Q.
Proof.
  split; [reflexivity|].
  destruct (display_metrics_bounds frame_decimals "temperature" "temperature" "°C"
              _ world0 eq_refl) as (max_val & min_val & Hrun & Hall).
  exists max_val, min_val. split; [exact Hrun|].
  apply Hall. right. now left.
Defined.

(** [display_metrics_day_within_week]: the first of May within the three
    hours. *)
Lemma display_metrics_day_within_week_witness :
  has_value (NumSeries [Some (10 # 1); Some (13 # 1)]%Q) /\
  exists max_week min_week max_day min_day,
    display_metrics frame_complete "temperature" "temperature" "°C" world0 =
      (Ret tt,
       shows [ StMetric (String.append "Maximum " "temperature") max_week "°C";
               StMetric (String.append "Minimum " "temperature") min_week "°C";
               StDivider ] world0) /\
    display_metrics (df_day frame_complete (2024, 5, 1))
                    "temperature" "temperature" "°C" world0 =
      (Ret tt,
       shows [ StMetric (String.append "Maximum " "temperature") max_day "°C";
               StMetric (String.append "Minimum " "temperature") min_day "°C";
               StDivider ] world0) /\
    metric_le max_day max_week /\ metric_le min_week min_day.
Proof.
  assert (Hv : has_value (NumSeries [Some (10 # 1); Some (13 # 1)]%Q))
    by (exists (10 # 1)%Q; now left).
  split; [exact Hv|].
  exact (display_metrics_day_within_week frame_complete (2024, 5, 1)
           "temperature" "temperature" "°C" _ _ world0 world0 eq_refl eq_refl Hv).
Defined.

(** [plot_data_failures]: a bar chart without a column to draw, a line
    chart of a name that is no column, and a bar chart of [None]
    objects. *)
Lemma plot_data_failures_witness :
  is_column "time" = true /\
  first_missing ["time"; "temperature"; "humidity"] = Some "humidity" /\
  holds_none frame_null_precipitation "time"
    || holds_none frame_null_precipitation "precipitation" = true /\
  plot_data frame_complete "time" (YList []) LABEL_DATE LABEL_TEMP "bar"
            DATE_FMT_OVERVIEW = Raise IndexError /\
  plot_data frame_complete "time" (YList ["temperature"; "humidity"])
            LABEL_DATE LABEL_TEMP "line" DATE_FMT_OVERVIEW
    = Raise (KeyError "humidity") /\
  plot_data frame_null_precipitation "time" (YList ["precipitation"; "humidity"])
            LABEL_DATE LABEL_TOTAL_PREP "bar" DATE_FMT_OVERVIEW = Raise TypeError.
Proof.
  split; [reflexivity|]. split; [reflexivity|]. split; [reflexivity|].
  split; [|split].
  - pose proof (plot_data_failures frame_complete "time" []
                  LABEL_DATE LABEL_TEMP "bar" DATE_FMT_OVERVIEW) as Hall.
    cbv zeta in Hall. destruct Hall as (_ & _ & _ & _ & Hbar & _).
    exact (Hbar eq_refl eq_refl).
  - pose proof (plot_data_failures frame_complete "time" ["temperature"; "humidity"]
                  LABEL_DATE LABEL_TEMP "line" DATE_FMT_OVERVIEW) as Hall.
    cbv zeta in Hall. destruct Hall as (_ & _ & Hline & _).
    apply Hline; [discriminate | reflexivity].
  - pose proof (plot_data_failures frame_null_precipitation "time"
                  ["precipitation"; "humidity"]
                  LABEL_DATE LABEL_TOTAL_PREP "bar" DATE_FMT_OVERVIEW) as Hall.
    cbv zeta in Hall. destruct Hall as (_ & _ & _ & _ & _ & Hbar & _).
    destruct (Hbar "precipitation" ["humidity"] eq_refl eq_refl) as (_ & _ & Hnone & _).
    exact (Hnone eq_refl eq_refl).
Defined.

Lemma frame_complete_bars : bars_hold_numbers frame_complete.
Proof. repeat split. Defined.

(** [views_outcome]: the three complete hours, the same hours with other
    smoothed columns, and the hours whose precipitation is [None]. *)
Lemma views_outcome_witness :
  bars_hold_numbers frame_complete /\
  df_empty frame_complete = false /\
  same_raw_columns frame_complete
    (MkDataFrame (time frame_complete) (temperature frame_complete)
       (felttemperature frame_complete) (precipitation frame_complete)
       (convective_precipitation frame_complete) [] [] []) /\
  holds_none frame_null_precipitation "precipitation" = true /\
  length (charts (drop (length (ui world0))
                       (ui (snd (render_overview_content frame_complete world0)))))
    = 3%nat /\
  render_overview_content
    (MkDataFrame (time frame_complete) (temperature frame_complete)
       (felttemperature frame_complete) (precipitation frame_complete)
       (convective_precipitation frame_complete) [] [] []) world0
  = render_overview_content frame_complete world0 /\
  fst (render_overview_content frame_null_precipitation world0) = Raise TypeError.
Proof.
  assert (Hsame : same_raw_columns frame_complete
            (MkDataFrame (time frame_complete) (temperature frame_complete)
               (felttemperature frame_complete) (precipitation frame_complete)
               (convective_precipitation frame_complete) [] [] []))
    by (repeat split).
  pose proof (views_outcome frame_complete
                (MkDataFrame (time frame_complete) (temperature frame_complete)
                   (felttemperature frame_complete) (precipitation frame_complete)
                   (convective_precipitation frame_complete) [] [] []) world0) as Hall.
  cbv zeta in Hall.
  destruct Hall as (Hret & _).
  destruct (Hret frame_complete_bars) as (_ & _ & Hcharts & Hinv).
  pose proof (views_outcome frame_null_precipitation frame_null_precipitation world0)
    as Hnull.
  cbv zeta in Hnull. destruct Hnull as (_ & Hraise & _).
  split; [exact frame_complete_bars|]. split; [reflexivity|]. split; [exact Hsame|].
  split; [reflexivity|].
  split; [exact (proj1 (Hcharts eq_refl))|].
  split; [exact (proj1 (Hinv Hsame))|].
  exact (proj1 (Hraise (or_introl eq_refl))).
Defined.

(** ** More on the forecast client *)

Section MoreFetchProperties.
Context {coord : Type} `{Countable coord}.
Variable API_KEY : string.
Variable provider : Z -> @request coord -> transport.
Implicit Types w : @world coord _ _.

Lemma app_singleton_neq {A} (l : list A) (x : A) : (l ++ [x])%list <> l.
Proof.
  intros Heq. apply (f_equal length) in Heq. rewrite length_app in Heq.
  simpl in Heq. lia.
Qed.

Lemma fetch_data_sent lat lon w :
  sent (snd (fetch_data API_KEY provider lat lon w)) =
  match cache_read ttl_1d (lat, lon) w with
  | Some _ => sent w
  | None => if String.eqb API_KEY "" then sent w
            else (sent w ++ [the_request API_KEY lat lon])%list
  end.
Proof.
  destruct (cache_read ttl_1d (lat, lon) w) as [e|] eqn:Hread.
  - now rewrite (fetch_data_hit _ _ _ _ _ _ Hread).
  - destruct (fetch_data_miss_fst API_KEY provider lat lon w Hread) as (_ & _ & ->).
    apply fetch_data_body_sent.
Qed.

(** X12: one call of [fetch_data] sends at most one request.  It sends
    one exactly when an API key is configured and the store has no fresh
    entry for the coordinates; the request goes to the fixed URL with
    the key, the coordinates of the call, JSON format, a horizon of 7
    days and the units C, ms-1 and mm. *)
Theorem fetch_data_one_request (lat lon : coord) w :
  let run := fetch_data API_KEY provider lat lon w in
  (sent (snd run) = sent w \/
   sent (snd run) = (sent w ++ [the_request API_KEY lat lon])%list) /\
  (sent (snd run) <> sent w <->
   API_KEY <> "" /\ cache_read ttl_1d (lat, lon) w = None) /\
  fixed_parameters API_KEY (the_request API_KEY lat lon) /\
  params (the_request API_KEY lat lon)
  = MeteoParams API_KEY lat lon "json" 7 "C" "ms-1" "mm".
Proof.
  cbv zeta. rewrite fetch_data_sent.
  split; [|split; [|split]]; try reflexivity.
  - destruct (cache_read ttl_1d (lat, lon) w); [now left|].
    destruct (String.eqb API_KEY ""); [now left | now right].
  - destruct (cache_read ttl_1d (lat, lon) w) as [e|].
    + split; [intros Hne; now elim Hne | intros [_ ?]; discriminate].
    + destruct (String.eqb_spec API_KEY "") as [->|Hkey].
      * split; [intros Hne; now elim Hne | intros [Hne _]; now elim Hne].
      * split; [now intros _ | intros _; apply app_singleton_neq].
  - repeat split.
Qed.

Lemma fetch_data_body_clean lat lon w data :
  fst (fetch_data_body API_KEY provider lat lon w) = Ret (Some data) ->
  py_contains "error_message" data = Ret false.
Proof.
  unfold fetch_data_body, requests_get, st_error, print, emit, bind, ret, lift;
    simpl.
  repeat (case_match; simplify_eq/=; try done).
  intros [= <-]. assumption.
Qed.

(** X13: a payload that [fetch_data] returns never carries the
    provider's error marker.  Starting from a store of which this is
    true (the empty store, first of all), the payload returned by a call
    is a container in which the test ["error_message" in data] is false,
    and the store after the call is again such a store. *)
Theorem fetch_data_payload_clean (lat lon : coord) w :
  cache_clean w ->
  (forall data,
     fst (fetch_data API_KEY provider lat lon w) = Ret (Some data) ->
     py_contains "error_message" data = Ret false) /\
  cache_clean (snd (fetch_data API_KEY provider lat lon w)).
Proof.
  intros Hclean.
  destruct (cache_read ttl_1d (lat, lon) w) as [e|] eqn:Hread.
  - rewrite (fetch_data_hit _ _ _ _ _ _ Hread). simpl.
    apply cache_read_Some in Hread as [Hentry _].
    split; [|exact Hclean].
    intros data [= Hdata]. exact (Hclean _ _ _ Hentry Hdata).
  - rewrite (fetch_data_miss _ _ _ _ _ Hread).
    pose proof (fetch_data_body_clean lat lon w) as Hbody.
    pose proof (fetch_data_body_frame API_KEY provider lat lon w) as [_ Hcache].
    destruct (fetch_data_body API_KEY provider lat lon w) as [[v|x] w']; simpl in *.
    + split.
      * intros data [= ->]. now apply Hbody.
      * intros key e data Hentry Hdata. simpl in Hentry.
        destruct (decide ((lat, lon) = key)) as [<-|Hne].
        -- rewrite lookup_insert_eq in Hentry. injection Hentry as <-.
           simpl in Hdata. subst v. now apply Hbody.
        -- rewrite lookup_insert_ne in Hentry by done.
           rewrite Hcache in Hentry. exact (Hclean _ _ _ Hentry Hdata).
    + split; [discriminate|].
      intros key e data Hentry Hdata. rewrite Hcache in Hentry.
      exact (Hclean _ _ _ Hentry Hdata).
Qed.

(** X14: a failure is remembered like a payload.  When a call that had
    to fetch returned [None], every call for the same coordinates
    earlier than 24 hours after it, as long as the entry is in the
    store, returns [None] again, sends no request, whatever the provider
    would answer by then, and shows again the elements that the failed
    call showed. *)
Theorem fetch_data_failure_remembered
    (provider' : Z -> @request coord -> transport) (lat lon : coord) w0 w1 :
  cache_read ttl_1d (lat, lon) w0 = None ->
  fetch_data API_KEY provider lat lon w0 = (Ret None, w1) ->
  forall w2,
    cache w2 !! (lat, lon) = cache w1 !! (lat, lon) ->
    clock w2 < clock w0 + 86400 ->
    fetch_data API_KEY provider' lat lon w2
    = (Ret None, shows (drop (length (ui w0)) (ui w1)) w2) /\
    sent (snd (fetch_data API_KEY provider' lat lon w2)) = sent w2.
Proof.
  intros Hmiss Hrun w2 Hsame Hfresh.
  rewrite (fetch_data_miss _ _ _ _ _ Hmiss) in Hrun.
  pose proof (fetch_data_body_frame API_KEY provider lat lon w0) as [Hclock _].
  destruct (fetch_data_body API_KEY provider lat lon w0) as [[v|x] w'] eqn:Hbody;
    [|discriminate].
  injection Hrun as -> <-. simpl in *.
  rewrite lookup_insert_eq in Hsame.
  assert (Hread : cache_read ttl_1d (lat, lon) w2
                  = Some (CacheEntry None (drop (length (ui w0)) (ui w')) (clock w'))).
  { apply cache_read_Some. split; [exact Hsame|]. simpl. unfold ttl_1d. lia. }
  rewrite (fetch_data_hit _ _ _ _ _ _ Hread). simpl. split; reflexivity.
Qed.

(** X15: a call that raises stores nothing.  The store is left as it
    was, so with an API key the next call for the same coordinates, at
    whatever time, has to ask the provider again. *)
Theorem fetch_data_exception_not_stored (lat lon : coord) w (e : exn) :
  fst (fetch_data API_KEY provider lat lon w) = Raise e ->
  cache (snd (fetch_data API_KEY provider lat lon w)) = cache w /\
  forall w2,
    cache w2 !! (lat, lon) = cache w !! (lat, lon) ->
    clock w <= clock w2 ->
    sent (snd (fetch_data API_KEY provider lat lon w2))
    = (sent w2 ++ [the_request API_KEY lat lon])%list.
Proof.
  intros Hraise.
  destruct (cache_read ttl_1d (lat, lon) w) as [en|] eqn:Hread.
  { rewrite (fetch_data_hit _ _ _ _ _ _ Hread) in Hraise. discriminate. }
  assert (Hkey : String.eqb API_KEY "" = false).
  { destruct (String.eqb_spec API_KEY "") as [->|]; [|reflexivity].
    rewrite (fetch_data_miss _ _ _ _ _ Hread) in Hraise. discriminate. }
  split.
  - rewrite (fetch_data_miss _ _ _ _ _ Hread) in Hraise |- *.
    pose proof (fetch_data_body_frame API_KEY provider lat lon w) as [_ Hcache].
    destruct (fetch_data_body API_KEY provider lat lon w) as [[v|x] w'];
      [discriminate | exact Hcache].
  - intros w2 Hsame Hlater. rewrite fetch_data_sent.
    assert (Hread2 : cache_read ttl_1d (lat, lon) w2 = None).
    { unfold cache_read in Hread |- *. rewrite Hsame.
      destruct (cache w !! (lat, lon)) as [en|]; [|reflexivity].
      destruct (Z.ltb_spec (clock w) (stored_at en + ttl_1d)); [discriminate|].
      destruct (Z.ltb_spec (clock w2) (stored_at en + ttl_1d)); [lia | reflexivity]. }
    now rewrite Hread2, Hkey.
Qed.

(** The outcome of the body of [fetch_data], case by case. *)
Lemma fetch_data_body_outcome lat lon w :
  fst (fetch_data_body API_KEY provider lat lon w) =
  if String.eqb API_KEY "" then Ret None
  else
    match provider (clock w) (the_request API_KEY lat lon) with
    | Responded r =>
        if raise_for_status r then Ret None
        else
          match body r with
          | JSONDecodeError => Ret None
          | JsonRaises e => Raise e
          | Parsed data =>
              if breaks_fetch data then Raise TypeError
              else
                match py_contains "error_message" data with
                | Ret false => Ret (Some data)
                | _ => Ret None
                end
          end
    | ConnectionError | RequestException => Ret None
    end.
Proof.
  unfold fetch_data_body, requests_get, st_error, print, emit, bind, ret, lift,
    the_request; simpl.
  destruct (String.eqb API_KEY ""); [reflexivity|]. simpl.
  destruct (provider (clock w) _) as [r| |]; simpl; try reflexivity.
  destruct (raise_for_status r); simpl.
  { repeat (case_match; simplify_eq/=; try done). }
  destruct (body r) as [data| |e]; simpl; try reflexivity.
  destruct data as [| b | q | s | items | members]; simpl; try reflexivity.
  - destruct (str_contains "error_message" s); reflexivity.
  - destruct (existsb (json_is_str "error_message") items); reflexivity.
  - destruct (dict_get "error_message" members); reflexivity.
Qed.

(** X16: what [fetch_data] lets through.  It raises in two situations
    only, both on a run that fetches (an API key is configured, the store
    has no fresh entry) and gets an answer with a status that is no
    error: when [response.json()] raises something else than
    [JSONDecodeError], which is then the exception of the call (a
    [RecursionError] on a body nested too deep); and, with [TypeError],
    when the parsed body is no container, or a list that holds the text
    ["error_message"], or a text that contains it.  In no other run does
    an exception reach the caller. *)
Theorem fetch_data_raises_iff (lat lon : coord) w (e : exn) :
  fst (fetch_data API_KEY provider lat lon w) = Raise e <->
  API_KEY <> "" /\
  cache_read ttl_1d (lat, lon) w = None /\
  exists r,
    provider (clock w) (the_request API_KEY lat lon) = Responded r /\
    raise_for_status r = false /\
    (body r = JsonRaises e \/
     exists data, body r = Parsed data /\ breaks_fetch data = true /\ e = TypeError).
Proof.
  destruct (cache_read ttl_1d (lat, lon) w) as [en|] eqn:Hread.
  { rewrite (fetch_data_hit _ _ _ _ _ _ Hread). simpl.
    split; [discriminate | intros (_ & ? & _); discriminate]. }
  destruct (fetch_data_miss_fst API_KEY provider lat lon w Hread) as (-> & _ & _).
  rewrite fetch_data_body_outcome.
  destruct (String.eqb_spec API_KEY "") as [->|Hkey].
  { split; [discriminate | intros (Hne & _); now elim Hne]. }
  destruct (provider (clock w) _) as [r| |];
    try (split; [discriminate | intros (_ & _ & r & ? & _); discriminate]).
  destruct (raise_for_status r) eqn:Hstatus.
  { split; [discriminate | intros (_ & _ & r' & [= <-] & ? & _); congruence]. }
  destruct (body r) as [data| |e'] eqn:Hbody.
  - destruct (breaks_fetch data) eqn:Hbreaks.
    + split.
      * intros [= <-]. split; [exact Hkey|]. split; [reflexivity|].
        exists r. split; [reflexivity|]. split; [exact Hstatus|].
        right. now exists data.
      * intros (_ & _ & r' & [= <-] & _ & [Hb|(data' & Hb & _ & ->)]);
          [congruence | reflexivity].
    + split.
      * destruct (py_contains "error_message" data) as [[|]|]; discriminate.
      * intros (_ & _ & r' & [= <-] & _ & [Hb|(data' & Hb & Hbr & _)]);
          [congruence|]. rewrite Hbody in Hb. injection Hb as <-. congruence.
  - split; [discriminate|].
    intros (_ & _ & r' & [= <-] & _ & [Hb|(data' & Hb & _)]); congruence.
  - split.
    + intros [= <-]. split; [exact Hkey|]. split; [reflexivity|].
      exists r. split; [reflexivity|]. split; [exact Hstatus|]. now left.
    + intros (_ & _ & r' & [= <-] & _ & [Hb|(data' & Hb & _)]); congruence.
Qed.

End MoreFetchProperties.

(** ** The location catalog *)

Section CatalogProperties.
Context {coord : Type}.
Implicit Types raw_data : list (@Province coord).
Implicit Types entries : list (string * @Location coord).

Lemma last_location_app name entries entries' :
  last_location name (entries ++ entries') =
  match last_location name entries' with
  | Some later => Some later
  | None => last_location name entries
  end.
Proof.
  induction entries as [|[n loc] entries IH]; simpl.
  - now destruct (last_location name entries').
  - rewrite IH. destruct (last_location name entries'); reflexivity.
Qed.

Lemma last_location_Some name entries :
  is_Some (last_location name entries) <-> In name (map fst entries).
Proof.
  induction entries as [|[n loc] entries IH]; simpl.
  - split; [intros [? ?]; discriminate | contradiction].
  - destruct (last_location name entries) as [later|].
    + split; [intros _; right; apply IH; now eexists | now eexists].
    + destruct (String.eqb_spec name n) as [->|Hne].
      * split; [now left | now eexists].
      * split; [intros [? ?]; discriminate|].
        intros [?|Hin]; [congruence|]. now apply IH in Hin.
Qed.

Lemma last_location_NoDup name loc entries :
  NoDup (map fst entries) -> In (name, loc) entries ->
  last_location name entries = Some loc.
Proof.
  induction entries as [|[n l] entries IH]; simpl; [contradiction|].
  intros Hnd Hin. apply NoDup_cons in Hnd as [Hn Hnd].
  destruct Hin as [[= -> ->]|Hin].
  - destruct (last_location name entries) as [later|] eqn:Hlater.
    + exfalso. apply Hn. apply list_elem_of_In.
      apply last_location_Some. rewrite Hlater. now eexists.
    + now rewrite String.eqb_refl.
  - now rewrite (IH Hnd Hin).
Qed.

Lemma city_loop province_name (cities : list (@City coord)) :
  forall acc entries,
    loops_hold acc entries ->
    loops_hold
      (fold_left
         (fun '(city_display_names, city_lookup) city =>
            let display_name := display_name city province_name in
            ((city_display_names ++ [display_name])%list,
             <[display_name := city_location city]> city_lookup))
         cities acc)
      (entries ++ map (fun city => (display_name city province_name, city_location city))
                      cities).
Proof.
  induction cities as [|city cities IH]; intros [names lookup] entries [Hn Hl]; simpl.
  - rewrite app_nil_r. now split.
  - rewrite (app_assoc entries [_] _ : (entries ++ _ :: _ = (entries ++ [_]) ++ _)%list).
    apply IH. simpl in *. split.
    + simpl. now rewrite Hn, map_app.
    + intros name. simpl. rewrite last_location_app. simpl.
      destruct (String.eqb_spec name (display_name city province_name)) as [->|Hne].
      * now rewrite lookup_insert_eq.
      * rewrite lookup_insert_ne by congruence. apply Hl.
Qed.

Lemma province_loop raw_data :
  forall acc entries,
    loops_hold acc entries ->
    loops_hold
      (fold_left
         (fun acc province =>
            let province_name := province_name province in
            fold_left
              (fun '(city_display_names, city_lookup) city =>
                 let display_name := display_name city province_name in
                 ((city_display_names ++ [display_name])%list,
                  <[display_name := city_location city]> city_lookup))
              (province_cities province) acc)
         raw_data acc)
      (entries ++ catalog_entries raw_data).
Proof.
  induction raw_data as [|province raw_data IH]; intros acc entries Hacc; simpl.
  - now rewrite app_nil_r.
  - rewrite app_assoc. apply IH. now apply city_loop.
Qed.

Lemma get_city_mapping_holds raw_data :
  loops_hold (get_city_mapping raw_data) (catalog_entries raw_data).
Proof.
  apply (province_loop raw_data ([], ∅) []).
  split; [reflexivity | intros name; apply lookup_empty].
Qed.

(** X17: [get_city_mapping] lists one display name per city, in the
    order of the catalog; the lookup has a location for every listed
    name and for no other name, so looking up a name taken from the list
    never fails; and a name that several cities share is listed once per
    city but maps to the location of the last of them. *)
Theorem get_city_mapping_names_and_lookup raw_data :
  let city_display_names := fst (get_city_mapping raw_data) in
  let city_lookup := snd (get_city_mapping raw_data) in
  city_display_names = map fst (catalog_entries raw_data) /\
  (forall name, In name city_display_names <-> is_Some (city_lookup !! name)) /\
  (forall name, city_lookup !! name = last_location name (catalog_entries raw_data)).
Proof.
  cbv zeta. destruct (get_city_mapping_holds raw_data) as [Hnames Hlookup].
  split; [exact Hnames|]. split; [|exact Hlookup].
  intros name. rewrite Hnames, Hlookup. symmetry. apply last_location_Some.
Qed.

(** X18: when the display names of the catalog are pairwise distinct,
    the lookup returns for the display name of every city the location
    of that city. *)
Theorem get_city_mapping_own_location raw_data province city :
  NoDup (fst (get_city_mapping raw_data)) ->
  In province raw_data -> In city (province_cities province) ->
  snd (get_city_mapping raw_data) !! display_name city (province_name province)
  = Some (city_location city).
Proof.
  destruct (get_city_mapping_holds raw_data) as [Hnames Hlookup].
  rewrite Hnames, Hlookup. intros Hnd Hp Hc.
  apply last_location_NoDup; [exact Hnd|].
  unfold catalog_entries. apply in_flat_map. exists province. split; [exact Hp|].
  apply in_map_iff. now exists city.
Qed.

Lemma display_name_nonempty (city : @City coord) province_name :
  display_name city province_name <> "".
Proof. unfold display_name. destruct (city_name city); discriminate. Qed.

(** A listed name is not empty and has a location. *)
Lemma get_city_mapping_listed raw_data name :
  In name (fst (get_city_mapping raw_data)) ->
  truthy (Some name) = Some name /\
  exists coords, snd (get_city_mapping raw_data) !! name = Some coords.
Proof.
  destruct (get_city_mapping_holds raw_data) as [Hnames Hlookup].
  rewrite Hnames, Hlookup. intros Hin. split.
  - unfold truthy. destruct (String.eqb_spec name "") as [->|]; [|reflexivity].
    exfalso. apply in_map_iff in Hin as ([n loc] & Hn & Hin). simpl in Hn. subst n.
    unfold catalog_entries in Hin. apply in_flat_map in Hin as (p & _ & Hin).
    apply in_map_iff in Hin as (c & [= Hname _] & _).
    exact (display_name_nonempty c _ Hname).
  - apply last_location_Some in Hin. exact Hin.
Qed.

End CatalogProperties.

Lemma data_names_NoDup : NoDup (fst (get_city_mapping data)).
Proof. apply (bool_decide_unpack _). vm_compute. exact I. Defined.

(** The display names of [data.py] are pairwise distinct, and Trujillo is
    found where the catalog puts it. *)
Lemma get_city_mapping_own_location_witness :
  NoDup (fst (get_city_mapping data)) /\
  snd (get_city_mapping data) !! "Trujillo (La Libertad)"
  = Some (MkLocation (-812 # 100) (-7903 # 100))%Q.
Proof.
  split; [exact data_names_NoDup|].
  apply (get_city_mapping_own_location data
           (MkProvince "La Libertad"
              [MkCity "Trujillo" (MkLocation (-812 # 100) (-7903 # 100))%Q])
           (MkCity "Trujillo" (MkLocation (-812 # 100) (-7903 # 100))%Q)
           data_names_NoDup).
  - simpl. tauto.
  - now left.
Defined.

(** [fetch_data_one_request] on a first call with a key. *)
Lemma fetch_data_one_request_witness :
  "key" <> "" /\ cache_read ttl_1d (0, 0) world0 = None /\
  sent (snd (fetch_data "key" provider_ok 0 0 world0)) <> sent world0.
Proof.
  assert (Hkey : "key" <> "") by discriminate.
  split; [exact Hkey|]. split; [reflexivity|].
  pose proof (fetch_data_one_request "key" provider_ok 0 0 world0) as Hall.
  cbv zeta in Hall. destruct Hall as (_ & Hiff & _).
  apply Hiff. split; [exact Hkey | reflexivity].
Defined.

Lemma world0_cache_clean : cache_clean world0.
Proof. intros key e data Hentry. simpl in Hentry. now rewrite lookup_empty in Hentry. Defined.

(** [fetch_data_payload_clean] on the empty store. *)
Lemma fetch_data_payload_clean_witness :
  cache_clean world0 /\
  fst (fetch_data "key" provider_ok 0 0 world0) = Ret (Some forecast_object) /\
  py_contains "error_message" forecast_object = Ret false /\
  cache_clean world1.
Proof.
  split; [exact world0_cache_clean|]. split; [reflexivity|].
  destruct (fetch_data_payload_clean "key" provider_ok 0 0 world0 world0_cache_clean)
    as [Hdata Hstore].
  split; [exact (Hdata forecast_object eq_refl) | exact Hstore].
Defined.

(** [fetch_data_failure_remembered]: a quota error at time 0, and a call
    one hour later, when the provider would answer. *)
Lemma fetch_data_failure_remembered_witness :
  cache_read ttl_1d (0, 0) world0 = None /\
  fetch_data "key" provider_quota 0 0 world0 = (Ret None, world_quota) /\
  fetch_data "key" provider_ok 0 0 (at_time 3600 world_quota)
  = (Ret None, shows [StError QuotaExceededMsg] (at_time 3600 world_quota)) /\
  sent (snd (fetch_data "key" provider_ok 0 0 (at_time 3600 world_quota)))
  = sent world_quota.
Proof.
  split; [reflexivity|]. split; [reflexivity|].
  apply (fetch_data_failure_remembered "key" provider_quota provider_ok 0 0
           world0 world_quota eq_refl eq_refl (at_time 3600 world_quota) eq_refl).
  vm_compute. reflexivity.
Defined.

(** [fetch_data_exception_not_stored]: the body [null], and the next
    call. *)
Lemma fetch_data_exception_not_stored_witness :
  fst (fetch_data "key" provider_null 0 0 world0) = Raise TypeError /\
  cache (snd (fetch_data "key" provider_null 0 0 world0)) = cache world0 /\
  sent (snd (fetch_data "key" provider_null 0 0
               (snd (fetch_data "key" provider_null 0 0 world0))))
  = [the_request "key" 0 0; the_request "key" 0 0].
Proof.
  split; [reflexivity|].
  destruct (fetch_data_exception_not_stored "key" provider_null 0 0 world0
              TypeError eq_refl) as [Hcache Hnext].
  split; [exact Hcache|].
  apply (Hnext (snd (fetch_data "key" provider_null 0 0 world0)));
    [reflexivity | vm_compute; discriminate].
Defined.

(** [fetch_data_raises_iff]: the body [null] breaks the call, and so
    does a body nested too deep. *)
Lemma fetch_data_raises_iff_witness :
  "key" <> "" /\ cache_read ttl_1d (0, 0) world0 = None /\
  breaks_fetch JNull = true /\
  fst (fetch_data "key" provider_null 0 0 world0) = Raise TypeError /\
  fst (fetch_data "key" provider_deep 0 0 world0) = Raise RecursionError.
Proof.
  assert (Hkey : "key" <> "") by discriminate.
  split; [exact Hkey|]. split; [reflexivity|]. split; [reflexivity|].
  split.
  - apply (proj2 (fetch_data_raises_iff "key" provider_null 0 0 world0 TypeError)).
    split; [exact Hkey|]. split; [reflexivity|].
    exists (Response 200 "null" (Parsed JNull)). split; [reflexivity|].
    split; [reflexivity|]. right. exists JNull. repeat split.
  - apply (proj2 (fetch_data_raises_iff "key" provider_deep 0 0 world0 RecursionError)).
    split; [exact Hkey|]. split; [reflexivity|].
    exists (Response 200 "[[[[..." (JsonRaises RecursionError)).
    split; [reflexivity|]. split; [reflexivity|]. now left.
Defined.

(** ** The page *)

Section PageProperties.
Context {coord : Type} `{Countable coord}.
Variable API_KEY : string.
Variable provider : Z -> @request coord -> transport.
Variable catalog : list (@Province coord).
Implicit Types s : @page_state coord _ _.

Ltac step_page :=
  unfold app, render_sidebar_header, render_about_tab, render_header_metrics,
    render_footer, abind, place, aret, alift, in_container;
  cbn [fst snd pw page].

Lemma placed_in_app c (xs ys : list (container * @page_element coord)) :
  placed_in c (xs ++ ys) = (placed_in c xs ++ placed_in c ys)%list.
Proof. unfold placed_in. now rewrite List.filter_app, map_app. Qed.

Lemma placed_in_shown c c' (evs : list st_event) :
  placed_in c (map (fun e => (c', @Shown coord e)) evs) =
  if container_eqb c' c then map Shown evs else [].
Proof.
  unfold placed_in. induction evs as [|e evs IH]; simpl.
  - now destruct (container_eqb c' c).
  - destruct (container_eqb c' c); simpl in *; now rewrite IH.
Qed.

(** X19: a run without a selected location asks for nothing.  It
    returns, leaves the world as it was (no request, no change of the
    store), puts nothing into the overview and detail tabs, shows the
    notice to select a location and ends with the footer. *)
Theorem app_without_location
    (transform_json : json -> outcome DataFrame)
    (select_date : DataFrame -> outcome (option date))
    (selected_location : option string) s :
  truthy selected_location = None ->
  let run := app API_KEY provider catalog transform_json select_date
                 selected_location s in
  fst run = Ret tt /\
  pw (snd run) = pw s /\
  placed_in TabOverview (added s (snd run)) = [] /\
  placed_in TabDetail (added s (snd run)) = [] /\
  In (MainArea, Info MSG_SELECT_LOCATION) (added s (snd run)) /\
  exists before, added s (snd run) = (before ++ footer_elements)%list.
Proof.
  intros Hnone. cbv zeta. step_page. rewrite Hnone. cbn [fst snd pw page].
  unfold added. cbn [page]. rewrite <- !app_assoc, drop_app_length.
  split; [reflexivity|]. split; [reflexivity|]. split; [reflexivity|].
  split; [reflexivity|]. split.
  - simpl. tauto.
  - eexists. unfold footer_elements.
    repeat (rewrite (app_comm_cons _ _ _ : (_ :: _ ++ _ = (_ :: _) ++ _)%list) || idtac).
    simpl.
    match goal with
    | |- ?l = _ => exact (eq_sym (take_drop (length l - 2) l))
    end.
Qed.

(** Steps of a run. *)
Lemma places_place c (e : @page_element coord) : places (place c e) [(c, e)].
Proof. intros s. reflexivity. Qed.

Lemma abind_places {B} (m : @page_state coord _ _ -> outcome unit * @page_state coord _ _)
    (k : unit -> @page_state coord _ _ -> outcome B * @page_state coord _ _) els s :
  places m els ->
  abind m k s = k tt (PageState (pw s) (page s ++ els)).
Proof. intros Hm. unfold abind. now rewrite Hm. Qed.

Lemma places_render_sidebar_header :
  places (coord := coord) render_sidebar_header
    [ (Sidebar, Title "Sidebar Menu");
      (Sidebar,
       Info "**Instructions:** Select a location from the dropdown above to load the latest telemetry data.") ].
Proof.
  intros s. unfold render_sidebar_header, abind, place. cbn [pw page].
  now rewrite <- app_assoc.
Qed.

Lemma places_render_about_tab c :
  places (coord := coord) (render_about_tab c)
    [ (c, Header "About Peru Regional Telemetry"); (c, Markdown AboutText) ].
Proof.
  intros s. unfold render_about_tab, abind, place. cbn [pw page].
  now rewrite <- app_assoc.
Qed.

Lemma places_render_footer : places (coord := coord) render_footer footer_elements.
Proof.
  intros s. unfold render_footer, abind, place. cbn [pw page].
  now rewrite <- app_assoc.
Qed.

Lemma places_render_header_metrics c location_name (lat lon : coord) :
  places (render_header_metrics c location_name lat lon)
    (map (pair c) (header_metrics location_name lat lon)).
Proof.
  intros s. unfold render_header_metrics, abind, place. cbn [pw page].
  now rewrite <- !app_assoc.
Qed.

Lemma abind_in_container {A B} c
    (m : @world coord _ _ -> outcome A * @world coord _ _)
    (k : A -> @page_state coord _ _ -> outcome B * @page_state coord _ _) s :
  abind (in_container c m) k s =
  match fst (m (pw s)) with
  | Ret a =>
      k a (PageState (snd (m (pw s)))
             (page s ++ shown_in c (drop (length (ui (pw s))) (ui (snd (m (pw s)))))))
  | Raise e =>
      (Raise e,
       PageState (snd (m (pw s)))
         (page s ++ shown_in c (drop (length (ui (pw s))) (ui (snd (m (pw s)))))))
  end.
Proof. unfold abind, in_container. cbn [fst snd]. now destruct (fst (m (pw s))). Qed.

Lemma abind_alift {A B} (o : outcome A)
    (k : A -> @page_state coord _ _ -> outcome B * @page_state coord _ _) s :
  abind (alift o) k s = match o with Ret a => k a s | Raise e => (Raise e, s) end.
Proof. unfold abind, alift. now destruct o. Qed.

Lemma placed_in_shown_in c c' (evs : list st_event) :
  placed_in c (shown_in (coord := coord) c' evs) =
  if container_eqb c' c then map Shown evs else [].
Proof. apply placed_in_shown. Qed.

Lemma placed_in_pair c c' (els : list (@page_element coord)) :
  placed_in c (map (pair c') els) = if container_eqb c' c then els else [].
Proof.
  unfold placed_in. induction els as [|e els IH]; simpl.
  - now destruct (container_eqb c' c).
  - destruct (container_eqb c' c); simpl in *; now rewrite IH.
Qed.

Lemma not_in_shown_in c (evs : list st_event) c' (e : @page_element coord) :
  (forall ev, e <> Shown ev) -> ~ In (c', e) (shown_in c evs).
Proof.
  intros Hne Hin. unfold shown_in in Hin.
  apply in_map_iff in Hin as (ev & [= _ Heq] & _). now apply (Hne ev).
Qed.

(** The run of the script up to the selection. *)
Lemma app_opening {B}
    (k : @page_state coord _ _ -> outcome B * @page_state coord _ _) s :
  abind (place MainArea (Title "Peru Regional Telemetry"))
    (fun _ =>
       abind render_sidebar_header
         (fun _ =>
            abind (place Sidebar
                     (Selectbox "Select Location:" (fst (get_city_mapping catalog))))
              (fun _ =>
                 abind (place MainArea (Tabs ["About"; "7-Day Overview"; "1-Day Detail"]))
                   (fun _ => abind (render_about_tab TabAbout) (fun _ => k))))) s
  = k (PageState (pw s) (page s ++ opening_elements catalog)).
Proof.
  rewrite (abind_places _ _ _ _ (places_place _ _)).
  rewrite (abind_places _ _ _ _ places_render_sidebar_header).
  rewrite (abind_places _ _ _ _ (places_place _ _)).
  rewrite (abind_places _ _ _ _ (places_place _ _)).
  rewrite (abind_places _ _ _ _ (places_render_about_tab _)).
  cbn [pw page]. rewrite <- !app_assoc. reflexivity.
Qed.

Lemma abind_run {A B} (m : @page_state coord _ _ -> outcome A * @page_state coord _ _)
    (k : A -> @page_state coord _ _ -> outcome B * @page_state coord _ _) s a s' :
  m s = (Ret a, s') -> abind m k s = k a s'.
Proof. intros Hm. unfold abind. now rewrite Hm. Qed.

Lemma abind_view {B} c (m : @world coord _ _ -> outcome unit * @world coord _ _)
    (k : unit -> @page_state coord _ _ -> outcome B * @page_state coord _ _) evs s :
  only_shows m evs ->
  abind (in_container c m) k s
  = k tt (PageState (shows evs (pw s)) (page s ++ shown_in c evs)).
Proof.
  intros Hm. rewrite abind_in_container.
  pose proof (Hm (pw s)) as Hrun. destruct (m (pw s)) as [r w1].
  injection Hrun as -> ->. cbn [fst snd].
  change (ui (shows evs (pw s))) with (ui (pw s) ++ evs)%list.
  now rewrite drop_app_length.
Qed.

(** The location header and then a view, in one container. *)
Lemma places_abind_header_then_view c location_name (lat lon : coord)
    (m : @world coord _ _ -> outcome unit * @world coord _ _) evs :
  only_shows m evs ->
  forall s,
    abind (render_header_metrics c location_name lat lon)
          (fun _ => in_container c m) s
    = (Ret tt,
       PageState (shows evs (pw s))
         (page s ++ map (pair c) (header_metrics location_name lat lon)
          ++ shown_in c evs)).
Proof.
  intros Hm s.
  rewrite (abind_places _ _ _ _ (places_render_header_metrics _ _ _ _)).
  unfold in_container. cbn [pw page]. rewrite Hm. cbn [fst snd].
  unfold shows at 2. cbn [ui]. rewrite drop_app_length.
  now rewrite <- app_assoc.
Qed.

Lemma footer_not_in_opening (e : container * @page_element coord) :
  In e footer_elements -> ~ In e (opening_elements catalog).
Proof.
  unfold footer_elements, opening_elements. simpl.
  intros [<-|[<-|[]]] Hin;
    repeat match goal with H : _ \/ _ |- _ => destruct H as [H|H] end;
    solve [discriminate | contradiction].
Qed.

Lemma footer_not_shown c evs (e : container * @page_element coord) :
  In e footer_elements -> ~ In e (shown_in c evs).
Proof.
  unfold footer_elements. simpl.
  intros [<-|[<-|[]]]; apply not_in_shown_in; discriminate.
Qed.

(** X20: a failed fetch ends the run.  When the selected location is one
    of the listed names and [fetch_data] returns [None] for its
    coordinates, the run returns at [st.stop()]: the page holds the
    opening elements and, in the main area, what [fetch_data] showed;
    nothing is put into the overview and detail tabs, the footer is not
    rendered, and neither the transformation nor the date input is
    consulted. *)
Theorem app_stops_on_failed_fetch
    (transform_json transform_json' : json -> outcome DataFrame)
    (select_date select_date' : DataFrame -> outcome (option date))
    (selected_location : string) s :
  In selected_location (fst (get_city_mapping catalog)) ->
  exists coords,
    snd (get_city_mapping catalog) !! selected_location = Some coords /\
    forall w1,
      fetch_data API_KEY provider (loc_lat coords) (loc_lon coords) (pw s)
      = (Ret None, w1) ->
      let run := app API_KEY provider catalog transform_json select_date
                     (Some selected_location) s in
      fst run = Ret tt /\
      pw (snd run) = w1 /\
      added s (snd run)
      = (opening_elements catalog
         ++ shown_in MainArea (drop (length (ui (pw s))) (ui w1)))%list /\
      placed_in TabOverview (added s (snd run)) = [] /\
      placed_in TabDetail (added s (snd run)) = [] /\
      (forall e, In e footer_elements -> ~ In e (added s (snd run))) /\
      app API_KEY provider catalog transform_json' select_date'
          (Some selected_location) s = run.
Proof.
  intros Hlisted.
  destruct (get_city_mapping_listed catalog _ Hlisted) as [Htruthy [coords Hlookup]].
  exists coords. split; [exact Hlookup|]. intros w1 Hfetch.
  assert (Hrun : forall tj sd,
             app API_KEY provider catalog tj sd (Some selected_location) s
             = (Ret tt,
                PageState w1
                  (page s ++ opening_elements catalog
                   ++ shown_in MainArea (drop (length (ui (pw s))) (ui w1))))).
  { intros tj sd. unfold app. cbv zeta. rewrite app_opening, Htruthy.
    rewrite abind_alift, Hlookup, abind_in_container. cbn [pw page].
    rewrite Hfetch. cbn [fst snd]. unfold aret. now rewrite <- app_assoc. }
  cbv zeta. rewrite !Hrun. cbn [fst snd pw]. unfold added. cbn [page].
  rewrite drop_app_length.
  split; [reflexivity|]. split; [reflexivity|]. split; [reflexivity|].
  rewrite !placed_in_app, !placed_in_shown_in.
  split; [reflexivity|]. split; [reflexivity|]. split; [|reflexivity].
  intros e He Hin. apply in_app_or in Hin as [Hin|Hin].
  - exact (footer_not_in_opening e He Hin).
  - exact (footer_not_shown _ _ e He Hin).
Qed.

(** The day view of a frame holds [None] objects only where the frame
    does. *)
Lemma holds_none_df_day df d name :
  holds_none df name = false -> holds_none (df_day df d) name = false.
Proof.
  unfold holds_none, df_empty, df_len, df_day, df_getitem_mask. simpl.
  destruct (existsb (String.eqb name) (none_columns df)); [|reflexivity]. simpl.
  rewrite !negb_false_iff, !Nat.eqb_eq. intros Hlen.
  destruct (time df); [reflexivity | discriminate].
Qed.

Lemma bars_hold_numbers_df_day df d :
  bars_hold_numbers df -> bars_hold_numbers (df_day df d).
Proof. intros (Ht & Hp & Hc). repeat split; now apply holds_none_df_day. Qed.

(** X21: a run that gets its data makes the one call of [fetch_data] and
    nothing else that touches the provider or the store.  For a listed
    location, a payload from [fetch_data], a frame from the
    transformation whose columns drawn as bars hold numbers, and an
    answer of the date input, the run returns; the
    requests sent and the store are those that [fetch_data] left; the
    overview tab holds the location header and what
    [render_overview_content] shows for the frame; the detail tab holds
    the location header and what [render_detail_content] shows for the
    frame filtered by the selected date, or the notice to select a date
    when none is selected; and the page ends with the footer. *)
Theorem app_full_run
    (transform_json : json -> outcome DataFrame)
    (select_date : DataFrame -> outcome (option date))
    (selected_location : string) s :
  In selected_location (fst (get_city_mapping catalog)) ->
  exists coords,
    snd (get_city_mapping catalog) !! selected_location = Some coords /\
    forall raw_data w1 df selected_date,
      fetch_data API_KEY provider (loc_lat coords) (loc_lon coords) (pw s)
      = (Ret (Some raw_data), w1) ->
      transform_json raw_data = Ret df ->
      bars_hold_numbers df ->
      select_date df = Ret selected_date ->
      let run := app API_KEY provider catalog transform_json select_date
                     (Some selected_location) s in
      let header :=
        header_metrics selected_location (loc_lat coords) (loc_lon coords) in
      fst run = Ret tt /\
      sent (pw (snd run)) = sent w1 /\
      cache (pw (snd run)) = cache w1 /\
      (exists overview,
         only_shows (coord := coord) (render_overview_content df) overview /\
         placed_in TabOverview (added s (snd run))
         = (header ++ map Shown overview)%list) /\
      match selected_date with
      | Some d =>
          exists detail,
            only_shows (coord := coord) (render_detail_content (df_day df d)) detail /\
            placed_in TabDetail (added s (snd run)) = (header ++ map Shown detail)%list
      | None => placed_in TabDetail (added s (snd run)) = [Info MSG_SELECT_DATE]
      end /\
      exists before, added s (snd run) = (before ++ footer_elements)%list.
Proof.
  intros Hlisted.
  destruct (get_city_mapping_listed catalog _ Hlisted) as [Htruthy [coords Hlookup]].
  exists coords. split; [exact Hlookup|].
  intros raw_data w1 df selected_date Hfetch Hdf Hbars Hdate.
  assert (Hself : forall f, same_raw_columns f f) by (intros f; repeat split).
  destruct (views_run (coord := coord) df df (Hself df) Hbars)
    as (overview & _ & Ho & _ & _ & _ & _).
  assert (Hrun : exists detail_world detail_part,
             app API_KEY provider catalog transform_json select_date
                 (Some selected_location) s
             = (Ret tt,
                PageState detail_world
                  (page s ++ opening_elements catalog
                   ++ shown_in MainArea (drop (length (ui (pw s))) (ui w1))
                   ++ map (pair TabOverview)
                        (header_metrics selected_location
                           (loc_lat coords) (loc_lon coords))
                   ++ shown_in TabOverview overview
                   ++ [(Sidebar, DateInput "Select a day for hourly detail:")]
                   ++ detail_part ++ footer_elements)) /\
             sent detail_world = sent w1 /\ cache detail_world = cache w1 /\
             match selected_date with
             | Some d =>
                 exists detail,
                   only_shows (coord := coord)
                     (render_detail_content (df_day df d)) detail /\
                   detail_part
                   = (map (pair TabDetail)
                        (header_metrics selected_location
                           (loc_lat coords) (loc_lon coords))
                      ++ shown_in TabDetail detail)%list
             | None => detail_part = [(TabDetail, Info MSG_SELECT_DATE)]
             end).
  { unfold app. cbv zeta. rewrite app_opening, Htruthy.
    rewrite abind_alift, Hlookup, abind_in_container. cbn [pw page].
    rewrite Hfetch. cbn [fst snd].
    rewrite abind_alift, Hdf.
    rewrite (abind_places _ _ _ _ (places_render_header_metrics _ _ _ _)).
    rewrite (abind_view _ _ _ _ _ Ho). cbn [pw page].
    rewrite abind_alift, Hdate.
    rewrite (abind_places _ _ _ _ (places_place _ _)). cbn [pw page].
    destruct selected_date as [d|].
    - destruct (views_run (coord := coord) (df_day df d) (df_day df d) (Hself _)
                  (bars_hold_numbers_df_day df d Hbars))
        as (_ & detail & _ & _ & Hd & _ & _).
      rewrite (abind_run _ _ _ _ _
                 (places_abind_header_then_view _ _ _ _ _ _ Hd _)).
      rewrite (places_render_footer _). cbn [pw page].
      exists (shows detail (shows overview w1)),
             (map (pair TabDetail)
                (header_metrics selected_location (loc_lat coords) (loc_lon coords))
              ++ shown_in TabDetail detail)%list.
      split; [rewrite <- !app_assoc; reflexivity|].
      split; [reflexivity|]. split; [reflexivity|].
      exists detail. split; [exact Hd | reflexivity].
    - rewrite (abind_places _ _ _ _ (places_place _ _)).
      rewrite (places_render_footer _). cbn [pw page].
      exists (shows overview w1), [(TabDetail, Info MSG_SELECT_DATE)].
      split; [rewrite <- !app_assoc; reflexivity|].
      split; [reflexivity|]. split; [reflexivity|]. reflexivity. }
  destruct Hrun as (detail_world & detail_part & Hrun & Hsent & Hcache & Hdetail).
  cbv zeta. rewrite Hrun. cbn [fst snd pw]. unfold added. cbn [page].
  rewrite drop_app_length.
  split; [reflexivity|]. split; [exact Hsent|]. split; [exact Hcache|].
  rewrite !placed_in_app, !placed_in_shown_in, !placed_in_pair.
  assert (Hfoot : placed_in TabOverview (footer_elements (coord := coord)) = []
                  /\ placed_in TabDetail (footer_elements (coord := coord)) = [])
    by (split; reflexivity).
  destruct Hfoot as [Hfo Hfd]. rewrite Hfo, Hfd.
  assert (Hopen : placed_in TabOverview (opening_elements catalog) = []
                  /\ placed_in TabDetail (opening_elements catalog) = [])
    by (split; reflexivity).
  destruct Hopen as [Hoo Hod]. rewrite Hoo, Hod.
  cbn [container_eqb app placed_in List.filter map fst snd].
  split; [|split].
  - exists overview. split; [exact Ho|].
    destruct selected_date as [d|].
    + destruct Hdetail as (detail & _ & ->).
      rewrite placed_in_app, placed_in_shown_in, placed_in_pair.
      cbn [container_eqb app]. now rewrite app_nil_r.
    + rewrite Hdetail. cbn. now rewrite app_nil_r.
  - destruct selected_date as [d|].
    + destruct Hdetail as (detail & Hd & ->). exists detail. split; [exact Hd|].
      rewrite placed_in_app, placed_in_shown_in, placed_in_pair.
      cbn [container_eqb app]. now rewrite app_nil_r.
    + rewrite Hdetail. reflexivity.
  - eexists. rewrite !app_assoc. reflexivity.
Qed.

(** The page of a run that ends right after the call of [fetch_data]. *)
Lemma page_after_fetch s w1 (final : @page_state coord _ _) :
  final = PageState w1
            (page s ++ opening_elements catalog
             ++ shown_in MainArea (drop (length (ui (pw s))) (ui w1))) ->
  pw final = w1 /\
  placed_in TabOverview (added s final) = [] /\
  placed_in TabDetail (added s final) = [] /\
  (forall e, In e footer_elements -> ~ In e (added s final)).
Proof.
  intros ->. unfold added. cbn [pw page]. rewrite drop_app_length.
  rewrite !placed_in_app, !placed_in_shown_in.
  split; [reflexivity|]. split; [reflexivity|]. split; [reflexivity|].
  intros e He Hin. apply in_app_or in Hin as [Hin|Hin].
  - exact (footer_not_in_opening e He Hin).
  - exact (footer_not_shown _ _ e He Hin).
Qed.

(** X22: an exception ends the run where it is raised.  A selection that
    the lookup lacks raises [KeyError] before [fetch_data] is called,
    the world being left as it was; an exception of [fetch_data], or of
    the transformation of the payload, is the outcome of the run.  In
    each case nothing is put into the overview and detail tabs and the
    footer is not rendered. *)
Theorem app_exceptions
    (transform_json : json -> outcome DataFrame)
    (select_date : DataFrame -> outcome (option date))
    (selected_location : string) s :
  truthy (Some selected_location) = Some selected_location ->
  let run := app API_KEY provider catalog transform_json select_date
                 (Some selected_location) s in
  (snd (get_city_mapping catalog) !! selected_location = None ->
   run = (Raise (KeyError selected_location),
          PageState (pw s) (page s ++ opening_elements catalog))) /\
  (forall coords,
     snd (get_city_mapping catalog) !! selected_location = Some coords ->
     forall e w1,
       fetch_data API_KEY provider (loc_lat coords) (loc_lon coords) (pw s)
       = (Raise e, w1)
       \/ (exists raw_data,
             fetch_data API_KEY provider (loc_lat coords) (loc_lon coords) (pw s)
             = (Ret (Some raw_data), w1) /\
             transform_json raw_data = Raise e) ->
       fst run = Raise e /\
       pw (snd run) = w1 /\
       placed_in TabOverview (added s (snd run)) = [] /\
       placed_in TabDetail (added s (snd run)) = [] /\
       (forall el, In el footer_elements -> ~ In el (added s (snd run)))).
Proof.
  intros Htruthy. cbv zeta. split.
  - intros Hlookup. unfold app. cbv zeta. rewrite app_opening, Htruthy.
    now rewrite abind_alift, Hlookup.
  - intros coords Hlookup e w1 Hcase.
    assert (Hrun : app API_KEY provider catalog transform_json select_date
                       (Some selected_location) s
                   = (Raise e,
                      PageState w1
                        (page s ++ opening_elements catalog
                         ++ shown_in MainArea (drop (length (ui (pw s))) (ui w1))))).
    { unfold app. cbv zeta. rewrite app_opening, Htruthy.
      rewrite abind_alift, Hlookup, abind_in_container. cbn [pw page].
      destruct Hcase as [Hfetch|(raw_data & Hfetch & Hdf)];
        rewrite Hfetch; cbn [fst snd].
      - now rewrite <- app_assoc.
      - rewrite abind_alift, Hdf. now rewrite <- app_assoc. }
    rewrite Hrun. cbn [fst snd]. split; [reflexivity|].
    now apply page_after_fetch.
Qed.

End PageProperties.

(** [app_without_location]: nothing is selected. *)
Lemma app_without_location_witness :
  truthy None = None /\
  fst (app "key" provider_ok catalog_one transform_sample select_first_of_may
           None page0) = Ret tt /\
  pw (snd (app "key" provider_ok catalog_one transform_sample select_first_of_may
               None page0)) = world0.
Proof.
  split; [reflexivity|].
  pose proof (app_without_location "key" provider_ok catalog_one transform_sample
                select_first_of_may None page0 eq_refl) as Hall.
  cbv zeta in Hall. destruct Hall as (Hret & Hworld & _).
  split; [exact Hret | exact Hworld].
Defined.

Lemma ica_listed : In "Ica (Ica)" (fst (get_city_mapping catalog_one)).
Proof. vm_compute. now left. Defined.

(** [app_stops_on_failed_fetch]: the provider answers 429. *)
Lemma app_stops_on_failed_fetch_witness :
  In "Ica (Ica)" (fst (get_city_mapping catalog_one)) /\
  fetch_data "key" provider_quota 0 0 world0 = (Ret None, world_quota) /\
  fst (app "key" provider_quota catalog_one transform_sample select_first_of_may
           (Some "Ica (Ica)") page0) = Ret tt /\
  placed_in TabOverview
    (added page0
       (snd (app "key" provider_quota catalog_one transform_sample
                 select_first_of_may (Some "Ica (Ica)") page0))) = [].
Proof.
  split; [exact ica_listed|]. split; [reflexivity|].
  destruct (app_stops_on_failed_fetch "key" provider_quota catalog_one
              transform_sample transform_sample select_first_of_may
              select_first_of_may "Ica (Ica)" page0 ica_listed)
    as (coords & Hlookup & Hall).
  vm_compute in Hlookup. injection Hlookup as <-.
  specialize (Hall world_quota eq_refl). cbv zeta in Hall.
  destruct Hall as (Hret & _ & _ & Hoverview & _).
  split; [exact Hret | exact Hoverview].
Defined.

(** [app_full_run]: the provider answers with the three complete hours,
    which the transformation reads off the payload, and the first of May
    is chosen. *)
Lemma app_full_run_witness :
  In "Ica (Ica)" (fst (get_city_mapping catalog_one)) /\
  fetch_data "key" provider_forecast 0 0 world0
    = (Ret (Some forecast_three_hours), world_forecast) /\
  transform_sample forecast_three_hours = Ret frame_complete /\
  bars_hold_numbers frame_complete /\
  fst (app "key" provider_forecast catalog_one transform_sample select_first_of_may
           (Some "Ica (Ica)") page0) = Ret tt /\
  sent (pw (snd (app "key" provider_forecast catalog_one transform_sample
                     select_first_of_may (Some "Ica (Ica)") page0)))
  = sent world_forecast.
Proof.
  assert (Hdf : transform_sample forecast_three_hours = Ret frame_complete)
    by (vm_compute; reflexivity).
  split; [exact ica_listed|]. split; [reflexivity|]. split; [exact Hdf|].
  split; [exact frame_complete_bars|].
  destruct (app_full_run "key" provider_forecast catalog_one transform_sample
              select_first_of_may "Ica (Ica)" page0 ica_listed)
    as (coords & Hlookup & Hall).
  vm_compute in Hlookup. injection Hlookup as <-.
  specialize (Hall forecast_three_hours world_forecast frame_complete
                (Some (2024, 5, 1)) eq_refl Hdf frame_complete_bars eq_refl).
  cbv zeta in Hall. destruct Hall as (Hret & Hsent & _).
  split; [exact Hret | exact Hsent].
Defined.

(** [app_exceptions]: the provider answers with the body [null]. *)
Lemma app_exceptions_witness :
  truthy (Some "Ica (Ica)") = Some "Ica (Ica)" /\
  snd (get_city_mapping catalog_one) !! "Ica (Ica)" = Some (MkLocation 0 0) /\
  fetch_data "key" provider_null 0 0 world0
  = (Raise TypeError, World 0 [] [] [the_request "key" 0 0] ∅) /\
  fst (app "key" provider_null catalog_one transform_sample select_first_of_may
           (Some "Ica (Ica)") page0) = Raise TypeError.
Proof.
  split; [reflexivity|]. split; [vm_compute; reflexivity|].
  split; [vm_compute; reflexivity|].
  pose proof (app_exceptions "key" provider_null catalog_one transform_sample
                select_first_of_may "Ica (Ica)" page0 eq_refl) as Hall.
  cbv zeta in Hall. destruct Hall as [_ Hall].
  assert (Hlookup : snd (get_city_mapping catalog_one) !! "Ica (Ica)"
                    = Some (MkLocation 0 0)) by (vm_compute; reflexivity).
  destruct (Hall (MkLocation 0 0) Hlookup TypeError
              (World 0 [] [] [the_request "key" 0 0] ∅)) as (Hraise & _).
  - left. vm_compute. reflexivity.
  - exact Hraise.
Defined.
